(** * The direct proxy client of hummingbird: dispatchers, proxy operations
      and the account-scoped client.

    A shallow embedding of the direct client of package [client]:
    [quorumResponse], [firstResponse], the [ProxyDirectClient] operations and
    the [directClient] wrappers, followed by the properties of the
    request-dispatch core that hold (or fail) on that code. *)

From Stdlib Require Import ZArith QArith Qround Lia Permutation Ascii String.
From stdpp Require Import base option list gmap strings pretty.

Local Open Scope Z_scope.

(** ** Go runtime outcomes *)

Module Go.

(** Why a Go function did not return normally. *)
Inductive panic : Type :=
| IndexOutOfRange        (* runtime error: index out of range *)
| NilDereference.        (* runtime error: invalid memory address or nil pointer dereference *)

(** The outcome of running a Go function: it returns a value, it panics,
    or it stays blocked on a channel operation that no other goroutine
    will ever complete. *)
Inductive exec (A : Type) : Type :=
| Returns (a : A)
| Panics (p : panic)
| BlocksForever.

Arguments Returns {A} a.
Arguments Panics {A} p.
Arguments BlocksForever {A}.

Definition bind {A B : Type} (m : exec A) (k : A -> exec B) : exec B :=
  match m with
  | Returns a => k a
  | Panics p => Panics p
  | BlocksForever => BlocksForever
  end.

(** Go's integer division truncates toward zero. *)
Definition div (a b : Z) : Z := Z.quot a b.

(** [s[i]] on a slice: a run-time bounds check. *)
Definition index {A : Type} (s : list A) (i : nat) : exec A :=
  match s !! i with
  | Some a => Returns a
  | None => Panics IndexOutOfRange
  end.

(** The order in which the goroutines blocked on an unbuffered channel
    get to deliver their value is chosen by the scheduler.  A schedule is
    a list of picks; pick [j] delivers the value of the [j]-th goroutine
    still waiting (a pick that names no waiting goroutine is skipped), and
    when the picks run out the remaining goroutines deliver in launch
    order. *)
Fixpoint arrivalOrder {A : Type} (picks : list nat) (waiting : list A) : list A :=
  match picks with
  | [] => waiting
  | j :: picks' =>
      match waiting !! j with
      | Some a => a :: arrivalOrder picks' (delete j waiting)
      | None => arrivalOrder picks' waiting
      end
  end.

End Go.

#[global] Instance exec_ret : MRet Go.exec := @Go.Returns.
#[global] Instance exec_bind : MBind Go.exec := fun A B k m => Go.bind m k.

(** ** Library functions the client calls *)

Module client_types.

(** Modelled from the spec: the [ContainerRecord] type of package [client]
    is declared outside the dispatch core; an account listing entry holds
    name, count, bytes and last_modified. *)
Record ContainerRecord : Type := {
  cr_Name : string; cr_Count : Z; cr_Bytes : Z; cr_LastModified : string;
}.

(** Modelled from the spec: the [ObjectRecord] type of package [client]; a
    container listing entry holds name, hash, bytes, content_type and
    last_modified. *)
Record ObjectRecord : Type := {
  or_Name : string; or_Hash : string; or_Bytes : Z;
  or_ContentType : string; or_LastModified : string;
}.

(** Modelled from the spec: the [HTTPError] type of package [client], "an
    HTTP-status error carrying the integer code"; [HTTPError(code)] is a
    conversion of the status code. *)
Inductive error : Type :=
| HTTPError (code : Z).

End client_types.

Import client_types.

(** The functions of Go's library and of package [common] that the client
    calls and whose code is not part of the dispatch core.  Everything below
    is stated for an arbitrary [Library]. *)
Record Library : Type := {
  (* net/textproto, used by http.Header.Get and http.Header.Set *)
  CanonicalMIMEHeaderKey : string -> string;
  (* net/url: whether url.Parse accepts the string; http.NewRequest fails otherwise *)
  urlParses : string -> bool;
  (* net/url *)
  QueryEscape : string -> string;
  (* common.Urlencode *)
  Urlencode : string -> string;
  (* common.Map2Headers and common.Headers2Map *)
  Map2Headers : gmap string string -> gmap string (list string);
  Headers2Map : gmap string (list string) -> gmap string string;
  (* encoding/json: Decoder.Decode into a listing, lenient on errors *)
  decodeContainerRecords : string -> list ContainerRecord;
  decodeObjectRecords : string -> list ObjectRecord;
}.

(** ** net/http *)

Module http.

(** [http.Header] is a [map[string][]string]. *)
Abbreviation Header := (gmap string (list string)).

(** [*http.Response]: the fields the client reads. *)
Record Response : Type := mkResponse {
  StatusCode : Z;
  resp_Header : Header;
  resp_Body : string;
}.

(** [http.Request]: method, URL, headers, and the pipe whose read end is
    the body (PutObject only). *)
Record Request : Type := mkRequest {
  Method : string;
  URL : string;
  req_Header : Header;
  req_Body : option nat;
}.

(** What [http.Client.Do] gives back: a response, or an error (with a nil
    response) when the transport failed. *)
Inductive DoResult : Type :=
| DoOk (resp : Response)
| DoErr.

Section WithLibrary.
Variable L : Library.

(** [h.Get(key)]: the first value stored under the canonical form of
    [key], or the empty string. *)
Definition Header_Get (h : Header) (key : string) : string :=
  match h !! CanonicalMIMEHeaderKey L key with
  | Some (v :: _) => v
  | _ => ""
  end.

(** [h.Set(key, value)]: the entry of the canonical form of [key] is
    replaced by the single value. *)
Definition Header_Set (h : Header) (key value : string) : Header :=
  <[CanonicalMIMEHeaderKey L key := [value]]> h.

(** [http.NewRequest(method, url, body)]: a nil request and an error
    when the URL does not parse. *)
Definition NewRequest (method url : string) (body : option nat) : option Request :=
  if urlParses L url then Some (mkRequest method url ∅ body) else None.

End WithLibrary.

End http.

Import Go http.

(** ** The rings *)

Module ring.

(** [ring.Device]: the fields the client reads. *)
Record Device : Type := mkDevice {
  Ip : string;
  Port : Z;
  Device_ : string;
}.

(** The [ring.Ring] interface. *)
Record Ring : Type := {
  GetPartition : string -> string -> string -> Z;
  GetNodes : Z -> list Device;
}.

End ring.

Import ring.

(** ** The quorum dispatcher *)

(** [quorum := int(math.Ceil(float64(len(reqs)) / 2.0))].  The conversion
    to float64 and the division by two are exact for every slice length
    below 2^53, so the quotient is taken in the rationals. *)
Definition quorum (len : nat) : Z :=
  Qceiling (inject_Z (Z.of_nat len) / 2).

(** [responseClasses := []int{0, 0, 0, 0, 0, 0}] *)
Definition responseClasses0 : list Z := [0; 0; 0; 0; 0; 0].

(** The body of a sub-request goroutine, up to its [select]:
    [status := 500; if resp, err := c.client.Do(req); err == nil { status = resp.StatusCode }]. *)
Definition goStatus (r : DoResult) : Z :=
  match r with
  | DoOk resp => StatusCode resp
  | DoErr => 500
  end.

(** [for status := range statusCodes { ... }; return 503].

    [arrivals] are the values the goroutines deliver on [statusCodes], in
    the order the loop receives them.  Once every goroutine has delivered,
    the next receive finds no sender: the loop ends if the channel has been
    closed ([closed = true]) and blocks forever otherwise. *)
Fixpoint rangeStatusCodes (quorum : Z) (responseClasses : list Z)
    (arrivals : list Z) (closed : bool) : exec Z :=
  match arrivals with
  | [] => if closed then Returns 503 else BlocksForever
  | status :: rest =>
      let class := Go.div status 100 in
      if class <=? 5 then
        if class <? 0 then Panics IndexOutOfRange
        else
          let n := nth (Z.to_nat class) responseClasses 0 + 1 in
          if n >=? quorum then Returns status
          else rangeStatusCodes quorum (<[Z.to_nat class := n]> responseClasses) rest closed
      else rangeStatusCodes quorum responseClasses rest closed
  end.

(** The network as one call sees it: the result of [c.client.Do] for the
    [i]-th sub-request launched. *)
Definition Transport : Type := nat -> Request -> DoResult.

(** A [*http.Request] may be nil; a goroutine that is handed a nil request
    dereferences it ([c.client.Do(req)], [r.Cancel = cancel]) and the
    process ends with a panic. *)
Fixpoint derefAll (reqs : list (option Request)) : exec (list Request) :=
  match reqs with
  | [] => Returns []
  | None :: _ => Panics NilDereference
  | Some r :: reqs' => rs ← derefAll reqs'; Returns (r :: rs)
  end.

(** The statuses the sub-request goroutines hold when they reach their
    [select], in launch order. *)
Definition statuses (Do : Transport) (reqs : list Request) : list Z :=
  imap (fun i req => goStatus (Do i req)) reqs.

(** [func (c *ProxyDirectClient) quorumResponse(reqs ...*http.Request) int].
    Nothing in the function closes [statusCodes]. *)
Definition quorumResponse (Do : Transport) (reqs : list (option Request))
    (picks : list nat) : exec Z :=
  rs ← derefAll reqs;
  rangeStatusCodes (quorum (length reqs)) responseClasses0
    (arrivalOrder picks (statuses Do rs)) false.

(** ** The first-response dispatcher *)

(** What the [select] of one loop iteration does: it receives the response
    of the [j]-th goroutine that is still waiting to deliver, or the
    one-second timer fires. *)
Inductive selectEvent : Type :=
| RecvSuccess (j : nat)
| TimeAfter.

(** The value a goroutine of [firstResponse] sends:
    [response, err := c.client.Do(r); if err != nil { response = nil }]. *)
Definition goResponse (r : DoResult) : option Response :=
  match r with
  | DoOk resp => Some resp
  | DoErr => None
  end.

(** [resp != nil && resp.StatusCode/100 == 2] *)
Definition is2xx (resp : option Response) : bool :=
  match resp with
  | Some r => Go.div (StatusCode r) 100 =? 2
  | None => false
  end.

(** The loop of [firstResponse]: iteration [i] launches the goroutine of
    [reqs[i]] and runs one [select].  [waiting] holds what the goroutines
    launched so far have not delivered yet.  A [RecvSuccess] that names no
    waiting goroutine, and the end of the schedule, let the timer fire. *)
Fixpoint firstResponseLoop (Do : Transport) (i : nat) (waiting : list (option Response))
    (reqs : list (option Request)) (sched : list selectEvent) : exec (option Response) :=
  match reqs with
  | [] => Returns None
  | None :: _ => Panics NilDereference
  | Some r :: reqs' =>
      let waiting' := waiting ++ [goResponse (Do i r)] in
      match sched with
      | RecvSuccess j :: sched' =>
          match waiting' !! j with
          | Some resp =>
              if is2xx resp then Returns resp
              else firstResponseLoop Do (S i) (delete j waiting') reqs' sched'
          | None => firstResponseLoop Do (S i) waiting' reqs' sched'
          end
      | TimeAfter :: sched' => firstResponseLoop Do (S i) waiting' reqs' sched'
      | [] => firstResponseLoop Do (S i) waiting' reqs' []
      end
  end.

(** [func (c *ProxyDirectClient) firstResponse(reqs ...*http.Request) (resp *http.Response)] *)
Definition firstResponse (Do : Transport) (reqs : list (option Request))
    (sched : list selectEvent) : exec (option Response) :=
  firstResponseLoop Do 0 [] reqs sched.

(** ** Building the sub-requests *)

(** What one iteration of a request-building loop does: it appends to the
    slice it builds, or it leaves the iteration with [continue]. *)
Inductive iteration (A : Type) : Type :=
| Append (a : A)
| Continue.

Arguments Append {A} a.
Arguments Continue {A}.

(** [for i, device := range nodes { body }] *)
Fixpoint rangeNodes {A : Type} (body : nat -> Device -> exec (iteration A))
    (i : nat) (nodes : list Device) : exec (list A) :=
  match nodes with
  | [] => Returns []
  | device :: nodes' =>
      it ← body i device;
      rest ← rangeNodes body (S i) nodes';
      Returns (match it with Append a => a :: rest | Continue => rest end)
  end.

(** [strings.TrimRight(query, "&")] *)
Fixpoint TrimRight_amp (s : string) : string :=
  match s with
  | EmptyString => EmptyString
  | String a s' =>
      let t := TrimRight_amp s' in
      if bool_decide (a = "&"%char) && bool_decide (t = EmptyString)
      then EmptyString else String a t
  end.

Section Requests.

Variable L : Library.

(** [func mkquery(options map[string]string) string] *)
Definition mkquery (options : gmap string string) : string :=
  let query :=
    foldl (fun query kv =>
             if bool_decide (kv.2 = "") then query
             else query +:+ QueryEscape L kv.1 +:+ "=" +:+ QueryEscape L kv.2 +:+ "&")
          "" (map_to_list options) in
  if bool_decide (query = "") then "" else "?" +:+ TrimRight_amp query.

(** [fmt.Sprintf("http://%s:%d/%s/%d" + path, device.Ip, device.Port,
    device.Device, partition, ...)]: [path] is the rest of the format with
    its arguments filled in. *)
Definition Sprintf_url (device : Device) (partition : Z) (path : string) : string :=
  "http://" +:+ Ip device +:+ ":" +:+ pretty (Port device) +:+ "/" +:+
  Device_ device +:+ "/" +:+ pretty partition +:+ path.

(** [fmt.Sprintf("%s:%d", d.Ip, d.Port)] *)
Definition Sprintf_host (d : Device) : string :=
  Ip d +:+ ":" +:+ pretty (Port d).

(** [req.Header.Set(key, value)] on a request pointer that may be nil. *)
Definition setHeader (req : option Request) (key value : string) : exec (option Request) :=
  match req with
  | None => Panics NilDereference
  | Some r =>
      Returns (Some (mkRequest (Method r) (URL r)
                       (Header_Set L (req_Header r) key value) (req_Body r)))
  end.

(** [for key := range keys { req.Header.Set(key, headers.Get(key)) }] *)
Definition setHeaders (keys : list string) (headers : Header)
    (req : option Request) : exec (option Request) :=
  foldl (fun acc key => r ← acc; setHeader r key (Header_Get L headers key))
        (Returns req) keys.

(** [for key := range headers { req.Header.Set(key, headers.Get(key)) }];
    the keys come in the order the map enumerates them. *)
Definition copyHeaders (headers : Header) (req : option Request) : exec (option Request) :=
  setHeaders (map_to_list headers).*1 headers req.

End Requests.

(** ** ProxyDirectClient *)

Module ProxyDirectClient.

(** [type ProxyDirectClient struct]; [client] is the shared [*http.Client]. *)
Record t : Type := mk {
  client : Transport;
  AccountRing : Ring;
  ContainerRing : Ring;
  ObjectRing : Ring;
}.

(** The result of the read operations: body, headers (both nil when no
    replica answered 2xx) and status. *)
Definition readResult (resp : option Response) : option string * option Header * Z :=
  match resp with
  | None => (None, None, 404)
  | Some r => (Some (resp_Body r), Some (resp_Header r), StatusCode r)
  end.

(** The result of the HEAD operations: [resp.Body.Close()], then headers
    and status. *)
Definition headResult (resp : option Response) : option Header * Z :=
  match resp with
  | None => (None, 404)
  | Some r => (Some (resp_Header r), StatusCode r)
  end.

Section Operations.

Variable L : Library.
Variable c : t.

(** *** Account tier *)

Definition PutAccount_reqs (account : string) (headers : Header)
    : exec (list (option Request)) :=
  let partition := GetPartition (AccountRing c) account "" "" in
  rangeNodes (fun _ device =>
    let url := Sprintf_url device partition ("/" +:+ Urlencode L account) in
    let req := NewRequest L "PUT" url None in
    req ← copyHeaders L headers req;
    Returns (Append req)) 0 (GetNodes (AccountRing c) partition).

Definition PutAccount (account : string) (headers : Header) (picks : list nat) : exec Z :=
  reqs ← PutAccount_reqs account headers;
  quorumResponse (client c) reqs picks.

Definition PostAccount_reqs (account : string) (headers : Header)
    : exec (list (option Request)) :=
  let partition := GetPartition (AccountRing c) account "" "" in
  rangeNodes (fun _ device =>
    let url := Sprintf_url device partition ("/" +:+ Urlencode L account) in
    let req := NewRequest L "POST" url None in
    req ← copyHeaders L headers req;
    Returns (Append req)) 0 (GetNodes (AccountRing c) partition).

Definition PostAccount (account : string) (headers : Header) (picks : list nat) : exec Z :=
  reqs ← PostAccount_reqs account headers;
  quorumResponse (client c) reqs picks.

Definition GetAccount_reqs (account : string) (options : gmap string string)
    (headers : Header) : exec (list (option Request)) :=
  let partition := GetPartition (AccountRing c) account "" "" in
  let query := mkquery L options in
  rangeNodes (fun _ device =>
    let url := Sprintf_url device partition ("/" +:+ Urlencode L account +:+ query) in
    let req := NewRequest L "GET" url None in
    req ← copyHeaders L headers req;
    Returns (Append req)) 0 (GetNodes (AccountRing c) partition).

Definition GetAccount (account : string) (options : gmap string string)
    (headers : Header) (sched : list selectEvent)
    : exec (option string * option Header * Z) :=
  reqs ← GetAccount_reqs account options headers;
  resp ← firstResponse (client c) reqs sched;
  Returns (readResult resp).

Definition HeadAccount_reqs (account : string) (headers : Header)
    : exec (list (option Request)) :=
  let partition := GetPartition (AccountRing c) account "" "" in
  rangeNodes (fun _ device =>
    let url := Sprintf_url device partition ("/" +:+ Urlencode L account) in
    match NewRequest L "HEAD" url None with
    | None => Returns Continue
    | Some r =>
        req ← copyHeaders L headers (Some r);
        Returns (Append req)
    end) 0 (GetNodes (AccountRing c) partition).

Definition HeadAccount (account : string) (headers : Header) (sched : list selectEvent)
    : exec (option Header * Z) :=
  reqs ← HeadAccount_reqs account headers;
  resp ← firstResponse (client c) reqs sched;
  Returns (headResult resp).

Definition DeleteAccount_reqs (account : string) (headers : Header)
    : exec (list (option Request)) :=
  let partition := GetPartition (AccountRing c) account "" "" in
  rangeNodes (fun _ device =>
    let url := Sprintf_url device partition ("/" +:+ Urlencode L account) in
    let req := NewRequest L "DELETE" url None in
    req ← copyHeaders L headers req;
    Returns (Append req)) 0 (GetNodes (AccountRing c) partition).

Definition DeleteAccount (account : string) (headers : Header) (picks : list nat) : exec Z :=
  reqs ← DeleteAccount_reqs account headers;
  quorumResponse (client c) reqs picks.

(** *** Container tier *)

Definition PutContainer_reqs (account container : string) (headers : Header)
    : exec (list (option Request)) :=
  let partition := GetPartition (ContainerRing c) account container "" in
  let accountPartition := GetPartition (AccountRing c) account "" "" in
  let accountDevices := GetNodes (AccountRing c) accountPartition in
  rangeNodes (fun i device =>
    let url := Sprintf_url device partition
                 ("/" +:+ Urlencode L account +:+ "/" +:+ Urlencode L container) in
    let req := NewRequest L "PUT" url None in
    req ← copyHeaders L headers req;
    req ← setHeader L req "X-Account-Partition" (pretty accountPartition);
    d ← Go.index accountDevices i;
    req ← setHeader L req "X-Account-Host" (Sprintf_host d);
    d ← Go.index accountDevices i;
    req ← setHeader L req "X-Account-Device" (Device_ d);
    Returns (Append req)) 0 (GetNodes (ContainerRing c) partition).

Definition PutContainer (account container : string) (headers : Header)
    (picks : list nat) : exec Z :=
  reqs ← PutContainer_reqs account container headers;
  quorumResponse (client c) reqs picks.

Definition PostContainer_reqs (account container : string) (headers : Header)
    : exec (list (option Request)) :=
  let partition := GetPartition (ContainerRing c) account container "" in
  rangeNodes (fun _ device =>
    let url := Sprintf_url device partition
                 ("/" +:+ Urlencode L account +:+ "/" +:+ Urlencode L container) in
    let req := NewRequest L "POST" url None in
    req ← copyHeaders L headers req;
    Returns (Append req)) 0 (GetNodes (ContainerRing c) partition).

Definition PostContainer (account container : string) (headers : Header)
    (picks : list nat) : exec Z :=
  reqs ← PostContainer_reqs account container headers;
  quorumResponse (client c) reqs picks.

Definition GetContainer_reqs (account container : string)
    (options : gmap string string) (headers : Header) : exec (list (option Request)) :=
  let partition := GetPartition (ContainerRing c) account container "" in
  let query := mkquery L options in
  rangeNodes (fun _ device =>
    let url := Sprintf_url device partition
                 ("/" +:+ Urlencode L account +:+ "/" +:+ Urlencode L container +:+ query) in
    let req := NewRequest L "GET" url None in
    req ← copyHeaders L headers req;
    Returns (Append req)) 0 (GetNodes (ContainerRing c) partition).

Definition GetContainer (account container : string) (options : gmap string string)
    (headers : Header) (sched : list selectEvent)
    : exec (option string * option Header * Z) :=
  reqs ← GetContainer_reqs account container options headers;
  resp ← firstResponse (client c) reqs sched;
  Returns (readResult resp).

Definition HeadContainer_reqs (account container : string) (headers : Header)
    : exec (list (option Request)) :=
  let partition := GetPartition (ContainerRing c) account container "" in
  rangeNodes (fun _ device =>
    let url := Sprintf_url device partition
                 ("/" +:+ Urlencode L account +:+ "/" +:+ Urlencode L container) in
    match NewRequest L "HEAD" url None with
    | None => Returns Continue
    | Some r =>
        req ← copyHeaders L headers (Some r);
        Returns (Append req)
    end) 0 (GetNodes (ContainerRing c) partition).

Definition HeadContainer (account container : string) (headers : Header)
    (sched : list selectEvent) : exec (option Header * Z) :=
  reqs ← HeadContainer_reqs account container headers;
  resp ← firstResponse (client c) reqs sched;
  Returns (headResult resp).

Definition DeleteContainer_reqs (account container : string) (headers : Header)
    : exec (list (option Request)) :=
  let partition := GetPartition (ContainerRing c) account container "" in
  let accountPartition := GetPartition (AccountRing c) account "" "" in
  let accountDevices := GetNodes (AccountRing c) accountPartition in
  rangeNodes (fun i device =>
    let url := Sprintf_url device partition
                 ("/" +:+ Urlencode L account +:+ "/" +:+ Urlencode L container) in
    let req := NewRequest L "DELETE" url None in
    req ← copyHeaders L headers req;
    req ← setHeader L req "X-Account-Partition" (pretty accountPartition);
    d ← Go.index accountDevices i;
    req ← setHeader L req "X-Account-Host" (Sprintf_host d);
    d ← Go.index accountDevices i;
    req ← setHeader L req "X-Account-Device" (Device_ d);
    Returns (Append req)) 0 (GetNodes (ContainerRing c) partition).

Definition DeleteContainer (account container : string) (headers : Header)
    (picks : list nat) : exec Z :=
  reqs ← DeleteContainer_reqs account container headers;
  quorumResponse (client c) reqs picks.

(** *** Object tier *)

(** The loop of [PutObject].  Iteration [i] creates the pipe [i]
    ([rp, wp := io.Pipe()], with [defer wp.Close()] and
    [defer rp.Close()]) before it builds the request; an iteration that
    is left with [continue] adds neither a writer nor a request.  The
    result pairs each appended write end with its request. *)
Definition PutObject_loop (account container obj : string) (headers : Header)
    : exec (list (nat * option Request)) :=
  let partition := GetPartition (ObjectRing c) account container obj in
  let containerPartition := GetPartition (ContainerRing c) account container "" in
  let containerDevices := GetNodes (ContainerRing c) containerPartition in
  rangeNodes (fun i device =>
    let url := Sprintf_url device partition
                 ("/" +:+ Urlencode L account +:+ "/" +:+ Urlencode L container +:+
                  "/" +:+ Urlencode L obj) in
    match NewRequest L "PUT" url (Some i) with
    | None => Returns Continue
    | Some r =>
        req ← copyHeaders L headers (Some r);
        req ← setHeader L req "Content-Type" "application/octet-stream";
        req ← setHeader L req "X-Container-Partition" (pretty containerPartition);
        d ← Go.index containerDevices i;
        req ← setHeader L req "X-Container-Host" (Sprintf_host d);
        d ← Go.index containerDevices i;
        req ← setHeader L req "X-Container-Device" (Device_ d);
        req ← setHeader L req "Expect" "100-Continue";
        Returns (Append (i, req))
    end) 0 (GetNodes (ObjectRing c) partition).

(** The slices [writers] and [reqs] that the loop leaves. *)
Definition PutObject_writers (account container obj : string) (headers : Header)
    : exec (list nat) :=
  l ← PutObject_loop account container obj headers; Returns l.*1.

Definition PutObject_reqs (account container obj : string) (headers : Header)
    : exec (list (option Request)) :=
  l ← PutObject_loop account container obj headers; Returns l.*2.

(** [mw := io.MultiWriter(writers[0], writers[1], writers[2])]: the write
    ends that [io.Copy(mw, src)] feeds. *)
Definition MultiWriter_of (writers : list nat) : exec (list nat) :=
  w0 ← Go.index writers 0;
  w1 ← Go.index writers 1;
  w2 ← Go.index writers 2;
  Returns [w0; w1; w2].

(** [PutObject]: the transfer goroutine starts with the three index
    expressions, and a panic in a goroutine ends the process. *)
Definition PutObject (account container obj : string) (headers : Header)
    (picks : list nat) : exec Z :=
  l ← PutObject_loop account container obj headers;
  _ ← MultiWriter_of l.*1;
  quorumResponse (client c) l.*2 picks.

Definition PostObject_reqs (account container obj : string) (headers : Header)
    : exec (list (option Request)) :=
  let partition := GetPartition (ObjectRing c) account container obj in
  let containerPartition := GetPartition (ContainerRing c) account container "" in
  let containerDevices := GetNodes (ContainerRing c) containerPartition in
  rangeNodes (fun i device =>
    let url := Sprintf_url device partition
                 ("/" +:+ Urlencode L account +:+ "/" +:+ Urlencode L container +:+
                  "/" +:+ Urlencode L obj) in
    let req := NewRequest L "POST" url None in
    req ← copyHeaders L headers req;
    req ← setHeader L req "Content-Type" "application/octet-stream";
    req ← setHeader L req "X-Container-Partition" (pretty containerPartition);
    d ← Go.index containerDevices i;
    req ← setHeader L req "X-Container-Host" (Sprintf_host d);
    d ← Go.index containerDevices i;
    req ← setHeader L req "X-Container-Device" (Device_ d);
    Returns (Append req)) 0 (GetNodes (ObjectRing c) partition).

Definition PostObject (account container obj : string) (headers : Header)
    (picks : list nat) : exec Z :=
  reqs ← PostObject_reqs account container obj headers;
  quorumResponse (client c) reqs picks.

Definition GetObject_reqs (account container obj : string) (headers : Header)
    : exec (list (option Request)) :=
  let partition := GetPartition (ObjectRing c) account container obj in
  let nodes := GetNodes (ObjectRing c) partition in
  rangeNodes (fun _ device =>
    let url := Sprintf_url device partition
                 ("/" +:+ Urlencode L account +:+ "/" +:+ Urlencode L container +:+
                  "/" +:+ Urlencode L obj) in
    match NewRequest L "GET" url None with
    | None => Returns Continue
    | Some r =>
        req ← copyHeaders L headers (Some r);
        Returns (Append req)
    end) 0 nodes.

Definition GetObject (account container obj : string) (headers : Header)
    (sched : list selectEvent) : exec (option string * option Header * Z) :=
  reqs ← GetObject_reqs account container obj headers;
  resp ← firstResponse (client c) reqs sched;
  Returns (readResult resp).

Definition GrepObject_reqs (account container obj search : string)
    : exec (list (option Request)) :=
  let partition := GetPartition (ObjectRing c) account container obj in
  let nodes := GetNodes (ObjectRing c) partition in
  rangeNodes (fun _ device =>
    let url := Sprintf_url device partition
                 ("/" +:+ Urlencode L account +:+ "/" +:+ Urlencode L container +:+
                  "/" +:+ Urlencode L obj +:+ "?e=" +:+ Urlencode L search) in
    match NewRequest L "GREP" url None with
    | None => Returns Continue
    | Some r => Returns (Append (Some r))
    end) 0 nodes.

Definition GrepObject (account container obj search : string)
    (sched : list selectEvent) : exec (option string * option Header * Z) :=
  reqs ← GrepObject_reqs account container obj search;
  resp ← firstResponse (client c) reqs sched;
  Returns (readResult resp).

Definition HeadObject_reqs (account container obj : string) (headers : Header)
    : exec (list (option Request)) :=
  let partition := GetPartition (ObjectRing c) account container obj in
  let nodes := GetNodes (ObjectRing c) partition in
  rangeNodes (fun _ device =>
    let url := Sprintf_url device partition
                 ("/" +:+ Urlencode L account +:+ "/" +:+ Urlencode L container +:+
                  "/" +:+ Urlencode L obj) in
    match NewRequest L "HEAD" url None with
    | None => Returns Continue
    | Some r =>
        req ← copyHeaders L headers (Some r);
        Returns (Append req)
    end) 0 nodes.

Definition HeadObject (account container obj : string) (headers : Header)
    (sched : list selectEvent) : exec (option Header * Z) :=
  reqs ← HeadObject_reqs account container obj headers;
  resp ← firstResponse (client c) reqs sched;
  Returns (headResult resp).

Definition DeleteObject_reqs (account container obj : string) (headers : Header)
    : exec (list (option Request)) :=
  let partition := GetPartition (ObjectRing c) account container obj in
  let containerPartition := GetPartition (ContainerRing c) account container "" in
  let containerDevices := GetNodes (ContainerRing c) containerPartition in
  rangeNodes (fun i device =>
    let url := Sprintf_url device partition
                 ("/" +:+ Urlencode L account +:+ "/" +:+ Urlencode L container +:+
                  "/" +:+ Urlencode L obj) in
    let req := NewRequest L "DELETE" url None in
    req ← copyHeaders L headers req;
    req ← setHeader L req "Content-Type" "application/octet-stream";
    req ← setHeader L req "X-Container-Partition" (pretty containerPartition);
    d ← Go.index containerDevices i;
    req ← setHeader L req "X-Container-Host" (Sprintf_host d);
    d ← Go.index containerDevices i;
    req ← setHeader L req "X-Container-Device" (Device_ d);
    Returns (Append req)) 0 (GetNodes (ObjectRing c) partition).

Definition DeleteObject (account container obj : string) (headers : Header)
    (picks : list nat) : exec Z :=
  reqs ← DeleteObject_reqs account container obj headers;
  quorumResponse (client c) reqs picks.

End Operations.

End ProxyDirectClient.

(** ** The pipes of PutObject *)

(** Who calls [Close] on a pipe end: the deferred calls of [PutObject]
    ([defer wp.Close()], [defer rp.Close()]) or the transfer goroutine. *)
Inductive caller : Type :=
| Deferred
| TransferGoroutine.

Inductive pipeEvent : Type :=
| QuorumReturned (status : Z)          (* c.quorumResponse(reqs...) returned to PutObject *)
| CopyReturned                         (* io.Copy(mw, src) returned: src exhausted, or an error *)
| CloseWriter (by_ : caller) (w : nat) (* writers[w].Close() *)
| CloseReader (r : nat).               (* rp.Close() *)

#[global] Instance caller_eq_dec : EqDecision caller.
Proof. solve_decision. Defined.

#[global] Instance pipeEvent_eq_dec : EqDecision pipeEvent.
Proof. solve_decision. Defined.

(** The deferred calls run when [PutObject] returns, last deferred first:
    every iteration of the loop deferred [wp.Close()] and then [rp.Close()]. *)
Definition deferredCalls (pipes : nat) : list pipeEvent :=
  flat_map (fun i => [CloseReader i; CloseWriter Deferred i]) (rev (seq 0 pipes)).

(** What the calling goroutine does to the pipes after the loop: nothing
    unless [quorumResponse] returns. *)
Definition callEvents (pipes : nat) (result : exec Z) : list pipeEvent :=
  match result with
  | Returns status => QuorumReturned status :: deferredCalls pipes
  | _ => []
  end.

(** [go func() { mw := io.MultiWriter(...); io.Copy(mw, src);
    for _, writer := range writers { writer.Close() } }()] *)
Definition transferEvents (writers : list nat) : exec (list pipeEvent) :=
  _ ← ProxyDirectClient.MultiWriter_of writers;
  Returns (CopyReturned :: (CloseWriter TransferGoroutine <$> writers)).

(** The two goroutines run concurrently: an execution merges their events. *)
Inductive interleaving {A : Type} : list A -> list A -> list A -> Prop :=
| interleaving_nil : interleaving [] [] []
| interleaving_l a l1 l2 t : interleaving l1 l2 t -> interleaving (a :: l1) l2 (a :: t)
| interleaving_r a l1 l2 t : interleaving l1 l2 t -> interleaving l1 (a :: l2) (a :: t).

(** The executions of [PutObject], as seen on its pipes. *)
Definition PutObject_trace (L : Library) (c : ProxyDirectClient.t)
    (account container obj : string) (headers : Header) (picks : list nat)
    (t : list pipeEvent) : Prop :=
  let nodes := GetNodes (ProxyDirectClient.ObjectRing c)
                 (GetPartition (ProxyDirectClient.ObjectRing c) account container obj) in
  exists l tr,
    ProxyDirectClient.PutObject_loop L c account container obj headers = Returns l /\
    transferEvents l.*1 = Returns tr /\
    interleaving
      (callEvents (length nodes) (quorumResponse (ProxyDirectClient.client c) l.*2 picks))
      tr t.

(** The number of [Close] calls on write end [w] in an execution. *)
Definition closeCalls (by_ : caller) (w : nat) (t : list pipeEvent) : nat :=
  length (filter (fun e => e = CloseWriter by_ w) t).

(** ** The account-scoped client *)

Module directClient.

(** [type directClient struct { *ProxyDirectClient; account string }] *)
Record t : Type := mk {
  base : ProxyDirectClient.t;
  account : string;
}.

(** [if code/100 != 2 { return HTTPError(code) }; return nil] *)
Definition errorUnless2xx (code : Z) : option error :=
  if negb (Go.div code 100 =? 2) then Some (HTTPError code) else None.

Section Methods.

Variable L : Library.
Variable c : t.

Definition PutAccount (headers : gmap string string) (picks : list nat)
    : exec (option error) :=
  code ← ProxyDirectClient.PutAccount L (base c) (account c) (Map2Headers L headers) picks;
  Returns (errorUnless2xx code).

Definition PostAccount (headers : gmap string string) (picks : list nat)
    : exec (option error) :=
  code ← ProxyDirectClient.PostAccount L (base c) (account c) (Map2Headers L headers) picks;
  Returns (errorUnless2xx code).

(** The [options] map of the two listing methods. *)
Definition listingOptions (marker endMarker : string) (limit : Z)
    (prefix delimiter : string) : gmap string string :=
  let options : gmap string string :=
    {[ "format" := "json"; "marker" := marker; "end_marker" := endMarker;
       "prefix" := prefix; "delimiter" := delimiter ]} in
  if negb (limit =? 0) then <["limit" := pretty limit]> options else options.

Definition GetAccount (marker endMarker : string) (limit : Z)
    (prefix delimiter : string) (headers : gmap string string)
    (sched : list selectEvent)
    : exec (list ContainerRecord * option (gmap string string) * option error) :=
  let options := listingOptions marker endMarker limit prefix delimiter in
  '(r, h, code) ← ProxyDirectClient.GetAccount L (base c) (account c) options
          (Map2Headers L headers) sched;
  if negb (code =? 200) then Returns ([], None, Some (HTTPError code))
  else
    match r, h with
    | Some r, Some h =>
        Returns (decodeContainerRecords L r, Some (Headers2Map L h), None)
    | _, _ => Panics NilDereference
    end.

Definition HeadAccount (headers : gmap string string) (sched : list selectEvent)
    : exec (option (gmap string string) * option error) :=
  '(h, code) ← ProxyDirectClient.HeadAccount L (base c) (account c) (Map2Headers L headers) sched;
  if negb (Go.div code 100 =? 2) then Returns (None, Some (HTTPError code))
  else Returns (option_map (Headers2Map L) h, None).

Definition DeleteAccount (headers : gmap string string) (picks : list nat)
    : exec (option error) :=
  code ← ProxyDirectClient.DeleteAccount L (base c) (account c) (Map2Headers L headers) picks;
  Returns (errorUnless2xx code).

Definition PutContainer (container : string) (headers : gmap string string)
    (picks : list nat) : exec (option error) :=
  code ← ProxyDirectClient.PutContainer L (base c) (account c) container
           (Map2Headers L headers) picks;
  Returns (errorUnless2xx code).

Definition PostContainer (container : string) (headers : gmap string string)
    (picks : list nat) : exec (option error) :=
  code ← ProxyDirectClient.PostContainer L (base c) (account c) container
           (Map2Headers L headers) picks;
  Returns (errorUnless2xx code).

Definition GetContainer (container marker endMarker : string) (limit : Z)
    (prefix delimiter : string) (headers : gmap string string)
    (sched : list selectEvent)
    : exec (list ObjectRecord * option (gmap string string) * option error) :=
  let options := listingOptions marker endMarker limit prefix delimiter in
  '(r, h, code) ← ProxyDirectClient.GetContainer L (base c) (account c) container options
          (Map2Headers L headers) sched;
  if negb (code =? 200) then Returns ([], None, Some (HTTPError code))
  else
    match r, h with
    | Some r, Some h =>
        Returns (decodeObjectRecords L r, Some (Headers2Map L h), None)
    | _, _ => Panics NilDereference
    end.

Definition HeadContainer (container : string) (headers : gmap string string)
    (sched : list selectEvent) : exec (option (gmap string string) * option error) :=
  '(h, code) ← ProxyDirectClient.HeadContainer L (base c) (account c) container
          (Map2Headers L headers) sched;
  if negb (Go.div code 100 =? 2) then Returns (None, Some (HTTPError code))
  else Returns (option_map (Headers2Map L) h, None).

Definition DeleteContainer (container : string) (headers : gmap string string)
    (picks : list nat) : exec (option error) :=
  code ← ProxyDirectClient.DeleteContainer L (base c) (account c) container
           (Map2Headers L headers) picks;
  Returns (errorUnless2xx code).

Definition PutObject (container obj : string) (headers : gmap string string)
    (picks : list nat) : exec (option error) :=
  code ← ProxyDirectClient.PutObject L (base c) (account c) container obj
           (Map2Headers L headers) picks;
  Returns (errorUnless2xx code).

Definition PostObject (container obj : string) (headers : gmap string string)
    (picks : list nat) : exec (option error) :=
  code ← ProxyDirectClient.PostObject L (base c) (account c) container obj
           (Map2Headers L headers) picks;
  Returns (errorUnless2xx code).

Definition GetObject (container obj : string) (headers : gmap string string)
    (sched : list selectEvent)
    : exec (option string * option (gmap string string) * option error) :=
  '(r, h, code) ← ProxyDirectClient.GetObject L (base c) (account c) container obj
          (Map2Headers L headers) sched;
  if negb (Go.div code 100 =? 2) then Returns (None, None, Some (HTTPError code))
  else Returns (r, option_map (Headers2Map L) h, None).

Definition HeadObject (container obj : string) (headers : gmap string string)
    (sched : list selectEvent) : exec (option (gmap string string) * option error) :=
  '(h, code) ← ProxyDirectClient.HeadObject L (base c) (account c) container obj
          (Map2Headers L headers) sched;
  if negb (Go.div code 100 =? 2) then Returns (None, Some (HTTPError code))
  else Returns (option_map (Headers2Map L) h, None).

Definition DeleteObject (container obj : string) (headers : gmap string string)
    (picks : list nat) : exec (option error) :=
  code ← ProxyDirectClient.DeleteObject L (base c) (account c) container obj
           (Map2Headers L headers) picks;
  Returns (errorUnless2xx code).

End Methods.

End directClient.

(** ** The calls of the two interfaces *)

(** A call of one of the [ProxyDirectClient] operations, with its arguments. *)
Inductive call : Type :=
| CallPutAccount (account : string) (headers : Header)
| CallPostAccount (account : string) (headers : Header)
| CallGetAccount (account : string) (options : gmap string string) (headers : Header)
| CallHeadAccount (account : string) (headers : Header)
| CallDeleteAccount (account : string) (headers : Header)
| CallPutContainer (account container : string) (headers : Header)
| CallPostContainer (account container : string) (headers : Header)
| CallGetContainer (account container : string) (options : gmap string string)
    (headers : Header)
| CallHeadContainer (account container : string) (headers : Header)
| CallDeleteContainer (account container : string) (headers : Header)
| CallPutObject (account container obj : string) (headers : Header)
| CallPostObject (account container obj : string) (headers : Header)
| CallGetObject (account container obj : string) (headers : Header)
| CallGrepObject (account container obj search : string)
| CallHeadObject (account container obj : string) (headers : Header)
| CallDeleteObject (account container obj : string) (headers : Header).

(** The slice [reqs] that the call hands to its dispatcher. *)
Definition subRequests (L : Library) (c : ProxyDirectClient.t) (op : call)
    : exec (list (option Request)) :=
  match op with
  | CallPutAccount a h => ProxyDirectClient.PutAccount_reqs L c a h
  | CallPostAccount a h => ProxyDirectClient.PostAccount_reqs L c a h
  | CallGetAccount a o h => ProxyDirectClient.GetAccount_reqs L c a o h
  | CallHeadAccount a h => ProxyDirectClient.HeadAccount_reqs L c a h
  | CallDeleteAccount a h => ProxyDirectClient.DeleteAccount_reqs L c a h
  | CallPutContainer a co h => ProxyDirectClient.PutContainer_reqs L c a co h
  | CallPostContainer a co h => ProxyDirectClient.PostContainer_reqs L c a co h
  | CallGetContainer a co o h => ProxyDirectClient.GetContainer_reqs L c a co o h
  | CallHeadContainer a co h => ProxyDirectClient.HeadContainer_reqs L c a co h
  | CallDeleteContainer a co h => ProxyDirectClient.DeleteContainer_reqs L c a co h
  | CallPutObject a co o h => ProxyDirectClient.PutObject_reqs L c a co o h
  | CallPostObject a co o h => ProxyDirectClient.PostObject_reqs L c a co o h
  | CallGetObject a co o h => ProxyDirectClient.GetObject_reqs L c a co o h
  | CallGrepObject a co o e => ProxyDirectClient.GrepObject_reqs L c a co o e
  | CallHeadObject a co o h => ProxyDirectClient.HeadObject_reqs L c a co o h
  | CallDeleteObject a co o h => ProxyDirectClient.DeleteObject_reqs L c a co o h
  end.

(** The header map the caller supplied ([GrepObject] takes none). *)
Definition callerHeaders (op : call) : Header :=
  match op with
  | CallPutAccount _ h | CallPostAccount _ h | CallGetAccount _ _ h
  | CallHeadAccount _ h | CallDeleteAccount _ h
  | CallPutContainer _ _ h | CallPostContainer _ _ h | CallGetContainer _ _ _ h
  | CallHeadContainer _ _ h | CallDeleteContainer _ _ h
  | CallPutObject _ _ _ h | CallPostObject _ _ _ h | CallGetObject _ _ _ h
  | CallHeadObject _ _ _ h | CallDeleteObject _ _ _ h => h
  | CallGrepObject _ _ _ _ => ∅
  end.

(** The keys the operation sets itself, after it has copied the caller's. *)
Definition ownHeaders (op : call) : list string :=
  match op with
  | CallPutContainer _ _ _ | CallDeleteContainer _ _ _ =>
      ["X-Account-Partition"; "X-Account-Host"; "X-Account-Device"]
  | CallPutObject _ _ _ _ =>
      ["Content-Type"; "X-Container-Partition"; "X-Container-Host"; "X-Container-Device";
       "Expect"]
  | CallPostObject _ _ _ _ | CallDeleteObject _ _ _ _ =>
      ["Content-Type"; "X-Container-Partition"; "X-Container-Host"; "X-Container-Device"]
  | _ => []
  end.

(** The placement of a child-tier mutation: the partition and the devices
    of the child, the partition and the devices of the parent, and the
    three header keys. *)
Record placement : Type := mkPlacement {
  childPartition : Z;
  childNodes : list Device;
  parentPartition : Z;
  parentNodes : list Device;
  partitionKey : string;
  hostKey : string;
  deviceKey : string;
}.

Definition containerPlacement (c : ProxyDirectClient.t) (account container : string)
    : placement :=
  let accountPartition := GetPartition (ProxyDirectClient.AccountRing c) account "" "" in
  let partition := GetPartition (ProxyDirectClient.ContainerRing c) account container "" in
  mkPlacement partition
    (GetNodes (ProxyDirectClient.ContainerRing c) partition)
    accountPartition
    (GetNodes (ProxyDirectClient.AccountRing c) accountPartition)
    "X-Account-Partition" "X-Account-Host" "X-Account-Device".

Definition objectPlacement (c : ProxyDirectClient.t) (account container obj : string)
    : placement :=
  let containerPartition :=
    GetPartition (ProxyDirectClient.ContainerRing c) account container "" in
  let partition := GetPartition (ProxyDirectClient.ObjectRing c) account container obj in
  mkPlacement partition
    (GetNodes (ProxyDirectClient.ObjectRing c) partition)
    containerPartition
    (GetNodes (ProxyDirectClient.ContainerRing c) containerPartition)
    "X-Container-Partition" "X-Container-Host" "X-Container-Device".

(** The child-tier mutations and their placement. *)
Definition placementOf (c : ProxyDirectClient.t) (op : call) : option placement :=
  match op with
  | CallPutContainer a co _ | CallDeleteContainer a co _ => Some (containerPlacement c a co)
  | CallPutObject a co o _ | CallPostObject a co o _ | CallDeleteObject a co o _ =>
      Some (objectPlacement c a co o)
  | _ => None
  end.

(** The requests of a call, each with the index of the replica it is built
    for.  Only [PutObject] leaves replicas out; elsewhere the position in
    [reqs] is the replica index. *)
Definition indexedRequests (L : Library) (c : ProxyDirectClient.t) (op : call)
    : exec (list (nat * option Request)) :=
  match op with
  | CallPutObject a co o h => ProxyDirectClient.PutObject_loop L c a co o h
  | _ => reqs ← subRequests L c op; Returns (imap pair reqs)
  end.

(** A call of one of the [directClient] methods, with its arguments. *)
Inductive method : Type :=
| MPutAccount (headers : gmap string string)
| MPostAccount (headers : gmap string string)
| MGetAccount (marker endMarker : string) (limit : Z) (prefix delimiter : string)
    (headers : gmap string string)
| MHeadAccount (headers : gmap string string)
| MDeleteAccount (headers : gmap string string)
| MPutContainer (container : string) (headers : gmap string string)
| MPostContainer (container : string) (headers : gmap string string)
| MGetContainer (container marker endMarker : string) (limit : Z)
    (prefix delimiter : string) (headers : gmap string string)
| MHeadContainer (container : string) (headers : gmap string string)
| MDeleteContainer (container : string) (headers : gmap string string)
| MPutObject (container obj : string) (headers : gmap string string)
| MPostObject (container obj : string) (headers : gmap string string)
| MGetObject (container obj : string) (headers : gmap string string)
| MHeadObject (container obj : string) (headers : gmap string string)
| MDeleteObject (container obj : string) (headers : gmap string string).

(** The error a method returns ([None] is nil). *)
Definition errorOf (L : Library) (c : directClient.t) (m : method)
    (picks : list nat) (sched : list selectEvent) : exec (option error) :=
  match m with
  | MPutAccount h => directClient.PutAccount L c h picks
  | MPostAccount h => directClient.PostAccount L c h picks
  | MGetAccount ma em li pr de h =>
      res ← directClient.GetAccount L c ma em li pr de h sched; Returns res.2
  | MHeadAccount h => res ← directClient.HeadAccount L c h sched; Returns res.2
  | MDeleteAccount h => directClient.DeleteAccount L c h picks
  | MPutContainer co h => directClient.PutContainer L c co h picks
  | MPostContainer co h => directClient.PostContainer L c co h picks
  | MGetContainer co ma em li pr de h =>
      res ← directClient.GetContainer L c co ma em li pr de h sched; Returns res.2
  | MHeadContainer co h => res ← directClient.HeadContainer L c co h sched; Returns res.2
  | MDeleteContainer co h => directClient.DeleteContainer L c co h picks
  | MPutObject co o h => directClient.PutObject L c co o h picks
  | MPostObject co o h => directClient.PostObject L c co o h picks
  | MGetObject co o h => res ← directClient.GetObject L c co o h sched; Returns res.2
  | MHeadObject co o h => res ← directClient.HeadObject L c co o h sched; Returns res.2
  | MDeleteObject co o h => directClient.DeleteObject L c co o h picks
  end.

(** The status code of the operation the method calls. *)
Definition statusOf (L : Library) (c : directClient.t) (m : method)
    (picks : list nat) (sched : list selectEvent) : exec Z :=
  let p := directClient.base c in
  let a := directClient.account c in
  match m with
  | MPutAccount h => ProxyDirectClient.PutAccount L p a (Map2Headers L h) picks
  | MPostAccount h => ProxyDirectClient.PostAccount L p a (Map2Headers L h) picks
  | MGetAccount ma em li pr de h =>
      res ← ProxyDirectClient.GetAccount L p a
              (directClient.listingOptions ma em li pr de) (Map2Headers L h) sched;
      Returns res.2
  | MHeadAccount h =>
      res ← ProxyDirectClient.HeadAccount L p a (Map2Headers L h) sched; Returns res.2
  | MDeleteAccount h => ProxyDirectClient.DeleteAccount L p a (Map2Headers L h) picks
  | MPutContainer co h => ProxyDirectClient.PutContainer L p a co (Map2Headers L h) picks
  | MPostContainer co h => ProxyDirectClient.PostContainer L p a co (Map2Headers L h) picks
  | MGetContainer co ma em li pr de h =>
      res ← ProxyDirectClient.GetContainer L p a co
              (directClient.listingOptions ma em li pr de) (Map2Headers L h) sched;
      Returns res.2
  | MHeadContainer co h =>
      res ← ProxyDirectClient.HeadContainer L p a co (Map2Headers L h) sched; Returns res.2
  | MDeleteContainer co h =>
      ProxyDirectClient.DeleteContainer L p a co (Map2Headers L h) picks
  | MPutObject co o h => ProxyDirectClient.PutObject L p a co o (Map2Headers L h) picks
  | MPostObject co o h => ProxyDirectClient.PostObject L p a co o (Map2Headers L h) picks
  | MGetObject co o h =>
      res ← ProxyDirectClient.GetObject L p a co o (Map2Headers L h) sched; Returns res.2
  | MHeadObject co o h =>
      res ← ProxyDirectClient.HeadObject L p a co o (Map2Headers L h) sched; Returns res.2
  | MDeleteObject co o h => ProxyDirectClient.DeleteObject L p a co o (Map2Headers L h) picks
  end.

(** The two listing methods test [code != 200]; the others [code/100 != 2]. *)
Definition isListing (m : method) : bool :=
  match m with
  | MGetAccount _ _ _ _ _ _ | MGetContainer _ _ _ _ _ _ _ => true
  | _ => false
  end.

(** ** Vocabulary of the properties *)

(** How many statuses of the list are in hundreds class [k]. *)
Definition classCount (k : Z) (l : list Z) : Z :=
  Z.of_nat (length (filter (fun s => Go.div s 100 = k) l)).

(** The counters of the receive loop agree with the statuses received so far. *)
Definition counted (responseClasses : list Z) (seen : list Z) : Prop :=
  length responseClasses = 6%nat /\
  forall k : nat, (k < 6)%nat -> nth k responseClasses 0 = classCount (Z.of_nat k) seen.

(** The first value a header map holds under a key, as [Get] reads it. *)
Definition firstValue (headers : Header) (k : string) : string :=
  match headers !! k with
  | Some (v :: _) => v
  | _ => ""
  end.

(** The header map after the copying loop ran over [keys]. *)
Definition copied (L : Library) (headers : Header) (keys : list string) (h0 : Header)
    : Header :=
  foldl (fun h key => Header_Set L h key (Header_Get L headers key)) h0 keys.

(** The URL that [PutObject] builds for a device of the object ring. *)
Definition PutObject_url (L : Library) (c : ProxyDirectClient.t)
    (account container obj : string) (device : Device) : string :=
  Sprintf_url device
    (GetPartition (ProxyDirectClient.ObjectRing c) account container obj)
    ("/" +:+ Urlencode L account +:+ "/" +:+ Urlencode L container +:+
     "/" +:+ Urlencode L obj).

(** ** Concrete rings, transports and library functions *)

Module Examples.

Definition isHex (a : ascii) : bool :=
  let n := nat_of_ascii a in
  ((48 <=? n) && (n <=? 57) || (65 <=? n) && (n <=? 70) || (97 <=? n) && (n <=? 102))%nat.

(** Whether every percent sign of the string starts an escape of two
    hexadecimal digits; [url.Parse] refuses a URL with any other
    ("invalid URL escape"). *)
Fixpoint validEscapes (s : string) : bool :=
  match s with
  | EmptyString => true
  | String a s' =>
      if bool_decide (a = "%"%char) then
        match s' with
        | String x (String y rest) => isHex x && isHex y && validEscapes rest
        | _ => false
        end
      else validEscapes s'
  end.

(** Library functions that agree with Go's on the strings used below:
    header keys already in canonical form, names made of unreserved
    characters, URLs refused for a malformed percent escape. *)
Definition lib : Library := {|
  CanonicalMIMEHeaderKey := fun s => s;
  urlParses := validEscapes;
  QueryEscape := fun s => s;
  Urlencode := fun s => s;
  Map2Headers := fun m => (fun v => [v]) <$> m;
  Headers2Map := fun h => (fun vs => default "" (head vs)) <$> h;
  decodeContainerRecords := fun _ => [];
  decodeObjectRecords := fun _ => [];
|}.

Definition dev (n : Z) : Device :=
  mkDevice ("10.0.0." +:+ pretty n) 6000 ("sd" +:+ pretty n).

(** A device whose name holds a malformed percent escape. *)
Definition badDev (n : Z) : Device :=
  mkDevice ("10.0.0." +:+ pretty n) 6000 ("sd%zz" +:+ pretty n).

(** A ring that places every name on the given devices. *)
Definition ringOf (partition : Z) (nodes : list Device) : Ring :=
  {| GetPartition := fun _ _ _ => partition; GetNodes := fun _ => nodes |}.

(** A transport that gives the [i]-th sub-request launched the [i]-th
    result of the list, and fails past its end. *)
Definition transportOf (results : list DoResult) : Transport :=
  fun i _ => nth i results DoErr.

Definition respond (status : Z) : DoResult :=
  DoOk (mkResponse status ∅ "").

Definition clientOf (results : list DoResult) (account container object : list Device)
    : ProxyDirectClient.t :=
  ProxyDirectClient.mk (transportOf results)
    (ringOf 1 account) (ringOf 2 container) (ringOf 3 object).

Definition anyRequest : Request := mkRequest "PUT" "http://10.0.0.1:6000/sd1/1/a" ∅ None.

(** Three replicas on every ring, all answering 201. *)
Definition threeReplicas : ProxyDirectClient.t :=
  clientOf [respond 201; respond 201; respond 201]
    [dev 1; dev 2; dev 3] [dev 4; dev 5; dev 6] [dev 7; dev 8; dev 9].

(** A caller's header map with two values under one key. *)
Definition twoValues : Header := {[ "X-Meta" := ["a"; "b"] ]}.

Definition putAccountReqs : list (option Request) :=
  Eval vm_compute in
    match subRequests lib threeReplicas (CallPutAccount "acc" twoValues) with
    | Returns reqs => reqs
    | _ => []
    end.

(** Three replicas on every ring, all answering 404. *)
Definition allMissing : ProxyDirectClient.t :=
  clientOf [respond 404; respond 404; respond 404]
    [dev 1; dev 2; dev 3] [dev 4; dev 5; dev 6] [dev 7; dev 8; dev 9].

Definition getObjectReqs : list Request :=
  Eval vm_compute in
    match ProxyDirectClient.GetObject_reqs lib allMissing "acc" "cont" "obj" ∅ with
    | Returns reqs => omap id reqs
    | _ => []
    end.

(** One replica on every ring, answering 200. *)
Definition oneReplica : ProxyDirectClient.t :=
  clientOf [respond 200] [dev 1] [dev 2] [dev 3].

Definition putContainerIndexed : list (nat * option Request) :=
  Eval vm_compute in
    match indexedRequests lib threeReplicas (CallPutContainer "acc" "cont" ∅) with
    | Returns l => l
    | _ => []
    end.

Definition putContainerReq1 : option Request :=
  Eval vm_compute in default None (snd <$> putContainerIndexed !! 1%nat).

(** Five object replicas, two of them with a name that makes the URL
    unparseable; the three sub-requests that are launched are answered
    201, 201 and 500. *)
Definition twoUnparseable : ProxyDirectClient.t :=
  clientOf [respond 201; respond 201; respond 500]
    [dev 1; dev 2; dev 3; dev 4; dev 5] [dev 1; dev 2; dev 3; dev 4; dev 5]
    [dev 1; badDev 2; dev 3; badDev 4; dev 5].

Definition twoUnparseableLoop : list (nat * option Request) :=
  Eval vm_compute in
    match ProxyDirectClient.PutObject_loop lib twoUnparseable "acc" "cont" "obj" ∅ with
    | Returns l => l
    | _ => []
    end.

(** Four replicas on every ring. *)
Definition fourReplicas : ProxyDirectClient.t :=
  clientOf [respond 201; respond 201; respond 201; respond 201]
    [dev 1; dev 2; dev 3; dev 4] [dev 1; dev 2; dev 3; dev 4] [dev 1; dev 2; dev 3; dev 4].

(** Three replicas on every ring, none of them reachable. *)
Definition allDown : ProxyDirectClient.t :=
  clientOf [] [dev 1; dev 2; dev 3] [dev 4; dev 5; dev 6] [dev 7; dev 8; dev 9].

Definition allDownLoop : list (nat * option Request) :=
  Eval vm_compute in
    match ProxyDirectClient.PutObject_loop lib allDown "acc" "cont" "obj" ∅ with
    | Returns l => l
    | _ => []
    end.

(** An execution in which [PutObject] returns, and its deferred calls
    run, before [io.Copy] returns in the transfer goroutine. *)
Definition closedBeforeCopyEnds : list pipeEvent :=
  [QuorumReturned 500;
   CloseReader 2; CloseWriter Deferred 2;
   CloseReader 1; CloseWriter Deferred 1;
   CloseReader 0; CloseWriter Deferred 0;
   CopyReturned;
   CloseWriter TransferGoroutine 0; CloseWriter TransferGoroutine 1;
   CloseWriter TransferGoroutine 2].

(** Three replicas on every ring, all answering 204. *)
Definition allNoContent : directClient.t :=
  directClient.mk
    (clientOf [respond 204; respond 204; respond 204]
       [dev 1; dev 2; dev 3] [dev 4; dev 5; dev 6] [dev 7; dev 8; dev 9])
    "acc".

Definition putAccountReq0 : Request :=
  Eval vm_compute in default anyRequest (default None (head putAccountReqs)).

End Examples.

(** ** What an operation asks of the devices of its ring *)

(** The method of the sub-requests of a call. *)
Definition methodOf (op : call) : string :=
  match op with
  | CallPutAccount _ _ | CallPutContainer _ _ _ | CallPutObject _ _ _ _ => "PUT"
  | CallPostAccount _ _ | CallPostContainer _ _ _ | CallPostObject _ _ _ _ => "POST"
  | CallGetAccount _ _ _ | CallGetContainer _ _ _ _ | CallGetObject _ _ _ _ => "GET"
  | CallHeadAccount _ _ | CallHeadContainer _ _ _ | CallHeadObject _ _ _ _ => "HEAD"
  | CallDeleteAccount _ _ | CallDeleteContainer _ _ _ | CallDeleteObject _ _ _ _ => "DELETE"
  | CallGrepObject _ _ _ _ => "GREP"
  end.

(** The partition of the call on the ring of its tier. *)
Definition partitionOf (c : ProxyDirectClient.t) (op : call) : Z :=
  match op with
  | CallPutAccount a _ | CallPostAccount a _ | CallGetAccount a _ _
  | CallHeadAccount a _ | CallDeleteAccount a _ =>
      GetPartition (ProxyDirectClient.AccountRing c) a "" ""
  | CallPutContainer a co _ | CallPostContainer a co _ | CallGetContainer a co _ _
  | CallHeadContainer a co _ | CallDeleteContainer a co _ =>
      GetPartition (ProxyDirectClient.ContainerRing c) a co ""
  | CallPutObject a co o _ | CallPostObject a co o _ | CallGetObject a co o _
  | CallGrepObject a co o _ | CallHeadObject a co o _ | CallDeleteObject a co o _ =>
      GetPartition (ProxyDirectClient.ObjectRing c) a co o
  end.

(** The devices the call ranges over. *)
Definition nodesOf (c : ProxyDirectClient.t) (op : call) : list Device :=
  match op with
  | CallPutAccount _ _ | CallPostAccount _ _ | CallGetAccount _ _ _
  | CallHeadAccount _ _ | CallDeleteAccount _ _ =>
      GetNodes (ProxyDirectClient.AccountRing c) (partitionOf c op)
  | CallPutContainer _ _ _ | CallPostContainer _ _ _ | CallGetContainer _ _ _ _
  | CallHeadContainer _ _ _ | CallDeleteContainer _ _ _ =>
      GetNodes (ProxyDirectClient.ContainerRing c) (partitionOf c op)
  | _ => GetNodes (ProxyDirectClient.ObjectRing c) (partitionOf c op)
  end.

(** The path and query that follow the device and the partition in the URL
    of the call. *)
Definition pathOf (L : Library) (op : call) : string :=
  match op with
  | CallPutAccount a _ | CallPostAccount a _ | CallHeadAccount a _
  | CallDeleteAccount a _ => "/" +:+ Urlencode L a
  | CallGetAccount a o _ => "/" +:+ Urlencode L a +:+ mkquery L o
  | CallPutContainer a co _ | CallPostContainer a co _ | CallHeadContainer a co _
  | CallDeleteContainer a co _ => "/" +:+ Urlencode L a +:+ "/" +:+ Urlencode L co
  | CallGetContainer a co o _ =>
      "/" +:+ Urlencode L a +:+ "/" +:+ Urlencode L co +:+ mkquery L o
  | CallPutObject a co o _ | CallPostObject a co o _ | CallGetObject a co o _
  | CallHeadObject a co o _ | CallDeleteObject a co o _ =>
      "/" +:+ Urlencode L a +:+ "/" +:+ Urlencode L co +:+ "/" +:+ Urlencode L o
  | CallGrepObject a co o e =>
      "/" +:+ Urlencode L a +:+ "/" +:+ Urlencode L co +:+ "/" +:+ Urlencode L o +:+
      "?e=" +:+ Urlencode L e
  end.

(** The URL of the sub-request of the call for a device. *)
Definition urlOf (L : Library) (c : ProxyDirectClient.t) (op : call) (device : Device)
    : string :=
  Sprintf_url device (partitionOf c op) (pathOf L op).

(** Whether the loop of the call tests the error of [http.NewRequest]
    ([if err != nil { continue }]) or discards it ([req, _ :=]). *)
Definition checksConstruction (op : call) : bool :=
  match op with
  | CallHeadAccount _ _ | CallHeadContainer _ _ _ | CallPutObject _ _ _ _
  | CallGetObject _ _ _ _ | CallGrepObject _ _ _ _ | CallHeadObject _ _ _ _ => true
  | _ => false
  end.

(** The status a mutating call returns ([None] for the reads). *)
Definition mutation (L : Library) (c : ProxyDirectClient.t) (op : call)
    (picks : list nat) : option (exec Z) :=
  match op with
  | CallPutAccount a h => Some (ProxyDirectClient.PutAccount L c a h picks)
  | CallPostAccount a h => Some (ProxyDirectClient.PostAccount L c a h picks)
  | CallDeleteAccount a h => Some (ProxyDirectClient.DeleteAccount L c a h picks)
  | CallPutContainer a co h => Some (ProxyDirectClient.PutContainer L c a co h picks)
  | CallPostContainer a co h => Some (ProxyDirectClient.PostContainer L c a co h picks)
  | CallDeleteContainer a co h => Some (ProxyDirectClient.DeleteContainer L c a co h picks)
  | CallPutObject a co o h => Some (ProxyDirectClient.PutObject L c a co o h picks)
  | CallPostObject a co o h => Some (ProxyDirectClient.PostObject L c a co o h picks)
  | CallDeleteObject a co o h => Some (ProxyDirectClient.DeleteObject L c a co o h picks)
  | _ => None
  end.

(** What a read returns: body, headers and status, the body being nil for
    the HEAD operations ([None] for the mutations). *)
Definition readCall (L : Library) (c : ProxyDirectClient.t) (op : call)
    (sched : list selectEvent) : option (exec (option string * option Header * Z)) :=
  match op with
  | CallGetAccount a o h => Some (ProxyDirectClient.GetAccount L c a o h sched)
  | CallHeadAccount a h =>
      Some (res ← ProxyDirectClient.HeadAccount L c a h sched; Returns (None, res.1, res.2))
  | CallGetContainer a co o h => Some (ProxyDirectClient.GetContainer L c a co o h sched)
  | CallHeadContainer a co h =>
      Some (res ← ProxyDirectClient.HeadContainer L c a co h sched;
            Returns (None, res.1, res.2))
  | CallGetObject a co o h => Some (ProxyDirectClient.GetObject L c a co o h sched)
  | CallGrepObject a co o e => Some (ProxyDirectClient.GrepObject L c a co o e sched)
  | CallHeadObject a co o h =>
      Some (res ← ProxyDirectClient.HeadObject L c a co o h sched;
            Returns (None, res.1, res.2))
  | _ => None
  end.

(** The methods of the account-scoped client that read. *)
Definition isRead (m : method) : bool :=
  match m with
  | MGetAccount _ _ _ _ _ _ | MHeadAccount _ | MGetContainer _ _ _ _ _ _ _
  | MHeadContainer _ _ | MGetObject _ _ _ | MHeadObject _ _ _ => true
  | _ => false
  end.

(** One step of the loop of [mkquery]. *)
Definition addOption (L : Library) (query : string) (kv : string * string) : string :=
  if bool_decide (kv.2 = "") then query
  else query +:+ QueryEscape L kv.1 +:+ "=" +:+ QueryEscape L kv.2 +:+ "&".

(** ** The proxy context middleware *)

Module middleware.

(** [excludeHeaders] *)
Definition excludeHeaders : list string :=
  ["X-Account-Sysmeta-"; "X-Container-Sysmeta-"; "X-Object-Sysmeta-";
   "X-Object-Transient-Sysmeta-"; "X-Backend-"].

(** [type proxyWriter struct]: [Header] is the header map of the embedded
    [http.ResponseWriter], and [Written] the statuses that were passed on to
    its [WriteHeader]. *)
Record proxyWriter : Type := mkProxyWriter {
  Header : http.Header;
  Status : Z;
  ResponseStarted : bool;
  Written : list Z;
}.

(** The inner loop of [WriteHeader] for one key:
    [for _, ex := range excludeHeaders {
       if strings.HasPrefix(k, ex) || k == "X-Timestamp" { delete(w.Header(), k) } }] *)
Definition stripKey (h : http.Header) (k : string) : http.Header :=
  foldl (fun h ex =>
           if String.prefix ex k || bool_decide (k = "X-Timestamp") then delete k h else h)
        h excludeHeaders.

(** [func (w *proxyWriter) WriteHeader(status int)] *)
Definition WriteHeader (w : proxyWriter) (status : Z) : proxyWriter :=
  let h := foldl stripKey (Header w) (map_to_list (Header w)).*1 in
  mkProxyWriter h status true (Written w ++ [status]).

(** [func (w *proxyWriter) Response() (bool, int)] *)
Definition Response (w : proxyWriter) : bool * Z :=
  (ResponseStarted w, Status w).

(** The first "/" of a string: what precedes it and what follows it. *)
Fixpoint cutSlash (s : string) : option (string * string) :=
  match s with
  | EmptyString => None
  | String a s' =>
      if bool_decide (a = "/"%char) then Some (EmptyString, s')
      else match cutSlash s' with
           | Some (pre, rest) => Some (String a pre, rest)
           | None => None
           end
  end.

(** [strings.SplitN(s, "/", n)] for [n >= 0]: at most [n] substrings, the
    last of which is the unsplit remainder. *)
Fixpoint SplitN (s : string) (n : nat) : list string :=
  match n with
  | O => []
  | S n' =>
      match n' with
      | O => [s]
      | S _ =>
          match cutSlash s with
          | Some (pre, rest) => pre :: SplitN rest n'
          | None => [s]
          end
      end
  end.

(** [func getPathParts(request *http.Request) (bool, string, string, string)],
    on [request.URL.Path]. *)
Definition getPathParts (path : string) : exec (bool * string * string * string) :=
  let parts := SplitN path 5 in
  apiRequest ← (if bool_decide (0 < length parts)%nat
                then p1 ← Go.index parts 1; Returns (bool_decide (p1 = "v1"))
                else Returns false);
  if bool_decide (length parts = 5%nat) then
    p2 ← Go.index parts 2; p3 ← Go.index parts 3; p4 ← Go.index parts 4;
    Returns (apiRequest, p2, p3, p4)
  else if bool_decide (length parts = 4%nat) then
    p2 ← Go.index parts 2; p3 ← Go.index parts 3;
    Returns (apiRequest, p2, p3, "")
  else if bool_decide (length parts = 3%nat) then
    p2 ← Go.index parts 2;
    Returns (apiRequest, p2, "", "")
  else Returns (apiRequest, "", "", "").

End middleware.

(** Whether a header key is one that [proxyWriter.WriteHeader] deletes. *)
Definition excluded (k : string) : bool :=
  bool_decide (k = "X-Timestamp") ||
  existsb (fun ex => String.prefix ex k) middleware.excludeHeaders.

(** Whether a string holds a "/". *)
Fixpoint hasSlash (s : string) : bool :=
  match s with
  | EmptyString => false
  | String a s' => bool_decide (a = "/"%char) || hasSlash s'
  end.

(** ** Account and container info *)

Module info.

(** [type ContainerInfo struct] *)
Record ContainerInfo : Type := mkContainerInfo {
  ci_ObjectCount : Z;
  ci_ObjectBytes : Z;
  ci_Metadata : gmap string string;
  ci_SysMetadata : gmap string string;
}.

(** [type AccountInfo struct] *)
Record AccountInfo : Type := mkAccountInfo {
  ai_ContainerCount : Z;
  ai_ObjectCount : Z;
  ai_ObjectBytes : Z;
  ai_Metadata : gmap string string;
  ai_SysMetadata : gmap string string;
}.

(** [k[n:]] *)
Fixpoint sliceFrom (n : nat) (s : string) : string :=
  match n, s with
  | O, _ => s
  | S n', String _ s' => sliceFrom n' s'
  | S _, EmptyString => EmptyString
  end.

Section Context.

Variable L : Library.
(* strconv.ParseInt(s, 10, 64), [None] when it returns an error *)
Variable ParseInt : string -> option Z.
(* ring.MemcacheRing: its state, GetStructured ([None] when it returns an
   error or leaves the pointer nil), Set and Delete *)
Variable Cache : Type.
Variable GetContainer : Cache -> string -> option ContainerInfo.
Variable SetContainer : Cache -> string -> ContainerInfo -> Z -> Cache.
Variable GetAccount : Cache -> string -> option AccountInfo.
Variable SetAccount : Cache -> string -> AccountInfo -> Z -> Cache.
Variable Delete : Cache -> string -> Cache.
(* common.GetTimestamp() *)
Variable GetTimestamp : string.

(** [type ProxyContext struct]: the proxy client (the interface
    [client.ProxyClient], here the direct client), the two maps of the
    request and the memcache ring. *)
Record ProxyContext : Type := mkProxyContext {
  c : ProxyDirectClient.t;
  containerInfoCache : gmap string ContainerInfo;
  accountInfoCache : gmap string AccountInfo;
  Cache_ : Cache;
}.

(** [for k := range headers {
       if strings.HasPrefix(k, meta) { Metadata[k[n:]] = headers.Get(k) }
       else if strings.HasPrefix(k, sysmeta) { SysMetadata[k[m:]] = headers.Get(k) } }] *)
Definition collectMeta (meta : string) (n : nat) (sysmeta : string) (m : nat)
    (headers : Header) : gmap string string * gmap string string :=
  foldl (fun acc k =>
           if String.prefix meta k
           then (<[sliceFrom n k := Header_Get L headers k]> acc.1, acc.2)
           else if String.prefix sysmeta k
           then (acc.1, <[sliceFrom m k := Header_Get L headers k]> acc.2)
           else acc)
        (∅, ∅) (map_to_list headers).*1.

(** The part of [GetContainerInfo] that reads the headers of the HEAD. *)
Definition containerInfoOf (headers : Header) : option ContainerInfo :=
  match ParseInt (Header_Get L headers "X-Container-Object-Count") with
  | None => None
  | Some objectCount =>
      match ParseInt (Header_Get L headers "X-Container-Bytes-Used") with
      | None => None
      | Some objectBytes =>
          let metas := collectMeta "X-Container-Meta-" 17 "X-Container-Sysmeta-" 20 headers in
          Some (mkContainerInfo objectCount objectBytes metas.1 metas.2)
      end
  end.

(** [func (ctx *ProxyContext) GetContainerInfo(account, container string) *ContainerInfo],
    with the context it leaves. *)
Definition GetContainerInfo (ctx : ProxyContext) (account container : string)
    (sched : list selectEvent) : exec (option ContainerInfo * ProxyContext) :=
  let key := "container/" +:+ account +:+ "/" +:+ container in
  let ci := match containerInfoCache ctx !! key with
            | Some ci => Some ci
            | None => GetContainer (Cache_ ctx) key
            end in
  match ci with
  | Some ci => Returns (Some ci, ctx)
  | None =>
      res ← ProxyDirectClient.HeadContainer L (c ctx) account container ∅ sched;
      if negb (Go.div res.2 100 =? 2) then Returns (None, ctx)
      else
        match containerInfoOf (default ∅ res.1) with
        | None => Returns (None, ctx)
        | Some ci =>
            Returns (Some ci,
                     mkProxyContext (c ctx) (containerInfoCache ctx) (accountInfoCache ctx)
                       (SetContainer (Cache_ ctx) key ci 30))
        end
  end.

(** [func (ctx *ProxyContext) InvalidateContainerInfo(account, container string)] *)
Definition InvalidateContainerInfo (ctx : ProxyContext) (account container : string)
    : ProxyContext :=
  let key := "container/" +:+ account +:+ "/" +:+ container in
  mkProxyContext (c ctx) (delete key (containerInfoCache ctx)) (accountInfoCache ctx)
    (Delete (Cache_ ctx) key).

(** The part of [GetAccountInfo] that reads the headers of the HEAD. *)
Definition accountInfoOf (headers : Header) : option AccountInfo :=
  match ParseInt (Header_Get L headers "X-Account-Container-Count") with
  | None => None
  | Some containerCount =>
      match ParseInt (Header_Get L headers "X-Account-Object-Count") with
      | None => None
      | Some objectCount =>
          match ParseInt (Header_Get L headers "X-Account-Bytes-Used") with
          | None => None
          | Some objectBytes =>
              let metas := collectMeta "X-Account-Meta-" 15 "X-Account-Sysmeta-" 18 headers in
              Some (mkAccountInfo containerCount objectCount objectBytes metas.1 metas.2)
          end
      end
  end.

(** The client of the context with the answers its backends give at a
    later call. *)
Definition answering (ctx : ProxyContext) (Do : Transport) : ProxyDirectClient.t :=
  ProxyDirectClient.mk Do (ProxyDirectClient.AccountRing (c ctx))
    (ProxyDirectClient.ContainerRing (c ctx)) (ProxyDirectClient.ObjectRing (c ctx)).

(** [func (ctx *ProxyContext) GetAccountInfo(account string) *AccountInfo],
    with [autoCreateAccounts = true] and the context it leaves.  The first
    HEAD is answered as [c ctx] says and scheduled by [sched]; the PUT is
    answered as [put] says and scheduled by [picks]; the second HEAD is
    answered as [again] says and scheduled by [sched']. *)
Definition GetAccountInfo (ctx : ProxyContext) (account : string)
    (sched : list selectEvent) (put : Transport) (picks : list nat)
    (again : Transport) (sched' : list selectEvent)
    : exec (option AccountInfo * ProxyContext) :=
  let key := "account/" +:+ account in
  let ai := match accountInfoCache ctx !! key with
            | Some ai => Some ai
            | None => GetAccount (Cache_ ctx) key
            end in
  match ai with
  | Some ai => Returns (Some ai, ctx)
  | None =>
      res ← ProxyDirectClient.HeadAccount L (c ctx) account ∅ sched;
      res ← (if res.2 =? 404 then
               _ ← ProxyDirectClient.PutAccount L (answering ctx put) account
                     {[ "X-Timestamp" := [GetTimestamp] ]} picks;
               ProxyDirectClient.HeadAccount L (answering ctx again) account ∅ sched'
             else Returns res);
      if negb (Go.div res.2 100 =? 2) then Returns (None, ctx)
      else
        match accountInfoOf (default ∅ res.1) with
        | None => Returns (None, ctx)
        | Some ai =>
            Returns (Some ai,
                     mkProxyContext (c ctx) (containerInfoCache ctx) (accountInfoCache ctx)
                       (SetAccount (Cache_ ctx) key ai 30))
        end
  end.

(** [func (ctx *ProxyContext) InvalidateAccountInfo(account string)] *)
Definition InvalidateAccountInfo (ctx : ProxyContext) (account : string) : ProxyContext :=
  let key := "account/" +:+ account in
  mkProxyContext (c ctx) (containerInfoCache ctx) (delete key (accountInfoCache ctx))
    (Delete (Cache_ ctx) key).

End Context.

End info.

(** Concrete library functions, memcache and backends for the info lookups. *)
Module InfoExamples.

Fixpoint digits (acc : Z) (s : string) : option Z :=
  match s with
  | EmptyString => Some acc
  | String a s' =>
      let n := Z.of_nat (nat_of_ascii a) in
      if (48 <=? n) && (n <=? 57) then digits (10 * acc + (n - 48)) s' else None
  end.

Definition unsigned (s : string) : option Z :=
  match s with
  | EmptyString => None
  | _ => digits 0 s
  end.

(** [strconv.ParseInt(s, 10, 64)]: an optional sign, then decimal digits,
    and a value that fits 64 bits. *)
Definition ParseInt (s : string) : option Z :=
  let z := match s with
           | String "+" r => unsigned r
           | String "-" r => Z.opp <$> unsigned r
           | _ => unsigned s
           end in
  match z with
  | Some v => if (- 2 ^ 63 <=? v) && (v <? 2 ^ 63) then Some v else None
  | None => None
  end.

(** A memcache that keeps what it is given, whatever the timeout. *)
Definition Cache : Type := gmap string info.ContainerInfo * gmap string info.AccountInfo.

Definition GetContainer (cache : Cache) (key : string) : option info.ContainerInfo :=
  cache.1 !! key.

Definition SetContainer (cache : Cache) (key : string) (ci : info.ContainerInfo) (ttl : Z)
    : Cache :=
  (<[key := ci]> cache.1, cache.2).

Definition GetAccount (cache : Cache) (key : string) : option info.AccountInfo :=
  cache.2 !! key.

Definition SetAccount (cache : Cache) (key : string) (ai : info.AccountInfo) (ttl : Z)
    : Cache :=
  (cache.1, <[key := ai]> cache.2).

Definition Delete (cache : Cache) (key : string) : Cache :=
  (delete key cache.1, delete key cache.2).

Definition containerHeaders : Header :=
  {[ "X-Container-Object-Count" := ["3"];
     "X-Container-Bytes-Used" := ["1024"];
     "X-Container-Meta-Color" := ["blue"];
     "X-Container-Sysmeta-Owner" := ["ops"];
     "Content-Type" := ["text/plain"] ]}.

Definition accountHeaders : Header :=
  {[ "X-Account-Container-Count" := ["2"];
     "X-Account-Object-Count" := ["7"];
     "X-Account-Bytes-Used" := ["4096"];
     "X-Account-Meta-Team" := ["storage"] ]}.

(** One replica on every ring; the container replica answers a HEAD with
    204 and [containerHeaders]. *)
Definition oneContainer : ProxyDirectClient.t :=
  Examples.clientOf [DoOk (mkResponse 204 containerHeaders "")]
    [Examples.dev 1] [Examples.dev 2] [Examples.dev 3].

Definition emptyContext (c : ProxyDirectClient.t) : info.ProxyContext Cache :=
  info.mkProxyContext Cache c ∅ ∅ (∅, ∅).

Definition containerInfo : info.ContainerInfo :=
  info.mkContainerInfo 3 1024 {[ "Color" := "blue" ]} {[ "Owner" := "ops" ]}.

Definition accountInfo : info.AccountInfo :=
  info.mkAccountInfo 2 7 4096 {[ "Team" := "storage" ]} ∅.

(** No account replica at all. *)
Definition noAccountReplica : ProxyDirectClient.t :=
  Examples.clientOf [] [] [Examples.dev 2] [Examples.dev 3].

(** The context that a lookup of container cont of account acc leaves. *)
Definition cachedContext : info.ProxyContext Cache :=
  info.mkProxyContext Cache oneContainer ∅ ∅ ({[ "container/acc/cont" := containerInfo ]}, ∅).

(** One replica on every ring; the account replica answers 404. *)
Definition newAccount : ProxyDirectClient.t :=
  Examples.clientOf [Examples.respond 404] [Examples.dev 1] [Examples.dev 2] [Examples.dev 3].

(** The answers to the PUT that creates the account, and to the HEAD that
    follows it. *)
Definition created : Transport := Examples.transportOf [Examples.respond 201].

Definition accountAnswer : Transport :=
  Examples.transportOf [DoOk (mkResponse 204 accountHeaders "")].

Definition timestamp : string := "1700000000.00000".

(** Three account replicas that answer the PUT with 201, 404 and 500. *)
Definition splitAnswers : Transport :=
  Examples.transportOf [Examples.respond 201; Examples.respond 404; Examples.respond 500].

Definition createReqs : list Request :=
  Eval vm_compute in
    match ProxyDirectClient.PutAccount_reqs Examples.lib
            (info.answering Cache (emptyContext Examples.allMissing) splitAnswers) "acc"
            {[ "X-Timestamp" := [timestamp] ]} with
    | Returns reqs => omap id reqs
    | _ => []
    end.

End InfoExamples.

(** * Properties *)

(** ** The quorum threshold *)

Lemma quorum_half (n : nat) : quorum n = (Z.of_nat n + 1) / 2.
Proof.
  unfold quorum, Qceiling, Qfloor, Qdiv, Qmult, Qinv, Qopp, inject_Z. simpl.
  rewrite Z.mul_1_r. generalize (Z.of_nat n). intros z.
  Z.to_euclidean_division_equations. lia.
Qed.

Lemma quorum_pos (n : nat) : (0 < n)%nat -> 1 <= quorum n.
Proof.
  intros Hn. rewrite quorum_half.
  apply Z.div_le_lower_bound; lia.
Qed.

(** ** Scheduling *)

Lemma arrivalOrder_Permutation {A : Type} (picks : list nat) (waiting : list A) :
  arrivalOrder picks waiting ≡ₚ waiting.
Proof.
  revert waiting. induction picks as [|j picks IH]; intros waiting; simpl.
  - reflexivity.
  - destruct (waiting !! j) as [a|] eqn:Hj.
    + etransitivity; [|symmetry; apply (delete_Permutation waiting j a Hj)].
      constructor. apply IH.
    + apply IH.
Qed.

(** Every order of delivery is produced by some schedule. *)
Lemma arrivalOrder_complete {A : Type} (waiting order : list A) :
  order ≡ₚ waiting -> exists picks, arrivalOrder picks waiting = order.
Proof.
  revert waiting. induction order as [|a order IH]; intros waiting Hp.
  - apply Permutation_nil_l in Hp. subst. exists []. reflexivity.
  - assert (Ha : a ∈ waiting) by (rewrite <- Hp; left).
    apply list_elem_of_lookup in Ha as [j Hj].
    pose proof (delete_Permutation waiting j a Hj) as Hd.
    rewrite Hd in Hp. apply Permutation_cons_inv in Hp.
    destruct (IH _ Hp) as [picks Hpicks].
    exists (j :: picks). simpl. rewrite Hj, Hpicks. reflexivity.
Qed.

(** ** Counting the classes of a vector of statuses *)

Lemma classCount_nil k : classCount k [] = 0.
Proof. reflexivity. Qed.

Lemma classCount_app k l1 l2 :
  classCount k (l1 ++ l2) = classCount k l1 + classCount k l2.
Proof. unfold classCount. rewrite filter_app, length_app. lia. Qed.

Lemma classCount_cons k s l :
  classCount k (s :: l) = (if decide (Go.div s 100 = k) then 1 else 0) + classCount k l.
Proof.
  unfold classCount. rewrite filter_cons.
  destruct (decide (Go.div s 100 = k)); simpl; lia.
Qed.

Lemma classCount_nonneg k l : 0 <= classCount k l.
Proof. unfold classCount. lia. Qed.

Lemma classCount_Permutation k l1 l2 : l1 ≡ₚ l2 -> classCount k l1 = classCount k l2.
Proof. intros Hp. unfold classCount. rewrite Hp. reflexivity. Qed.

Lemma counted_init : counted responseClasses0 [].
Proof.
  split; [reflexivity|]. intros k Hk.
  do 6 (destruct k as [|k]; [reflexivity|]). lia.
Qed.

Lemma counted_skip rc seen status :
  counted rc seen -> ~ (0 <= Go.div status 100 <= 5) -> counted rc (seen ++ [status]).
Proof.
  intros [Hlen Hc] Hcl. split; [assumption|]. intros k Hk.
  rewrite classCount_app, classCount_cons, classCount_nil, Hc by assumption.
  destruct (decide (Go.div status 100 = Z.of_nat k)); lia.
Qed.

Lemma counted_incr rc seen status :
  counted rc seen -> 0 <= Go.div status 100 <= 5 ->
  counted (<[Z.to_nat (Go.div status 100) := nth (Z.to_nat (Go.div status 100)) rc 0 + 1]> rc)
          (seen ++ [status]).
Proof.
  intros [Hlen Hc] Hcl. split; [rewrite length_insert; assumption|]. intros k Hk.
  rewrite classCount_app, classCount_cons, classCount_nil.
  rewrite (nth_lookup (<[_ := _]> rc)).
  destruct (decide (Z.to_nat (Go.div status 100) = k)) as [Heq|Hne].
  - rewrite Heq, list_lookup_insert_eq by lia. simpl.
    rewrite Hc by lia.
    destruct (decide (Go.div status 100 = Z.of_nat k)); lia.
  - rewrite list_lookup_insert_ne by assumption.
    rewrite <- nth_lookup, Hc by assumption.
    destruct (decide (Go.div status 100 = Z.of_nat k)); lia.
Qed.

(** ** The receive loop of the quorum dispatcher *)

Lemma div100_nonneg s : 0 <= s -> 0 <= Go.div s 100.
Proof. intros Hs. unfold Go.div. apply Z.quot_pos; lia. Qed.

Lemma app_cons_assoc {A : Type} (l1 : list A) (x : A) (l2 : list A) :
  l1 ++ x :: l2 = (l1 ++ [x]) ++ l2.
Proof. rewrite <- app_assoc. reflexivity. Qed.

Lemma counted_class rc seen status :
  counted rc seen -> 0 <= Go.div status 100 <= 5 ->
  nth (Z.to_nat (Go.div status 100)) rc 0 + 1 = classCount (Go.div status 100) (seen ++ [status]).
Proof.
  intros [_ Hc] Hcl. rewrite Hc by lia. rewrite Z2Nat.id by lia.
  rewrite classCount_app, classCount_cons, classCount_nil.
  destruct (decide (Go.div status 100 = Go.div status 100)); [lia|congruence].
Qed.

Lemma below_quorum_snoc q seen status :
  (forall k : nat, (k < 6)%nat -> classCount (Z.of_nat k) seen < q) ->
  (0 <= Go.div status 100 <= 5 -> classCount (Go.div status 100) (seen ++ [status]) < q) ->
  forall k : nat, (k < 6)%nat -> classCount (Z.of_nat k) (seen ++ [status]) < q.
Proof.
  intros Hseen Hst k Hk.
  destruct (decide (Go.div status 100 = Z.of_nat k)) as [Heq|Hne].
  - rewrite <- Heq. apply Hst. lia.
  - rewrite classCount_app, classCount_cons, classCount_nil.
    destruct (decide (Go.div status 100 = Z.of_nat k)); [congruence|].
    specialize (Hseen k Hk). lia.
Qed.

(** When no class reaches the threshold in the statuses that arrive, the
    loop consumes them all; it then reaches [return 503] only if the
    channel has been closed. *)
Lemma rangeStatusCodes_no_majority q closed arrivals : forall rc seen,
  counted rc seen ->
  Forall (fun s => 0 <= s) arrivals ->
  (forall k : nat, (k < 6)%nat -> classCount (Z.of_nat k) (seen ++ arrivals) < q) ->
  rangeStatusCodes q rc arrivals closed = if closed then Returns 503 else BlocksForever.
Proof.
  induction arrivals as [|status rest IH]; intros rc seen Hc Hpos Hlt.
  - reflexivity.
  - inversion Hpos as [|? ? Hs Hrest]; subst. simpl.
    pose proof (div100_nonneg status Hs) as Hcl.
    destruct (Z.leb_spec (Go.div status 100) 5) as [Hle|Hgt].
    + destruct (Z.ltb_spec (Go.div status 100) 0) as [?|_]; [lia|].
      rewrite (counted_class rc seen status Hc) by lia.
      assert (Hn : classCount (Go.div status 100) (seen ++ [status]) < q).
      { specialize (Hlt (Z.to_nat (Go.div status 100))).
        rewrite Z2Nat.id in Hlt by lia.
        rewrite app_cons_assoc, classCount_app in Hlt.
        pose proof (classCount_nonneg (Go.div status 100) rest). lia. }
      rewrite Z.geb_leb. destruct (Z.leb_spec q (classCount (Go.div status 100) (seen ++ [status]))); [lia|].
      rewrite <- (counted_class rc seen status Hc) by lia.
      apply (IH _ (seen ++ [status])).
      * apply counted_incr; [assumption|lia].
      * assumption.
      * intros k Hk. rewrite <- app_cons_assoc. apply Hlt, Hk.
    + apply (IH _ (seen ++ [status])).
      * apply counted_skip; [assumption|lia].
      * assumption.
      * intros k Hk. rewrite <- app_cons_assoc. apply Hlt, Hk.
Qed.

(** What a returned status says about the statuses that arrived: it is one
    of them, it arrived when its class reached the threshold, and no class
    had reached the threshold before. *)
Lemma rangeStatusCodes_returns q arrivals : forall rc seen s,
  counted rc seen ->
  rangeStatusCodes q rc arrivals false = Returns s ->
  exists pre post,
    arrivals = pre ++ s :: post /\
    0 <= Go.div s 100 <= 5 /\
    q <= classCount (Go.div s 100) (seen ++ pre ++ [s]) /\
    ((forall k : nat, (k < 6)%nat -> classCount (Z.of_nat k) seen < q) ->
     forall k : nat, (k < 6)%nat -> classCount (Z.of_nat k) (seen ++ pre) < q).
Proof.
  induction arrivals as [|status rest IH]; intros rc seen s Hc Hret.
  - discriminate.
  - simpl in Hret.
    destruct (Z.leb_spec (Go.div status 100) 5) as [Hle|Hgt].
    + destruct (Z.ltb_spec (Go.div status 100) 0) as [?|Hge]; [discriminate|].
      rewrite (counted_class rc seen status Hc) in Hret by lia.
      rewrite Z.geb_leb in Hret.
      destruct (Z.leb_spec q (classCount (Go.div status 100) (seen ++ [status]))) as [Hq|Hq].
      * injection Hret as <-. exists [], rest. simpl.
        rewrite app_nil_r. repeat split; try lia; auto.
      * rewrite <- (counted_class rc seen status Hc) in Hret by lia.
        apply (IH _ (seen ++ [status])) in Hret; [|apply counted_incr; [assumption|lia]].
        destruct Hret as (pre & post & -> & Hcl & Hcount & Hmin).
        exists (status :: pre), post. simpl.
        rewrite (app_cons_assoc seen status (pre ++ [s])).
        rewrite (app_cons_assoc seen status pre).
        repeat split; try lia; auto.
        intros Hseen. apply Hmin. apply below_quorum_snoc; auto.
    + apply (IH _ (seen ++ [status])) in Hret; [|apply counted_skip; [assumption|lia]].
      destruct Hret as (pre & post & -> & Hcl & Hcount & Hmin).
      exists (status :: pre), post. simpl.
      rewrite (app_cons_assoc seen status (pre ++ [s])).
      rewrite (app_cons_assoc seen status pre).
      repeat split; try lia; auto.
      intros Hseen. apply Hmin. apply below_quorum_snoc; auto. lia.
Qed.

(** The loop blocks only when no class reached the threshold. *)
Lemma rangeStatusCodes_blocked q arrivals : forall rc seen,
  counted rc seen ->
  (forall k : nat, (k < 6)%nat -> classCount (Z.of_nat k) seen < q) ->
  rangeStatusCodes q rc arrivals false = BlocksForever ->
  forall k : nat, (k < 6)%nat -> classCount (Z.of_nat k) (seen ++ arrivals) < q.
Proof.
  induction arrivals as [|status rest IH]; intros rc seen Hc Hseen Hret.
  - rewrite app_nil_r. assumption.
  - simpl in Hret.
    destruct (Z.leb_spec (Go.div status 100) 5) as [Hle|Hgt].
    + destruct (Z.ltb_spec (Go.div status 100) 0) as [?|Hge]; [discriminate|].
      rewrite (counted_class rc seen status Hc) in Hret by lia.
      rewrite Z.geb_leb in Hret.
      destruct (Z.leb_spec q (classCount (Go.div status 100) (seen ++ [status]))) as [Hq|Hq];
        [discriminate|].
      rewrite <- (counted_class rc seen status Hc) in Hret by lia.
      intros k Hk. rewrite app_cons_assoc.
      eapply (IH _ (seen ++ [status])); eauto.
      * apply counted_incr; [assumption|lia].
      * apply below_quorum_snoc; auto.
    + intros k Hk. rewrite app_cons_assoc.
      eapply (IH _ (seen ++ [status])); eauto.
      * apply counted_skip; [assumption|lia].
      * apply below_quorum_snoc; auto. lia.
Qed.

(** The loop panics only on a status below -99. *)
Lemma rangeStatusCodes_no_panic q closed arrivals : forall rc p,
  Forall (fun s => 0 <= s) arrivals ->
  rangeStatusCodes q rc arrivals closed <> Panics p.
Proof.
  induction arrivals as [|status rest IH]; intros rc p Hpos.
  - simpl. destruct closed; discriminate.
  - inversion Hpos as [|? ? Hs Hrest]; subst. simpl.
    pose proof (div100_nonneg status Hs) as Hcl.
    destruct (Z.leb_spec (Go.div status 100) 5); [|apply IH; assumption].
    destruct (Z.ltb_spec (Go.div status 100) 0); [lia|].
    destruct (_ >=? q); [discriminate|apply IH; assumption].
Qed.

(** ** The quorum dispatcher *)

Lemma derefAll_Some (rs : list Request) : derefAll (Some <$> rs) = Returns rs.
Proof.
  induction rs as [|r rs IH]; [reflexivity|].
  rewrite fmap_cons. cbn [derefAll]. rewrite IH. reflexivity.
Qed.

Lemma derefAll_returns reqs rs : derefAll reqs = Returns rs -> reqs = Some <$> rs.
Proof.
  revert rs. induction reqs as [|[r|] reqs IH]; intros rs H; simpl in H.
  - injection H as <-. reflexivity.
  - destruct (derefAll reqs) as [rs'| |]; simpl in H; try discriminate.
    injection H as <-. simpl. f_equal. apply IH. reflexivity.
  - discriminate.
Qed.

Lemma statuses_length Do rs : length (statuses Do rs) = length rs.
Proof. apply length_imap. Qed.

Lemma statuses_elem Do rs s :
  s ∈ statuses Do rs -> exists i req, rs !! i = Some req /\ goStatus (Do i req) = s.
Proof.
  intros Hs. apply list_elem_of_lookup in Hs as [i Hi].
  unfold statuses in Hi. rewrite list_lookup_imap in Hi.
  destruct (rs !! i) as [req|] eqn:Hreq; simpl in Hi; [|discriminate].
  injection Hi as <-. eauto.
Qed.

(** Whenever the dispatcher returns, the status it returns was produced by
    one of the sub-requests, its class holds at least [quorum] of the
    statuses, and it is the arrival that brought its class to the
    threshold, no class having reached it earlier. *)
Lemma quorumResponse_returns Do reqs picks s :
  quorumResponse Do reqs picks = Returns s ->
  exists rs pre post,
    reqs = Some <$> rs /\
    arrivalOrder picks (statuses Do rs) = pre ++ s :: post /\
    (exists i req, rs !! i = Some req /\ goStatus (Do i req) = s) /\
    0 <= Go.div s 100 <= 5 /\
    classCount (Go.div s 100) pre = quorum (length reqs) - 1 /\
    (forall k : nat, (k < 6)%nat -> classCount (Z.of_nat k) pre < quorum (length reqs)) /\
    quorum (length reqs) <= classCount (Go.div s 100) (statuses Do rs).
Proof.
  unfold quorumResponse. intros H.
  destruct (derefAll reqs) as [rs| |] eqn:Hrs; simpl in H; try discriminate.
  apply derefAll_returns in Hrs. subst reqs.
  apply (rangeStatusCodes_returns _ _ _ [] s counted_init) in H.
  destruct H as (pre & post & Harr & Hcl & Hq & Hmin). simpl in Hq, Hmin.
  pose proof (arrivalOrder_Permutation picks (statuses Do rs)) as Hperm.
  rewrite Harr in Hperm.
  assert (Hlen : (0 < length (Some <$> rs))%nat).
  { rewrite length_fmap, <- (statuses_length Do), <- (Permutation_length Hperm).
    rewrite length_app. simpl. lia. }
  pose proof (quorum_pos _ Hlen) as Hq1.
  assert (Hpre : forall k : nat, (k < 6)%nat ->
            classCount (Z.of_nat k) pre < quorum (length (Some <$> rs))).
  { apply Hmin. intros k _. rewrite classCount_nil. lia. }
  exists rs, pre, post. repeat split; auto; try lia.
  - apply statuses_elem. rewrite <- Hperm. apply elem_of_app. right. left.
  - specialize (Hpre (Z.to_nat (Go.div s 100))). rewrite Z2Nat.id in Hpre by lia.
    rewrite classCount_app, classCount_cons, classCount_nil in Hq.
    destruct (decide (Go.div s 100 = Go.div s 100)); [lia|congruence].
  - rewrite <- (classCount_Permutation _ _ _ Hperm).
    rewrite app_cons_assoc, classCount_app.
    pose proof (classCount_nonneg (Go.div s 100) post). lia.
Qed.

(** When no class holds [quorum] of the statuses, the dispatcher receives
    them all and then waits forever on [statusCodes]: the [return 503]
    after the loop is never reached. *)
Lemma quorumResponse_no_majority Do rs picks :
  Forall (fun s => 0 <= s) (statuses Do rs) ->
  (forall k : nat, (k < 6)%nat ->
     classCount (Z.of_nat k) (statuses Do rs) < quorum (length rs)) ->
  quorumResponse Do (Some <$> rs) picks = BlocksForever.
Proof.
  intros Hpos Hlt. unfold quorumResponse. rewrite derefAll_Some. simpl.
  rewrite length_fmap.
  pose proof (arrivalOrder_Permutation picks (statuses Do rs)) as Hperm.
  apply (rangeStatusCodes_no_majority _ false _ _ [] counted_init).
  - rewrite Hperm. assumption.
  - intros k Hk. simpl. rewrite (classCount_Permutation _ _ _ Hperm). apply Hlt, Hk.
Qed.

(** When some class holds [quorum] of the statuses, the dispatcher returns. *)
Lemma quorumResponse_majority Do rs picks (k : nat) :
  (0 < length rs)%nat ->
  Forall (fun s => 0 <= s) (statuses Do rs) ->
  (k < 6)%nat ->
  quorum (length rs) <= classCount (Z.of_nat k) (statuses Do rs) ->
  exists s, quorumResponse Do (Some <$> rs) picks = Returns s.
Proof.
  intros Hlen Hpos Hk Hge. unfold quorumResponse. rewrite derefAll_Some. simpl.
  rewrite length_fmap.
  pose proof (arrivalOrder_Permutation picks (statuses Do rs)) as Hperm.
  destruct (rangeStatusCodes _ _ _ _) as [s|p|] eqn:Hres.
  - eauto.
  - exfalso. revert Hres. apply rangeStatusCodes_no_panic. rewrite Hperm. assumption.
  - exfalso.
    pose proof (rangeStatusCodes_blocked (quorum (length rs))
                  (arrivalOrder picks (statuses Do rs)) _ [] counted_init) as Hb.
    assert (H0 : forall k' : nat, (k' < 6)%nat ->
              classCount (Z.of_nat k') [] < quorum (length rs)).
    { intros k' _. rewrite classCount_nil. pose proof (quorum_pos _ Hlen). lia. }
    specialize (Hb H0 Hres k Hk). simpl in Hb.
    rewrite (classCount_Permutation _ _ _ Hperm) in Hb. lia.
Qed.

(** C1: with three sub-requests answering 201, 404 and 500 no class reaches
    the threshold 2; the claim has the dispatcher return 503 then, but in
    every order of arrival the dispatcher stays blocked in its receive
    loop and returns nothing. *)
Theorem C1_no_majority_blocks_instead_of_503 : forall picks : list nat,
  quorumResponse
    (Examples.transportOf [Examples.respond 201; Examples.respond 404; Examples.respond 500])
    [Some Examples.anyRequest; Some Examples.anyRequest; Some Examples.anyRequest] picks
  = BlocksForever.
Proof.
  intros picks.
  apply (quorumResponse_no_majority _
           [Examples.anyRequest; Examples.anyRequest; Examples.anyRequest]).
  - repeat constructor; vm_compute; discriminate.
  - intros k Hk. do 6 (destruct k as [|k]; [vm_compute; reflexivity|]). lia.
Qed.

(** C4 (amended): with a single replica the threshold is 1; a completed
    response of class 2xx, 4xx or 5xx is returned as the final result, and
    a transport failure on the single sub-request makes the dispatcher
    return 500. *)
Theorem C4_single_replica (Do : Transport) (req : Request) (picks : list nat)
    (Hclass : Do 0%nat req = DoErr \/
              exists resp, Do 0%nat req = DoOk resp /\
                (Go.div (StatusCode resp) 100 = 2 \/ Go.div (StatusCode resp) 100 = 4 \/
                 Go.div (StatusCode resp) 100 = 5)) :
  quorum 1 = 1 /\
  quorumResponse Do [Some req] picks =
    Returns (match Do 0%nat req with DoOk resp => StatusCode resp | DoErr => 500 end).
Proof.
  split; [reflexivity|].
  pose proof (arrivalOrder_Permutation picks [goStatus (Do 0%nat req)]) as Hperm.
  apply Permutation_singleton_r in Hperm.
  unfold quorumResponse, statuses.
  cbn -[arrivalOrder goStatus rangeStatusCodes quorum]. rewrite Hperm.
  destruct Hclass as [Herr|(resp & Hok & Hcl)].
  - rewrite Herr. reflexivity.
  - rewrite Hok. cbn -[Z.geb]. unfold Go.div in *.
    destruct Hcl as [H|[H|H]]; rewrite H; reflexivity.
Qed.

Lemma C4_single_replica_witness :
  quorumResponse (Examples.transportOf [Examples.respond 404]) [Some Examples.anyRequest] [] =
    Returns 404 /\
  quorumResponse (Examples.transportOf [DoErr]) [Some Examples.anyRequest] [] = Returns 500.
Proof.
  split.
  - apply (C4_single_replica (Examples.transportOf [Examples.respond 404])
             Examples.anyRequest []).
    right. exists (mkResponse 404 ∅ ""). split; [reflexivity|]. right. left. reflexivity.
  - apply (C4_single_replica (Examples.transportOf [DoErr]) Examples.anyRequest []).
    left. reflexivity.
Defined.

(** C4 as stated fails: a transport failure on the single sub-request makes
    the dispatcher return 500, not 503. *)
Lemma C4_transport_failure_is_not_503 :
  quorumResponse (Examples.transportOf [DoErr]) [Some Examples.anyRequest] [] <> Returns 503.
Proof. vm_compute. discriminate. Qed.

(** C10: on an empty request list the threshold is 0, no goroutine holds
    a status to send, and the dispatcher blocks forever; a call that
    returns was given at least one sub-request. *)
Theorem C10_quorumResponse_needs_a_request (Do : Transport) :
  quorum (length (@nil (option Request))) = 0 /\
  statuses Do [] = [] /\
  (forall picks, quorumResponse Do [] picks = BlocksForever) /\
  (forall reqs picks,
     match quorumResponse Do reqs picks with
     | Returns _ => (1 <= length reqs)%nat
     | _ => True
     end).
Proof.
  repeat split.
  - intros picks. unfold quorumResponse.
    pose proof (arrivalOrder_Permutation picks (statuses Do [])) as Hperm.
    apply Permutation_nil_r in Hperm. cbn -[arrivalOrder]. cbn in Hperm.
    rewrite Hperm. reflexivity.
  - intros reqs picks.
    destruct (quorumResponse Do reqs picks) as [s| |] eqn:H; [|exact I|exact I].
    apply quorumResponse_returns in H.
    destruct H as (rs & pre & post & -> & _ & (i & req & Hi & _) & _).
    rewrite length_fmap. apply lookup_lt_Some in Hi. lia.
Qed.

(** ** The first-response dispatcher *)

Lemma is2xx_Some resp : is2xx resp = true ->
  exists r, resp = Some r /\ Go.div (StatusCode r) 100 = 2.
Proof.
  destruct resp as [r|]; simpl; [|discriminate].
  intros H. exists r. split; [reflexivity|]. apply Z.eqb_eq, H.
Qed.

Lemma goResponse_Some d resp : goResponse d = Some resp -> d = DoOk resp.
Proof. destruct d; simpl; congruence. Qed.

(** A response that the loop returns passed the 2xx test, and it was
    waiting to be delivered or is produced by one of the sub-requests still
    to be launched. *)
Lemma firstResponseLoop_returns Do reqs : forall i waiting sched resp,
  firstResponseLoop Do i waiting reqs sched = Returns (Some resp) ->
  is2xx (Some resp) = true /\
  (Some resp ∈ waiting \/
   exists j req, reqs !! j = Some (Some req) /\ Do (i + j)%nat req = DoOk resp).
Proof.
  induction reqs as [|[r|] reqs IH]; intros i waiting sched resp H; simpl in H;
    try discriminate.
  assert (Hstep : forall w', w' ⊆ waiting ++ [goResponse (Do i r)] ->
            forall sched', firstResponseLoop Do (S i) w' reqs sched' = Returns (Some resp) ->
            is2xx (Some resp) = true /\
            (Some resp ∈ waiting \/
             exists j req, (Some r :: reqs) !! j = Some (Some req) /\
                           Do (i + j)%nat req = DoOk resp)).
  { intros w' Hsub sched' Hloop. apply IH in Hloop as [H2 [Hin|(j & req & Hj & Hdo)]].
    - split; [assumption|]. apply Hsub in Hin.
      apply elem_of_app in Hin as [Hin|Hin]; [left; assumption|].
      apply list_elem_of_singleton in Hin. right. exists 0%nat, r.
      split; [reflexivity|]. rewrite Nat.add_0_r. apply goResponse_Some. congruence.
    - split; [assumption|]. right. exists (S j), req. split; [assumption|].
      rewrite Nat.add_succ_r. assumption. }
  destruct sched as [|[j|] sched'].
  - apply (Hstep _ (reflexivity _) _ H).
  - destruct ((waiting ++ [goResponse (Do i r)]) !! j) as [x|] eqn:Hj.
    + destruct (is2xx x) eqn:H2.
      * injection H as ->. split; [assumption|].
        apply list_elem_of_lookup_2 in Hj.
        apply elem_of_app in Hj as [Hin|Hin]; [left; assumption|].
        apply list_elem_of_singleton in Hin. right. exists 0%nat, r.
        split; [reflexivity|]. rewrite Nat.add_0_r. apply goResponse_Some. congruence.
      * apply (Hstep (delete j (waiting ++ [goResponse (Do i r)]))) in H; [assumption|].
        apply list_subseteq_delete.
    + apply (Hstep _ (reflexivity _) _ H).
  - apply (Hstep _ (reflexivity _) _ H).
Qed.

(** On requests that are not nil the loop returns: a response or nil. *)
Lemma firstResponseLoop_total Do rs : forall i waiting sched,
  exists res, firstResponseLoop Do i waiting (Some <$> rs) sched = Returns res.
Proof.
  induction rs as [|r rs IH]; intros i waiting sched.
  - exists None. reflexivity.
  - rewrite fmap_cons. cbn [firstResponseLoop].
    destruct sched as [|[j|] sched']; try apply IH.
    destruct (_ !! j) as [x|]; [|apply IH].
    destruct (is2xx x); [eauto|apply IH].
Qed.

(** When every [select] receives before its timer fires, a goroutine
    never waits across iterations, and the loop returns the first 2xx
    response in launch order. *)
Lemma firstResponseLoop_prompt Do rs : forall i n,
  (length rs <= n)%nat ->
  firstResponseLoop Do i [] (Some <$> rs) (repeat (RecvSuccess 0) n) = Returns None <->
  (forall j req, rs !! j = Some req -> is2xx (goResponse (Do (i + j)%nat req)) = false).
Proof.
  induction rs as [|r rs IH]; intros i n Hn.
  - split; [intros _ j req Hj; discriminate|reflexivity].
  - destruct n as [|n]; [simpl in Hn; lia|].
    rewrite fmap_cons. cbn [firstResponseLoop repeat app lookup list_lookup].
    simpl in Hn.
    destruct (is2xx (goResponse (Do i r))) eqn:H2.
    + split; [intros H|intros Hall].
      * apply is2xx_Some in H2 as (x & Hx & _). rewrite Hx in H. discriminate.
      * specialize (Hall 0%nat r eq_refl). rewrite Nat.add_0_r in Hall. congruence.
    + cbn [delete list_delete]. rewrite (IH (S i) n) by lia.
      split; intros Hall j req Hj.
      * destruct j as [|j]; simpl in Hj.
        -- injection Hj as <-. rewrite Nat.add_0_r. assumption.
        -- rewrite Nat.add_succ_r. apply (Hall j req Hj).
      * specialize (Hall (S j) req Hj). rewrite Nat.add_succ_r in Hall. assumption.
Qed.

(** ** Copying the caller's headers *)

Section Headers.

Variable L : Library.

Lemma Header_Get_firstValue headers key :
  Header_Get L headers key = firstValue headers (CanonicalMIMEHeaderKey L key).
Proof. reflexivity. Qed.

Lemma copied_lookup headers keys : forall h0 k,
  copied L headers keys h0 !! k =
    if decide (k ∈ CanonicalMIMEHeaderKey L <$> keys)
    then Some [firstValue headers k] else h0 !! k.
Proof.
  induction keys as [|key keys IH]; intros h0 k.
  - simpl. destruct (decide (k ∈ [])) as [Hin|_]; [inversion Hin|reflexivity].
  - change (copied L headers (key :: keys) h0)
      with (copied L headers keys (Header_Set L h0 key (Header_Get L headers key))).
    rewrite IH, fmap_cons.
    destruct (decide (k ∈ CanonicalMIMEHeaderKey L <$> keys)) as [Hin|Hnin].
    + rewrite decide_True by (right; assumption). reflexivity.
    + unfold Header_Set. rewrite lookup_insert.
      destruct (decide (CanonicalMIMEHeaderKey L key = k)) as [Heq|Hne].
      * rewrite decide_True by (rewrite Heq; left).
        rewrite Header_Get_firstValue, Heq. reflexivity.
      * rewrite decide_False; [reflexivity|].
        intros Hin. apply elem_of_cons in Hin as [Heq|Hin]; congruence.
Qed.

Lemma setHeaders_Some keys headers : forall r,
  setHeaders L keys headers (Some r) =
    Returns (Some (mkRequest (Method r) (URL r)
                     (copied L headers keys (req_Header r)) (req_Body r))).
Proof.
  unfold setHeaders.
  induction keys as [|key keys IH]; intros r.
  - destruct r; reflexivity.
  - cbn [foldl]. cbn [mbind exec_bind Go.bind setHeader].
    rewrite IH. reflexivity.
Qed.

(** On a nil request the loop panics as soon as there is a key to copy. *)
Lemma setHeaders_nil keys headers :
  setHeaders L keys headers None =
    match keys with [] => Returns None | _ :: _ => Panics NilDereference end.
Proof.
  unfold setHeaders. destruct keys as [|key keys]; [reflexivity|].
  cbn [foldl]. cbn [mbind exec_bind Go.bind setHeader].
  induction keys as [|key' keys IH]; [reflexivity|].
  cbn [foldl]. cbn [mbind exec_bind Go.bind]. apply IH.
Qed.

Lemma copyHeaders_keys (headers : Header) key :
  is_Some (headers !! key) ->
  CanonicalMIMEHeaderKey L key ∈ CanonicalMIMEHeaderKey L <$> (map_to_list headers).*1.
Proof.
  intros [vs Hvs]. apply list_elem_of_fmap. exists key. split; [reflexivity|].
  apply list_elem_of_fmap. exists (key, vs). split; [reflexivity|].
  apply elem_of_map_to_list. assumption.
Qed.

End Headers.

(** ** The request-building loops *)

Lemma rangeNodes_elem {A : Type} (body : nat -> Device -> exec (iteration A)) nodes :
  forall i l a,
    rangeNodes body i nodes = Returns l -> a ∈ l ->
    exists j d, nodes !! j = Some d /\ body (i + j)%nat d = Returns (Append a).
Proof.
  induction nodes as [|d nodes IH]; intros i l a H Ha; simpl in H.
  - injection H as <-. inversion Ha.
  - destruct (body i d) as [it| |] eqn:Hb; simpl in H; try discriminate.
    destruct (rangeNodes body (S i) nodes) as [rest| |] eqn:Hr; simpl in H; try discriminate.
    injection H as <-.
    assert (Hrest : a ∈ rest ->
              exists j d0, (d :: nodes) !! j = Some d0 /\ body (i + j)%nat d0 = Returns (Append a)).
    { intros Hin. destruct (IH _ _ _ Hr Hin) as (j & d0 & Hj & Hbody).
      exists (S j), d0. split; [assumption|]. rewrite Nat.add_succ_r. assumption. }
    destruct it as [a0|]; [|auto].
    apply elem_of_cons in Ha as [->|Hin]; [|auto].
    exists 0%nat, d. split; [reflexivity|]. rewrite Nat.add_0_r. assumption.
Qed.

Lemma rangeNodes_complete {A : Type} (body : nat -> Device -> exec (iteration A)) nodes :
  forall i l j d,
    rangeNodes body i nodes = Returns l -> nodes !! j = Some d ->
    exists it, body (i + j)%nat d = Returns it /\ forall a, it = Append a -> a ∈ l.
Proof.
  induction nodes as [|d0 nodes IH]; intros i l j d H Hj; simpl in H.
  - discriminate.
  - destruct (body i d0) as [it| |] eqn:Hb; simpl in H; try discriminate.
    destruct (rangeNodes body (S i) nodes) as [rest| |] eqn:Hr; simpl in H; try discriminate.
    injection H as <-. destruct j as [|j]; simpl in Hj.
    + injection Hj as <-. exists it. rewrite Nat.add_0_r. split; [assumption|].
      intros a ->. left.
    + destruct (IH _ _ _ _ Hr Hj) as (it' & Hbody & Hin).
      exists it'. rewrite Nat.add_succ_r. split; [assumption|].
      intros a Ha. specialize (Hin a Ha). destruct it; [right|]; assumption.
Qed.

(** In a loop that never leaves an iteration with [continue], the request
    at position [j] is the one built for the device at position [j]. *)
Lemma rangeNodes_lookup {A : Type} (body : nat -> Device -> exec (iteration A)) nodes :
  forall i l j a,
    (forall j d, nodes !! j = Some d -> body (i + j)%nat d <> Returns Continue) ->
    rangeNodes body i nodes = Returns l -> l !! j = Some a ->
    exists d, nodes !! j = Some d /\ body (i + j)%nat d = Returns (Append a).
Proof.
  induction nodes as [|d0 nodes IH]; intros i l j a Hnc H Hj; simpl in H.
  - injection H as <-. discriminate.
  - destruct (body i d0) as [it| |] eqn:Hb; simpl in H; try discriminate.
    destruct (rangeNodes body (S i) nodes) as [rest| |] eqn:Hr; simpl in H; try discriminate.
    injection H as <-.
    destruct it as [a0|].
    + destruct j as [|j]; simpl in Hj.
      * injection Hj as <-. exists d0. rewrite Nat.add_0_r. split; [reflexivity|assumption].
      * destruct (IH (S i) rest j a) as (d & Hd & Hbody); auto.
        { intros j' d' Hj'. specialize (Hnc (S j') d' Hj').
          rewrite Nat.add_succ_r in Hnc. assumption. }
        exists d. rewrite Nat.add_succ_r. split; assumption.
    + exfalso. apply (Hnc 0%nat d0 eq_refl). rewrite Nat.add_0_r. assumption.
Qed.

Lemma copyHeaders_Some_eq L headers r :
  copyHeaders L headers (Some r) =
    Returns (Some (mkRequest (Method r) (URL r)
                     (copied L headers (map_to_list headers).*1 (req_Header r)) (req_Body r))).
Proof. apply setHeaders_Some. Qed.

Lemma copyHeaders_nil_eq L headers :
  copyHeaders L headers None =
    match (map_to_list headers).*1 with [] => Returns None | _ :: _ => Panics NilDereference end.
Proof. apply setHeaders_nil. Qed.

(** Runs the body of a request-building loop in hypothesis [H]. *)
Ltac run_body H :=
  cbv beta in H; unfold NewRequest, Go.index in H;
  repeat first
    [ progress cbn [mbind exec_bind Go.bind setHeader mret exec_ret] in H
    | match type of H with
      | Panics _ = _ => discriminate H
      | Returns Continue = Returns (Append _) => discriminate H
      | Returns (Append _) = Returns Continue => discriminate H
      | Returns (Append None) = Returns (Append (Some _)) => discriminate H
      | context [copyHeaders _ _ (Some _)] => rewrite copyHeaders_Some_eq in H
      | context [copyHeaders _ _ None] => rewrite copyHeaders_nil_eq in H
      | context [if urlParses ?L ?u then _ else _] =>
          let Hp := fresh "Hparse" in destruct (urlParses L u) eqn:Hp
      | context [match ?l !! ?i with Some _ => _ | None => _ end] =>
          let Hd := fresh "Hdev" in destruct (l !! i) eqn:Hd
      | context [match ?keys with [] => _ | _ :: _ => _ end] =>
          let Hk := fresh "Hkeys" in destruct keys eqn:Hk
      end ];
  cbn [Method URL req_Header req_Body] in H.

(** ** Caller-supplied headers *)

Lemma PutObject_reqs_elem L c account container obj headers reqs req :
  ProxyDirectClient.PutObject_reqs L c account container obj headers = Returns reqs ->
  req ∈ reqs ->
  exists l i, ProxyDirectClient.PutObject_loop L c account container obj headers = Returns l /\
              (i, req) ∈ l.
Proof.
  unfold ProxyDirectClient.PutObject_reqs. intros H Hin.
  destruct (ProxyDirectClient.PutObject_loop _ _ _ _ _ _) as [l| |]; simpl in H;
    try discriminate.
  injection H as <-. apply list_elem_of_fmap in Hin as ([i req'] & -> & Hin).
  exists l, i. split; [reflexivity|assumption].
Qed.

Ltac unfold_reqs H :=
  unfold ProxyDirectClient.PutAccount_reqs, ProxyDirectClient.PostAccount_reqs,
    ProxyDirectClient.GetAccount_reqs, ProxyDirectClient.HeadAccount_reqs,
    ProxyDirectClient.DeleteAccount_reqs, ProxyDirectClient.PutContainer_reqs,
    ProxyDirectClient.PostContainer_reqs, ProxyDirectClient.GetContainer_reqs,
    ProxyDirectClient.HeadContainer_reqs, ProxyDirectClient.DeleteContainer_reqs,
    ProxyDirectClient.PostObject_reqs, ProxyDirectClient.GetObject_reqs,
    ProxyDirectClient.GrepObject_reqs, ProxyDirectClient.HeadObject_reqs,
    ProxyDirectClient.DeleteObject_reqs in H.

(** Looks a copied key up below the headers the operation set itself. *)
Ltac solve_elem_of :=
  repeat first [apply list_elem_of_here | apply list_elem_of_further].

Ltac lookup_copied Hkey Hown :=
  cbn [req_Header]; unfold Header_Set;
  rewrite ?lookup_insert_ne
    by (let E := fresh in
        intros E; apply Hown; rewrite <- E;
        apply list_elem_of_fmap_2; solve_elem_of);
  rewrite copied_lookup, decide_True by (apply copyHeaders_keys; exact Hkey);
  reflexivity.

(** C9 (amended): every key of the caller's header map is present on every
    constructed sub-request, under its canonical form and with a single
    value, the first value the caller's map holds under that canonical form
    (what [headers.Get(key)] reads); keys the operation sets itself are left
    out of this statement. *)
Theorem C9_caller_headers_first_value (L : Library) (c : ProxyDirectClient.t) (op : call)
    (reqs : list (option Request)) (r : Request) (key : string) :
  subRequests L c op = Returns reqs ->
  Some r ∈ reqs ->
  is_Some (callerHeaders op !! key) ->
  CanonicalMIMEHeaderKey L key ∉ CanonicalMIMEHeaderKey L <$> ownHeaders op ->
  req_Header r !! CanonicalMIMEHeaderKey L key = Some [Header_Get L (callerHeaders op) key].
Proof.
  intros Hreqs Hin Hkey Hown.
  destruct op; cbn [subRequests callerHeaders ownHeaders] in *;
    lazymatch type of Hreqs with
    | ProxyDirectClient.GrepObject_reqs _ _ _ _ _ _ = _ =>
        rewrite lookup_empty in Hkey; destruct Hkey as [? ?]; discriminate
    | ProxyDirectClient.PutObject_reqs _ _ _ _ _ _ = _ =>
        apply PutObject_reqs_elem with (req := Some r) in Hreqs as (l & i & Hreqs & Hin');
        [|assumption];
        unfold ProxyDirectClient.PutObject_loop in Hreqs;
        apply rangeNodes_elem with (a := (i, Some r)) in Hreqs as (j & d & Hj & Hbody);
        [|assumption];
        run_body Hbody; injection Hbody as _ <-; lookup_copied Hkey Hown
    | _ =>
        unfold_reqs Hreqs;
        apply rangeNodes_elem with (a := Some r) in Hreqs as (j & d & Hj & Hbody);
        [|assumption];
        run_body Hbody; injection Hbody as <-; lookup_copied Hkey Hown
    end.
Qed.

Lemma C9_caller_headers_first_value_witness :
  req_Header Examples.putAccountReq0 !! "X-Meta" = Some ["a"].
Proof.
  apply (C9_caller_headers_first_value Examples.lib Examples.threeReplicas
           (CallPutAccount "acc" Examples.twoValues) Examples.putAccountReqs
           Examples.putAccountReq0 "X-Meta").
  - vm_compute. reflexivity.
  - apply list_elem_of_here.
  - exists ["a"; "b"]. vm_compute. reflexivity.
  - simpl. apply not_elem_of_nil.
Defined.

(** C9 as stated fails: the caller's map holds two values under X-Meta, and
    the sub-request that [PutAccount] constructs carries only the first. *)
Lemma C9_further_values_are_dropped :
  subRequests Examples.lib Examples.threeReplicas (CallPutAccount "acc" Examples.twoValues)
    = Returns Examples.putAccountReqs /\
  Some Examples.putAccountReq0 ∈ Examples.putAccountReqs /\
  Examples.twoValues !! "X-Meta" = Some ["a"; "b"] /\
  req_Header Examples.putAccountReq0 !! "X-Meta" = Some ["a"].
Proof.
  repeat split; try (vm_compute; reflexivity). apply list_elem_of_here.
Qed.

(** ** Reads *)

(** A loop whose iterations append a request that is not nil, or leave with
    [continue], builds a slice of requests that are not nil. *)
Lemma rangeNodes_not_nil (body : nat -> Device -> exec (iteration (option Request))) nodes :
  forall i,
    (forall j d, body j d = Returns Continue \/ exists r, body j d = Returns (Append (Some r))) ->
    exists rs, rangeNodes body i nodes = Returns (Some <$> rs).
Proof.
  induction nodes as [|d nodes IH]; intros i Hbody.
  - exists []. reflexivity.
  - destruct (IH (S i) Hbody) as [rs Hrs]. simpl. rewrite Hrs.
    destruct (Hbody i d) as [Hc|[r Hr]].
    + rewrite Hc. exists rs. reflexivity.
    + rewrite Hr. exists (r :: rs). reflexivity.
Qed.

Lemma GetObject_reqs_not_nil L c account container obj headers :
  exists rs,
    ProxyDirectClient.GetObject_reqs L c account container obj headers = Returns (Some <$> rs).
Proof.
  unfold ProxyDirectClient.GetObject_reqs. apply rangeNodes_not_nil.
  intros j d. unfold NewRequest. destruct (urlParses L _); [right|left; reflexivity].
  rewrite copyHeaders_Some_eq. eexists. reflexivity.
Qed.

(** C2 (amended): on requests that are not nil the first-response dispatcher
    returns; a response it returns is 2xx and was produced by one of the
    sub-requests; it returns nil whenever no sub-request produced a 2xx
    response, and [GetObject] then yields 404 with nil body and nil headers;
    and when every [select] receives a response before its timer fires, it
    returns nil only if no sub-request produced a 2xx response. *)
Theorem C2_firstResponse_2xx (L : Library) (c : ProxyDirectClient.t)
    (rs : list Request) (sched : list selectEvent)
    (account container obj : string) (headers : Header) :
  let Do := ProxyDirectClient.client c in
  (exists res, firstResponse Do (Some <$> rs) sched = Returns res) /\
  (forall resp, firstResponse Do (Some <$> rs) sched = Returns (Some resp) ->
     Go.div (StatusCode resp) 100 = 2 /\
     exists j req, rs !! j = Some req /\ Do j req = DoOk resp) /\
  ((forall j req, rs !! j = Some req -> is2xx (goResponse (Do j req)) = false) ->
     firstResponse Do (Some <$> rs) sched = Returns None) /\
  (ProxyDirectClient.GetObject_reqs L c account container obj headers = Returns (Some <$> rs) ->
   firstResponse Do (Some <$> rs) sched = Returns None ->
   ProxyDirectClient.GetObject L c account container obj headers sched =
     Returns (None, None, 404)) /\
  (firstResponse Do (Some <$> rs) (repeat (RecvSuccess 0) (length rs)) = Returns None <->
   forall j req, rs !! j = Some req -> is2xx (goResponse (Do j req)) = false).
Proof.
  intros Do.
  assert (Hsound : forall resp, firstResponse Do (Some <$> rs) sched = Returns (Some resp) ->
            Go.div (StatusCode resp) 100 = 2 /\
            exists j req, rs !! j = Some req /\ Do j req = DoOk resp).
  { intros resp H. apply firstResponseLoop_returns in H as [H2 [Hin|(j & req & Hj & Hdo)]].
    - inversion Hin.
    - apply is2xx_Some in H2 as (x & Hx & Hcl). injection Hx as <-.
      split; [assumption|]. exists j, req. split; [|assumption].
      rewrite list_lookup_fmap in Hj. destruct (rs !! j); simpl in Hj; congruence. }
  split; [apply firstResponseLoop_total|].
  split; [exact Hsound|].
  split; [|split].
  - intros Hnone.
    destruct (firstResponseLoop_total Do rs 0 [] sched) as [[resp|] Hres]; [|exact Hres].
    exfalso. destruct (Hsound resp Hres) as (Hcl & j & req & Hj & Hdo).
    specialize (Hnone j req Hj). rewrite Hdo in Hnone. simpl in Hnone.
    rewrite Hcl in Hnone. discriminate.
  - intros Hreqs Hnil. unfold ProxyDirectClient.GetObject. rewrite Hreqs.
    cbn [mbind exec_bind Go.bind]. fold Do. rewrite Hnil. reflexivity.
  - apply (firstResponseLoop_prompt Do rs 0 (length rs)). lia.
Qed.

Lemma C2_firstResponse_2xx_witness :
  firstResponse (ProxyDirectClient.client Examples.allMissing) (Some <$> Examples.getObjectReqs)
    [TimeAfter; RecvSuccess 1; RecvSuccess 0] = Returns None /\
  ProxyDirectClient.GetObject Examples.lib Examples.allMissing "acc" "cont" "obj" ∅
    [TimeAfter; RecvSuccess 1; RecvSuccess 0] = Returns (None, None, 404).
Proof.
  destruct (C2_firstResponse_2xx Examples.lib Examples.allMissing Examples.getObjectReqs
              [TimeAfter; RecvSuccess 1; RecvSuccess 0] "acc" "cont" "obj" ∅)
    as (_ & _ & Hnone & Hget & _).
  assert (Hall : forall (j : nat) (req : Request),
            Examples.getObjectReqs !! j = Some req ->
            is2xx (goResponse (ProxyDirectClient.client Examples.allMissing j req)) = false).
  { intros j req Hj. do 3 (destruct j as [|j]; [reflexivity|]). discriminate Hj. }
  split.
  - apply Hnone, Hall.
  - apply Hget; [vm_compute; reflexivity|]. apply Hnone, Hall.
Defined.

(** C2 as stated fails: the only replica answers 200, but after the timer
    of the only [select] has fired; the dispatcher returns nil and
    [GetObject] yields 404. *)
Lemma C2_late_2xx_is_not_returned :
  is2xx (goResponse (ProxyDirectClient.client Examples.oneReplica 0%nat Examples.anyRequest))
    = true /\
  firstResponse (ProxyDirectClient.client Examples.oneReplica) [Some Examples.anyRequest]
    [TimeAfter] = Returns None /\
  ProxyDirectClient.GetObject Examples.lib Examples.oneReplica "acc" "cont" "obj" ∅ [TimeAfter]
    = Returns (None, None, 404).
Proof. repeat split; vm_compute; reflexivity. Qed.

(** ** Placement headers *)

Lemma elem_of_imap_pair {A : Type} (l : list A) (i : nat) (a : A) :
  (i, a) ∈ imap pair l -> l !! i = Some a.
Proof.
  intros H. apply list_elem_of_lookup in H as [j Hj].
  rewrite list_lookup_imap in Hj.
  destruct (l !! j) as [b|] eqn:Hb; simpl in Hj; [|discriminate].
  injection Hj as <- <-. assumption.
Qed.

(** Runs the loop of a child-tier mutation that never leaves an iteration
    with [continue], down to the body of the iteration that built [req]. *)
Ltac child_body Hl Hin j d Hj Hbody :=
  cbn [indexedRequests subRequests] in Hl; unfold_reqs Hl;
  match type of Hl with
  | (mbind _ ?m) = _ =>
      let reqs := fresh "reqs" in
      let Hreqs := fresh "Hreqs" in
      destruct m as [reqs| |] eqn:Hreqs; cbn [mbind exec_bind Go.bind] in Hl;
      try discriminate Hl;
      injection Hl as <-; apply elem_of_imap_pair in Hin;
      eapply rangeNodes_lookup in Hreqs as (d & Hj & Hbody);
      [ | | exact Hin];
      [ | let j' := fresh in let d' := fresh in let Hb := fresh in
          intros j' d' _ Hb; run_body Hb ]
  end.

Ltac lookup_own Hcanon :=
  cbn [req_Header]; unfold Header_Set;
  rewrite ?Hcanon by (cbn [ownHeaders]; solve_elem_of);
  repeat (rewrite lookup_insert_ne by discriminate);
  rewrite lookup_insert_eq; reflexivity.

(** C5: the sub-request that a child-tier mutation builds for child replica
    [i] goes to child device [i] and carries the three placement headers:
    the parent partition, and the address and the device name of the parent
    device at the same index [i]. *)
Theorem C5_placement_headers (L : Library) (c : ProxyDirectClient.t) (op : call)
    (pl : placement) (l : list (nat * option Request)) (i : nat) (req : option Request) :
  (forall k, k ∈ ownHeaders op -> CanonicalMIMEHeaderKey L k = k) ->
  placementOf c op = Some pl ->
  indexedRequests L c op = Returns l ->
  (i, req) ∈ l ->
  exists r child parent path,
    req = Some r /\
    childNodes pl !! i = Some child /\
    URL r = Sprintf_url child (childPartition pl) path /\
    parentNodes pl !! i = Some parent /\
    req_Header r !! partitionKey pl = Some [pretty (parentPartition pl)] /\
    req_Header r !! hostKey pl = Some [Sprintf_host parent] /\
    req_Header r !! deviceKey pl = Some [Device_ parent].
Proof.
  intros Hcanon Hpl Hl Hin.
  destruct op; cbn [placementOf] in Hpl; try discriminate Hpl; injection Hpl as <-;
    unfold containerPlacement, objectPlacement;
    cbn [childNodes childPartition parentNodes parentPartition partitionKey hostKey deviceKey].
  - (* PutContainer *)
    child_body Hl Hin j d Hj Hbody. run_body Hbody. injection Hbody as <-.
    rewrite Nat.add_0_l in *.
    eexists _, d, _, _. repeat split; try eassumption; try reflexivity; lookup_own Hcanon.
  - (* DeleteContainer *)
    child_body Hl Hin j d Hj Hbody. run_body Hbody. injection Hbody as <-.
    rewrite Nat.add_0_l in *.
    eexists _, d, _, _. repeat split; try eassumption; try reflexivity; lookup_own Hcanon.
  - (* PutObject *)
    cbn [indexedRequests] in Hl. unfold ProxyDirectClient.PutObject_loop in Hl.
    apply rangeNodes_elem with (a := (i, req)) in Hl as (j & d & Hj & Hbody); [|assumption].
    run_body Hbody. injection Hbody as <- <-.
    rewrite Nat.add_0_l in *.
    eexists _, d, _, _. repeat split; try eassumption; try reflexivity; lookup_own Hcanon.
  - (* PostObject *)
    child_body Hl Hin j d Hj Hbody. run_body Hbody. injection Hbody as <-.
    rewrite Nat.add_0_l in *.
    eexists _, d, _, _. repeat split; try eassumption; try reflexivity; lookup_own Hcanon.
  - (* DeleteObject *)
    child_body Hl Hin j d Hj Hbody. run_body Hbody. injection Hbody as <-.
    rewrite Nat.add_0_l in *.
    eexists _, d, _, _. repeat split; try eassumption; try reflexivity; lookup_own Hcanon.
Qed.

Lemma C5_placement_headers_witness :
  exists r child parent path,
    Examples.putContainerReq1 = Some r /\
    [Examples.dev 4; Examples.dev 5; Examples.dev 6] !! 1%nat = Some child /\
    URL r = Sprintf_url child 2 path /\
    [Examples.dev 1; Examples.dev 2; Examples.dev 3] !! 1%nat = Some parent /\
    req_Header r !! "X-Account-Partition" = Some ["1"] /\
    req_Header r !! "X-Account-Host" = Some [Sprintf_host parent] /\
    req_Header r !! "X-Account-Device" = Some [Device_ parent].
Proof.
  apply (C5_placement_headers Examples.lib Examples.threeReplicas
           (CallPutContainer "acc" "cont" ∅)
           (containerPlacement Examples.threeReplicas "acc" "cont")
           Examples.putContainerIndexed 1 Examples.putContainerReq1).
  - intros k _. reflexivity.
  - reflexivity.
  - vm_compute. reflexivity.
  - apply list_elem_of_further, list_elem_of_here.
Defined.

(** ** Skipped replicas and the threshold of PutObject *)

(** What one iteration of the loop of [PutObject] leaves: nothing when the
    URL of the device does not parse, and else the request for that device,
    paired with the index of the device. *)
Lemma PutObject_loop_elem L c account container obj headers l i req :
  ProxyDirectClient.PutObject_loop L c account container obj headers = Returns l ->
  (i, req) ∈ l ->
  exists r d,
    req = Some r /\
    GetNodes (ProxyDirectClient.ObjectRing c)
      (GetPartition (ProxyDirectClient.ObjectRing c) account container obj) !! i = Some d /\
    urlParses L (PutObject_url L c account container obj d) = true /\
    URL r = PutObject_url L c account container obj d /\
    Method r = "PUT" /\ req_Body r = Some i.
Proof.
  unfold ProxyDirectClient.PutObject_loop. intros Hl Hin.
  apply rangeNodes_elem with (a := (i, req)) in Hl as (j & d & Hj & Hbody); [|assumption].
  run_body Hbody. injection Hbody as <- <-.
  eexists _, d. repeat split; try reflexivity; assumption.
Qed.

Lemma PutObject_loop_complete L c account container obj headers l j d :
  ProxyDirectClient.PutObject_loop L c account container obj headers = Returns l ->
  GetNodes (ProxyDirectClient.ObjectRing c)
    (GetPartition (ProxyDirectClient.ObjectRing c) account container obj) !! j = Some d ->
  urlParses L (PutObject_url L c account container obj d) = true ->
  j ∈ l.*1.
Proof.
  unfold ProxyDirectClient.PutObject_loop. intros Hl Hj Hparse.
  destruct (rangeNodes_complete _ _ _ _ _ _ Hl Hj) as (it & Hbody & Hin).
  unfold PutObject_url in Hparse.
  run_body Hbody; [|rewrite Hparse in *; discriminate].
  injection Hbody as <-.
  apply list_elem_of_fmap. eexists (j, _). split; [reflexivity|].
  apply Hin. reflexivity.
Qed.

(** C3 (amended): in [PutObject] a replica whose sub-request cannot be
    constructed is skipped and the sub-requests of the remaining replicas
    proceed; the status that [PutObject] returns reached the threshold
    computed from the number of constructed requests, not from the number
    of replicas the ring returned. *)
Theorem C3_PutObject_skips_and_counts_constructed (L : Library) (c : ProxyDirectClient.t)
    (account container obj : string) (headers : Header) (picks : list nat)
    (l : list (nat * option Request)) :
  ProxyDirectClient.PutObject_loop L c account container obj headers = Returns l ->
  let nodes := GetNodes (ProxyDirectClient.ObjectRing c)
                 (GetPartition (ProxyDirectClient.ObjectRing c) account container obj) in
  (forall j d, nodes !! j = Some d ->
     (urlParses L (PutObject_url L c account container obj d) = true <-> j ∈ l.*1)) /\
  (forall j req, (j, req) ∈ l ->
     exists r d, req = Some r /\ nodes !! j = Some d /\
                 URL r = PutObject_url L c account container obj d) /\
  (forall s, ProxyDirectClient.PutObject L c account container obj headers picks = Returns s ->
     exists rs, l.*2 = Some <$> rs /\
       quorum (length l) <= classCount (Go.div s 100) (statuses (ProxyDirectClient.client c) rs)).
Proof.
  intros Hl nodes. split; [|split].
  - intros j d Hj. split.
    + apply (PutObject_loop_complete _ _ _ _ _ _ _ _ _ Hl Hj).
    + intros Hin. apply list_elem_of_fmap in Hin as ([j' req] & -> & Hin).
      destruct (PutObject_loop_elem _ _ _ _ _ _ _ _ _ Hl Hin) as (r & d' & _ & Hd' & Hp & _).
      subst nodes. simpl in Hj. rewrite Hj in Hd'. injection Hd' as <-. assumption.
  - intros j req Hin.
    destruct (PutObject_loop_elem _ _ _ _ _ _ _ _ _ Hl Hin) as (r & d & -> & Hd & _ & Hurl & _).
    eauto.
  - intros s Hs. unfold ProxyDirectClient.PutObject in Hs. rewrite Hl in Hs.
    cbn [mbind exec_bind Go.bind] in Hs.
    destruct (ProxyDirectClient.MultiWriter_of l.*1) as [mw| |]; try discriminate Hs.
    cbn [mbind exec_bind Go.bind] in Hs.
    apply quorumResponse_returns in Hs
      as (rs & pre & post & Hrs & _ & _ & _ & _ & _ & Hq).
    exists rs. split; [assumption|]. rewrite length_fmap in Hq. assumption.
Qed.

Lemma C3_PutObject_skips_and_counts_constructed_witness :
  (forall j d, [Examples.dev 1; Examples.badDev 2; Examples.dev 3; Examples.badDev 4;
                Examples.dev 5] !! j = Some d ->
     (Examples.validEscapes
        (PutObject_url Examples.lib Examples.twoUnparseable "acc" "cont" "obj" d) = true <->
      j ∈ Examples.twoUnparseableLoop.*1)) /\
  Examples.twoUnparseableLoop.*1 = [0; 2; 4]%nat.
Proof.
  split; [|reflexivity].
  apply (C3_PutObject_skips_and_counts_constructed Examples.lib Examples.twoUnparseable
           "acc" "cont" "obj" ∅ [] Examples.twoUnparseableLoop).
  vm_compute. reflexivity.
Defined.

(** C3 as stated fails: the object ring returns five replicas, two
    sub-requests cannot be constructed, and of the three that are sent two
    are answered 201; [PutObject] returns 201, on the threshold 2 of the
    three constructed requests, although the threshold of the five replicas
    is 3. *)
Lemma C3_threshold_is_not_computed_from_R :
  length (GetNodes (ProxyDirectClient.ObjectRing Examples.twoUnparseable) 3) = 5%nat /\
  quorum 5 = 3 /\
  ProxyDirectClient.PutObject_loop Examples.lib Examples.twoUnparseable "acc" "cont" "obj" ∅
    = Returns Examples.twoUnparseableLoop /\
  Examples.twoUnparseableLoop.*1 = [0; 2; 4]%nat /\
  classCount 2 [201; 201; 500] = 2 /\
  ProxyDirectClient.PutObject Examples.lib Examples.twoUnparseable "acc" "cont" "obj" ∅ []
    = Returns 201.
Proof. repeat split; vm_compute; reflexivity. Qed.

(** ** The writers of the transfer goroutine *)

(** C6: the claim has the copy routine feed every constructed pipe, with
    its three index expressions in bounds, for every replica count.  With
    one replica the loop leaves one writer and [writers[1]] is out of
    range; with four replicas the fourth pipe is never written to. *)
Theorem C6_transfer_goroutine_assumes_three_writers :
  ProxyDirectClient.PutObject_writers Examples.lib Examples.oneReplica "acc" "cont" "obj" ∅
    = Returns [0%nat] /\
  ProxyDirectClient.MultiWriter_of [0%nat] = Panics IndexOutOfRange /\
  ProxyDirectClient.PutObject Examples.lib Examples.oneReplica "acc" "cont" "obj" ∅ []
    = Panics IndexOutOfRange /\
  ProxyDirectClient.PutObject_writers Examples.lib Examples.fourReplicas "acc" "cont" "obj" ∅
    = Returns [0; 1; 2; 3]%nat /\
  ProxyDirectClient.MultiWriter_of [0; 1; 2; 3]%nat = Returns [0; 1; 2]%nat.
Proof. repeat split; vm_compute; reflexivity. Qed.

(** ** Closing the pipes *)

Lemma interleaving_Permutation {A : Type} (l1 l2 t : list A) :
  interleaving l1 l2 t -> t ≡ₚ l1 ++ l2.
Proof.
  induction 1 as [|a l1 l2 t _ IH|a l1 l2 t _ IH]; simpl.
  - reflexivity.
  - constructor. assumption.
  - etransitivity; [constructor; exact IH|]. apply Permutation_middle.
Qed.

Lemma closeCalls_app by_ w t1 t2 :
  closeCalls by_ w (t1 ++ t2) = (closeCalls by_ w t1 + closeCalls by_ w t2)%nat.
Proof. unfold closeCalls. rewrite filter_app, length_app. reflexivity. Qed.

Lemma closeCalls_cons by_ w e t :
  closeCalls by_ w (e :: t) =
    ((if decide (e = CloseWriter by_ w) then 1 else 0) + closeCalls by_ w t)%nat.
Proof.
  unfold closeCalls. rewrite filter_cons.
  destruct (decide (e = CloseWriter by_ w)); reflexivity.
Qed.

Lemma closeCalls_interleaving by_ w l1 l2 t :
  interleaving l1 l2 t ->
  closeCalls by_ w t = (closeCalls by_ w l1 + closeCalls by_ w l2)%nat.
Proof.
  intros H. apply interleaving_Permutation in H.
  rewrite <- closeCalls_app. unfold closeCalls. rewrite H. reflexivity.
Qed.

(** An event of one goroutine comes after the events that precede it in
    that goroutine, however the two goroutines are merged. *)
Lemma interleaving_after_r {A : Type} (x : A) (l2 : list A) : forall t1 l1 t y t2,
  interleaving l1 (x :: l2) t -> t = t1 ++ y :: t2 -> y ∉ l1 -> y <> x -> x ∈ t1.
Proof.
  induction t1 as [|a t1 IH]; intros l1 t y t2 Hi Ht Hy Hne; subst t; simpl in Hi.
  - exfalso. inversion Hi; subst.
    + apply Hy. left.
    + congruence.
  - inversion Hi; subst.
    + right. eapply IH; [eassumption|reflexivity| |assumption].
      intros Hin. apply Hy. right. assumption.
    + left.
Qed.

Lemma interleaving_sym {A : Type} (l1 l2 t : list A) :
  interleaving l1 l2 t -> interleaving l2 l1 t.
Proof. induction 1; constructor; assumption. Qed.

Lemma interleaving_after_l {A : Type} (x : A) (l1 l2 t t1 t2 : list A) (y : A) :
  interleaving (x :: l1) l2 t -> t = t1 ++ y :: t2 -> y ∉ l2 -> y <> x -> x ∈ t1.
Proof. intros Hi. apply interleaving_sym in Hi. eapply interleaving_after_r; eassumption. Qed.

Lemma closeCalls_deferredCalls w pipes :
  closeCalls Deferred w (deferredCalls pipes) = if decide (w < pipes)%nat then 1%nat else 0%nat.
Proof.
  unfold deferredCalls. induction pipes as [|n IH].
  - simpl. destruct (decide (w < 0)%nat); [lia|reflexivity].
  - rewrite seq_S, rev_app_distr. simpl.
    rewrite !closeCalls_cons, IH.
    destruct (decide (CloseReader n = CloseWriter Deferred w)); [discriminate|].
    destruct (decide (CloseWriter Deferred n = CloseWriter Deferred w)) as [Heq|Hne].
    + injection Heq as ->. destruct (decide (w < w)%nat); [lia|].
      destruct (decide (w < S w)%nat); [reflexivity|lia].
    + assert (n <> w) by congruence.
      destruct (decide (w < n)%nat), (decide (w < S n)%nat); try reflexivity; lia.
Qed.

Lemma closeCalls_deferred_other by_ w pipes :
  by_ <> Deferred -> closeCalls by_ w (deferredCalls pipes) = 0%nat.
Proof.
  intros Hby. unfold deferredCalls. induction (rev (seq 0 pipes)) as [|n l IH]; [reflexivity|].
  simpl. rewrite !closeCalls_cons, IH.
  destruct (decide (CloseReader n = CloseWriter by_ w)); [discriminate|].
  destruct (decide (CloseWriter Deferred n = CloseWriter by_ w)); [congruence|reflexivity].
Qed.

Lemma closeCalls_writers by_ by' w (writers : list nat) :
  closeCalls by_ w (CloseWriter by' <$> writers) =
    if decide (by_ = by') then length (filter (fun x => x = w) writers) else 0%nat.
Proof.
  induction writers as [|x writers IH].
  - destruct (decide (by_ = by')); reflexivity.
  - rewrite fmap_cons, closeCalls_cons, IH, filter_cons.
    destruct (decide (by_ = by')) as [->|Hne].
    + destruct (decide (x = w)) as [->|Hx].
      * rewrite decide_True by reflexivity. reflexivity.
      * rewrite decide_False by congruence. reflexivity.
    + rewrite decide_False by congruence. reflexivity.
Qed.

Lemma NoDup_count (w : nat) (writers : list nat) :
  NoDup writers ->
  length (filter (fun x => x = w) writers) = if decide (w ∈ writers) then 1%nat else 0%nat.
Proof.
  induction 1 as [|x writers Hx Hnd IH].
  - destruct (decide (w ∈ [])) as [Hin|_]; [inversion Hin|reflexivity].
  - rewrite filter_cons. destruct (decide (x = w)) as [->|Hne].
    + cbn [length]. rewrite IH.
      rewrite decide_False by assumption. rewrite decide_True by left. reflexivity.
    + rewrite IH.
      destruct (decide (w ∈ writers)) as [Hin|Hnin].
      * rewrite decide_True by (right; assumption). reflexivity.
      * rewrite decide_False; [reflexivity|].
        intros Hin. apply elem_of_cons in Hin as [->|Hin]; congruence.
Qed.

(** The write ends that the loop appends are those of distinct iterations. *)
Lemma rangeNodes_indices {A : Type} (body : nat -> Device -> exec (iteration (nat * A))) nodes :
  (forall j d a, body j d = Returns (Append a) -> a.1 = j) ->
  forall i l, rangeNodes body i nodes = Returns l ->
    Forall (fun a => (i <= a.1)%nat) l /\ NoDup l.*1.
Proof.
  intros Hidx. induction nodes as [|d nodes IH]; intros i l H; simpl in H.
  - injection H as <-. split; constructor.
  - destruct (body i d) as [it| |] eqn:Hb; simpl in H; try discriminate.
    destruct (rangeNodes body (S i) nodes) as [rest| |] eqn:Hr; simpl in H; try discriminate.
    injection H as <-. destruct (IH _ _ Hr) as [Hge Hnd].
    assert (Hge' : Forall (fun a => (i <= a.1)%nat) rest).
    { eapply Forall_impl; [exact Hge|]. simpl. intros. lia. }
    destruct it as [a|]; [|split; assumption].
    apply Hidx in Hb. split; [constructor; [lia|assumption]|].
    rewrite fmap_cons. constructor; [|assumption].
    intros Hin. apply list_elem_of_fmap in Hin as (b & Hb1 & Hin).
    rewrite Forall_forall in Hge. specialize (Hge b Hin). simpl in Hge. lia.
Qed.

Lemma PutObject_loop_NoDup L c account container obj headers l :
  ProxyDirectClient.PutObject_loop L c account container obj headers = Returns l ->
  NoDup l.*1.
Proof.
  unfold ProxyDirectClient.PutObject_loop. intros Hl.
  eapply rangeNodes_indices in Hl; [apply Hl|].
  intros j d a Hbody. run_body Hbody. injection Hbody as <-. reflexivity.
Qed.

(** C7 (amended): in every execution of [PutObject] whose transfer
    goroutine starts, the goroutine calls [Close] exactly once on each
    write end whose request was constructed, after [io.Copy] has returned;
    and when [quorumResponse] returns, the deferred calls call [Close]
    exactly once on every write end that the loop created, after that
    return, whether or not the copy has ended.  A write end whose request
    was constructed thus sees two [Close] calls when [PutObject] returns. *)
Theorem C7_pipe_write_ends_closed (L : Library) (c : ProxyDirectClient.t)
    (account container obj : string) (headers : Header) (picks : list nat)
    (t : list pipeEvent) :
  PutObject_trace L c account container obj headers picks t ->
  let nodes := GetNodes (ProxyDirectClient.ObjectRing c)
                 (GetPartition (ProxyDirectClient.ObjectRing c) account container obj) in
  exists l,
    ProxyDirectClient.PutObject_loop L c account container obj headers = Returns l /\
    (forall w, closeCalls TransferGoroutine w t = if decide (w ∈ l.*1) then 1%nat else 0%nat) /\
    (forall t1 w t2, t = t1 ++ CloseWriter TransferGoroutine w :: t2 -> CopyReturned ∈ t1) /\
    (forall s, quorumResponse (ProxyDirectClient.client c) l.*2 picks = Returns s ->
       (forall w, closeCalls Deferred w t = if decide (w < length nodes)%nat then 1%nat else 0%nat) /\
       (forall t1 w t2, t = t1 ++ CloseWriter Deferred w :: t2 -> QuorumReturned s ∈ t1) /\
       (forall w, w ∈ l.*1 ->
          (closeCalls Deferred w t + closeCalls TransferGoroutine w t = 2)%nat)).
Proof.
  intros (l & tr & Hl & Htr & Hi) nodes. exists l. split; [assumption|].
  unfold transferEvents in Htr.
  destruct (ProxyDirectClient.MultiWriter_of l.*1) as [mw| |]; try discriminate Htr.
  cbn [mbind exec_bind Go.bind] in Htr. injection Htr as <-.
  pose proof (PutObject_loop_NoDup _ _ _ _ _ _ _ Hl) as Hnd.
  assert (Hgo : forall w, closeCalls TransferGoroutine w t =
                  if decide (w ∈ l.*1) then 1%nat else 0%nat).
  { intros w. rewrite (closeCalls_interleaving _ _ _ _ _ Hi).
    rewrite closeCalls_cons, decide_False by discriminate.
    rewrite closeCalls_writers, decide_True by reflexivity.
    rewrite (NoDup_count _ _ Hnd).
    unfold callEvents. destruct (quorumResponse _ _ _); try reflexivity.
    rewrite closeCalls_cons, closeCalls_deferred_other by discriminate.
    destruct (decide (QuorumReturned a = CloseWriter TransferGoroutine w)); [discriminate|].
    reflexivity. }
  split; [exact Hgo|]. split.
  - intros t1 w t2 Ht.
    eapply interleaving_after_r; [exact Hi|exact Ht| |discriminate].
    unfold callEvents. destruct (quorumResponse _ _ _); [|inversion 1|inversion 1].
    intros Hin. apply elem_of_cons in Hin as [?|Hin]; [discriminate|].
    unfold deferredCalls in Hin. apply list_elem_of_In, in_flat_map in Hin as (i & _ & Hin).
    simpl in Hin. destruct Hin as [?|[?|[]]]; discriminate.
  - intros s Hs. rewrite Hs in Hi. cbn [callEvents] in Hi.
    assert (Hdef : forall w, closeCalls Deferred w t =
                     if decide (w < length nodes)%nat then 1%nat else 0%nat).
    { intros w. subst nodes. rewrite (closeCalls_interleaving _ _ _ _ _ Hi).
      rewrite !closeCalls_cons, closeCalls_deferredCalls, closeCalls_writers.
      destruct (decide (QuorumReturned s = CloseWriter Deferred w)); [discriminate|].
      destruct (decide (CopyReturned = CloseWriter Deferred w)); [discriminate|].
      destruct (decide (Deferred = TransferGoroutine)); [discriminate|].
      destruct (decide (w < _)%nat); reflexivity. }
    split; [exact Hdef|]. split.
    + intros t1 w t2 Ht.
      eapply interleaving_after_l; [exact Hi|exact Ht| |discriminate].
      intros Hin. apply elem_of_cons in Hin as [?|Hin]; [discriminate|].
      apply list_elem_of_fmap in Hin as (x & ? & _). discriminate.
    + intros w Hw. rewrite Hdef, Hgo. rewrite (decide_True _ _ Hw).
      apply list_elem_of_fmap in Hw as ([i req] & -> & Hin).
      destruct (PutObject_loop_elem _ _ _ _ _ _ _ _ _ Hl Hin) as (_ & d & _ & Hd & _).
      apply lookup_lt_Some in Hd. simpl.
      rewrite decide_True by exact Hd. reflexivity.
Qed.

Lemma allDown_trace :
  PutObject_trace Examples.lib Examples.allDown "acc" "cont" "obj" ∅ []
    Examples.closedBeforeCopyEnds.
Proof.
  exists Examples.allDownLoop,
    [CopyReturned; CloseWriter TransferGoroutine 0; CloseWriter TransferGoroutine 1;
     CloseWriter TransferGoroutine 2].
  split; [vm_compute; reflexivity|]. split; [vm_compute; reflexivity|].
  vm_compute. repeat constructor.
Defined.

Lemma C7_pipe_write_ends_closed_witness :
  exists l,
    ProxyDirectClient.PutObject_loop Examples.lib Examples.allDown "acc" "cont" "obj" ∅
      = Returns l /\
    (forall w, closeCalls TransferGoroutine w Examples.closedBeforeCopyEnds =
               if decide (w ∈ l.*1) then 1%nat else 0%nat) /\
    (forall t1 w t2,
       Examples.closedBeforeCopyEnds = t1 ++ CloseWriter TransferGoroutine w :: t2 ->
       CopyReturned ∈ t1).
Proof.
  destruct (C7_pipe_write_ends_closed Examples.lib Examples.allDown "acc" "cont" "obj" ∅ []
              Examples.closedBeforeCopyEnds allDown_trace) as (l & Hl & Hgo & Hafter & _).
  exists l. repeat split; assumption.
Defined.

(** C7 as stated fails: no replica is reachable, [quorumResponse] returns
    500 at once and the deferred calls close the three write ends before
    [io.Copy] has returned; the transfer goroutine then closes each of them
    a second time. *)
Lemma C7_closed_twice_and_before_the_copy_ends :
  PutObject_trace Examples.lib Examples.allDown "acc" "cont" "obj" ∅ []
    Examples.closedBeforeCopyEnds /\
  (closeCalls Deferred 0 Examples.closedBeforeCopyEnds +
   closeCalls TransferGoroutine 0 Examples.closedBeforeCopyEnds = 2)%nat /\
  exists t1 t2,
    Examples.closedBeforeCopyEnds = t1 ++ CloseWriter Deferred 0 :: t2 /\
    CopyReturned ∉ t1.
Proof.
  split; [exact allDown_trace|]. split; [reflexivity|].
  exists [QuorumReturned 500; CloseReader 2; CloseWriter Deferred 2;
          CloseReader 1; CloseWriter Deferred 1; CloseReader 0],
         [CopyReturned; CloseWriter TransferGoroutine 0; CloseWriter TransferGoroutine 1;
          CloseWriter TransferGoroutine 2].
  split; [reflexivity|].
  intros H. repeat (apply elem_of_cons in H as [H|H]; [discriminate|]). inversion H.
Qed.

(** ** The errors of the account-scoped client *)

Lemma errorUnless2xx_spec code :
  (directClient.errorUnless2xx code = None <-> Go.div code 100 = 2) /\
  (forall e, directClient.errorUnless2xx code = Some e -> e = HTTPError code).
Proof.
  unfold directClient.errorUnless2xx.
  destruct (Z.eqb_spec (Go.div code 100) 2) as [Heq|Hne]; simpl; split.
  - split; auto.
  - discriminate.
  - split; [discriminate|contradiction].
  - intros e H. injection H as <-. reflexivity.
Qed.

(** Runs a method down to the result of its dispatcher. *)
Ltac run_method H :=
  repeat match type of H with
  | context [mbind _ ?m] =>
      match m with
      | mbind _ _ => fail 1
      | _ => let x := fresh "x" in
             destruct m as [x| |] eqn:?; cbn [mbind exec_bind Go.bind] in H |- *;
             try discriminate H
      end
  end.

(** C8 (amended): whenever the operation behind a method of the
    account-scoped client returns a status code, the method returns; the
    mutating methods, the HEAD methods and [GetObject] return a nil error
    exactly when the code is in the 2xx class, the two listing methods
    exactly when the code is 200; and an error that is returned is the
    HTTP-status error that carries this code. *)
Theorem C8_error_reports_status (L : Library) (c : directClient.t) (m : method)
    (picks : list nat) (sched : list selectEvent) (code : Z) :
  statusOf L c m picks sched = Returns code ->
  exists err,
    errorOf L c m picks sched = Returns err /\
    (err = None <-> if isListing m then code = 200 else Go.div code 100 = 2) /\
    (forall e, err = Some e -> e = HTTPError code).
Proof.
  intros Hst.
  destruct m; cbn [statusOf errorOf isListing] in *;
    unfold directClient.PutAccount, directClient.PostAccount, directClient.GetAccount,
      directClient.HeadAccount, directClient.DeleteAccount, directClient.PutContainer,
      directClient.PostContainer, directClient.GetContainer, directClient.HeadContainer,
      directClient.DeleteContainer, directClient.PutObject, directClient.PostObject,
      directClient.GetObject, directClient.HeadObject, directClient.DeleteObject;
    try (rewrite Hst; cbn [mbind exec_bind Go.bind];
         exists (directClient.errorUnless2xx code); split; [reflexivity|];
         apply errorUnless2xx_spec).
  all: unfold ProxyDirectClient.GetAccount, ProxyDirectClient.GetContainer,
         ProxyDirectClient.HeadAccount, ProxyDirectClient.HeadContainer,
         ProxyDirectClient.GetObject, ProxyDirectClient.HeadObject in *;
       run_method Hst; injection Hst as <-.
  all: match goal with
       | |- context [ProxyDirectClient.readResult ?r] => destruct r as [resp|]
       | |- context [ProxyDirectClient.headResult ?r] => destruct r as [resp|]
       end;
       cbn [ProxyDirectClient.readResult ProxyDirectClient.headResult fst snd
            mbind exec_bind Go.bind mret exec_ret].
  all: try match goal with
       | |- context [negb (?a =? ?b)] =>
           destruct (Z.eqb_spec a b) as [Heq|Hne]; [try discriminate Heq|]
       end;
       cbn [negb mbind exec_bind Go.bind snd mret exec_ret];
       (eexists; split; [reflexivity|]; split;
        [ split;
          [ intros H; first [assumption | discriminate H]
          | intros H; first [reflexivity | contradiction | (vm_compute in H; discriminate H)] ]
        | intros e He; first [discriminate He | injection He as <-; reflexivity] ]).
Qed.

Lemma C8_error_reports_status_witness :
  exists err,
    errorOf Examples.lib Examples.allNoContent (MPutContainer "cont" ∅) [] [] = Returns err /\
    (err = None <-> Go.div 204 100 = 2) /\
    (forall e, err = Some e -> e = HTTPError 204).
Proof.
  apply (C8_error_reports_status Examples.lib Examples.allNoContent (MPutContainer "cont" ∅)
           [] [] 204).
  vm_compute. reflexivity.
Defined.

(** C8 as stated fails: the container replicas answer a listing with 204,
    a code of the 2xx class, and [GetContainer] of the account-scoped client
    returns the error [HTTPError(204)]. *)
Lemma C8_listing_204_is_an_error :
  statusOf Examples.lib Examples.allNoContent (MGetContainer "cont" "" "" 0 "" "" ∅)
    [] [RecvSuccess 0] = Returns 204 /\
  Go.div 204 100 = 2 /\
  errorOf Examples.lib Examples.allNoContent (MGetContainer "cont" "" "" 0 "" "" ∅)
    [] [RecvSuccess 0] = Returns (Some (HTTPError 204)).
Proof. repeat split; vm_compute; reflexivity. Qed.

(** * Further properties *)

(** ** The quorum dispatcher, completed *)

(** The loop returns the status whose arrival brings its class to the
    threshold, whatever arrives later. *)
Lemma rangeStatusCodes_closes q closed pre : forall rc seen s post,
  counted rc seen ->
  Forall (fun x => 0 <= x) pre ->
  (forall k : nat, (k < 6)%nat -> classCount (Z.of_nat k) (seen ++ pre) < q) ->
  0 <= Go.div s 100 <= 5 ->
  q <= classCount (Go.div s 100) (seen ++ pre) + 1 ->
  rangeStatusCodes q rc (pre ++ s :: post) closed = Returns s.
Proof.
  induction pre as [|status pre IH]; intros rc seen s post Hc Hpos Hlt Hcl Hq.
  - rewrite app_nil_r in Hq. simpl.
    destruct (Z.leb_spec (Go.div s 100) 5) as [_|?]; [|lia].
    destruct (Z.ltb_spec (Go.div s 100) 0) as [?|_]; [lia|].
    rewrite (counted_class rc seen s Hc) by lia.
    rewrite classCount_app, classCount_cons, classCount_nil.
    destruct (decide (Go.div s 100 = Go.div s 100)); [|congruence].
    rewrite Z.geb_leb. destruct (Z.leb_spec q (classCount (Go.div s 100) seen + (1 + 0)));
      [reflexivity|lia].
  - inversion Hpos as [|? ? Hs Hrest]; subst.
    pose proof (div100_nonneg status Hs) as Hst.
    assert (Hlt' : forall k : nat, (k < 6)%nat ->
              classCount (Z.of_nat k) ((seen ++ [status]) ++ pre) < q).
    { intros k Hk. rewrite <- app_cons_assoc. apply Hlt, Hk. }
    rewrite (app_cons_assoc seen status pre) in Hq.
    change ((status :: pre) ++ s :: post) with (status :: (pre ++ s :: post)).
    cbn [rangeStatusCodes].
    destruct (Z.leb_spec (Go.div status 100) 5) as [Hle|Hgt].
    + destruct (Z.ltb_spec (Go.div status 100) 0) as [?|_]; [lia|].
      rewrite (counted_class rc seen status Hc) by lia.
      assert (Hn : classCount (Go.div status 100) (seen ++ [status]) < q).
      { specialize (Hlt' (Z.to_nat (Go.div status 100))).
        rewrite Z2Nat.id in Hlt' by lia. rewrite classCount_app in Hlt'.
        pose proof (classCount_nonneg (Go.div status 100) pre). lia. }
      rewrite Z.geb_leb.
      destruct (Z.leb_spec q (classCount (Go.div status 100) (seen ++ [status]))); [lia|].
      rewrite <- (counted_class rc seen status Hc) by lia.
      apply (IH _ (seen ++ [status])); auto.
      apply counted_incr; [assumption|lia].
    + apply (IH _ (seen ++ [status])); auto.
      apply counted_skip; [assumption|lia].
Qed.

(** X1: a status that the quorum dispatcher returns was produced by one of
    the sub-requests, is of class 0..5, is held - with its class - by at
    least [quorum] of the sub-requests, and is the arrival that brought its
    class to the threshold. *)
Theorem X1_quorumResponse_returned_status (Do : Transport) (reqs : list (option Request))
    (picks : list nat) (s : Z) :
  quorumResponse Do reqs picks = Returns s ->
  exists rs pre post,
    reqs = Some <$> rs /\
    arrivalOrder picks (statuses Do rs) = pre ++ s :: post /\
    (exists i req, rs !! i = Some req /\ goStatus (Do i req) = s) /\
    0 <= Go.div s 100 <= 5 /\
    classCount (Go.div s 100) pre = quorum (length reqs) - 1 /\
    quorum (length reqs) <= classCount (Go.div s 100) (statuses Do rs).
Proof.
  intros H. apply quorumResponse_returns in H.
  destruct H as (rs & pre & post & H1 & H2 & H3 & H4 & H5 & _ & H6).
  exists rs, pre, post.
  split; [exact H1|]. split; [exact H2|]. split; [exact H3|].
  split; [exact H4|]. split; [exact H5|exact H6].
Qed.

Lemma X1_quorumResponse_returned_status_witness :
  exists rs pre post,
    [Some Examples.anyRequest; Some Examples.anyRequest; Some Examples.anyRequest]
      = Some <$> rs /\
    arrivalOrder [2%nat]
      (statuses (Examples.transportOf [Examples.respond 201; Examples.respond 500;
                                       Examples.respond 204]) rs) = pre ++ 201 :: post /\
    (exists i req, rs !! i = Some req /\
       goStatus (Examples.transportOf [Examples.respond 201; Examples.respond 500;
                                       Examples.respond 204] i req) = 201) /\
    0 <= Go.div 201 100 <= 5 /\
    classCount (Go.div 201 100) pre = quorum 3 - 1 /\
    quorum 3 <= classCount (Go.div 201 100)
                  (statuses (Examples.transportOf [Examples.respond 201; Examples.respond 500;
                                                   Examples.respond 204]) rs).
Proof.
  apply (X1_quorumResponse_returned_status
           (Examples.transportOf [Examples.respond 201; Examples.respond 500;
                                  Examples.respond 204])
           [Some Examples.anyRequest; Some Examples.anyRequest; Some Examples.anyRequest]
           [2%nat] 201).
  vm_compute. reflexivity.
Defined.

(** X2: with at least one sub-request and statuses that are not negative,
    the quorum dispatcher returns exactly when some class 0..5 holds
    [quorum] of the statuses, and the status it returns is of such a class;
    when no class does, it blocks forever. *)
Theorem X2_quorumResponse_returns_iff_majority (Do : Transport) (rs : list Request)
    (picks : list nat) :
  (0 < length rs)%nat ->
  Forall (fun s => 0 <= s) (statuses Do rs) ->
  ((exists k : nat, (k < 6)%nat /\
      quorum (length rs) <= classCount (Z.of_nat k) (statuses Do rs)) ->
   exists s, quorumResponse Do (Some <$> rs) picks = Returns s /\
             quorum (length rs) <= classCount (Go.div s 100) (statuses Do rs)) /\
  ((forall k : nat, (k < 6)%nat ->
      classCount (Z.of_nat k) (statuses Do rs) < quorum (length rs)) ->
   quorumResponse Do (Some <$> rs) picks = BlocksForever).
Proof.
  intros Hlen Hpos. split.
  - intros (k & Hk & Hq).
    destruct (quorumResponse_majority Do rs picks k Hlen Hpos Hk Hq) as [s Hs].
    exists s. split; [assumption|].
    apply quorumResponse_returns in Hs
      as (rs' & pre & post & Hrs & _ & _ & _ & _ & _ & Hcount).
    apply (inj (fmap Some)) in Hrs. subst rs'.
    rewrite length_fmap in Hcount. assumption.
  - apply quorumResponse_no_majority. assumption.
Qed.

Lemma X2_quorumResponse_returns_iff_majority_witness :
  exists s,
    quorumResponse (Examples.transportOf [Examples.respond 500; Examples.respond 503; DoErr])
      (Some <$> [Examples.anyRequest; Examples.anyRequest; Examples.anyRequest]) [1%nat]
      = Returns s /\
    quorum 3 <= classCount (Go.div s 100) [500; 503; 500].
Proof.
  apply (X2_quorumResponse_returns_iff_majority
           (Examples.transportOf [Examples.respond 500; Examples.respond 503; DoErr])
           [Examples.anyRequest; Examples.anyRequest; Examples.anyRequest] [1%nat]).
  - simpl. lia.
  - repeat constructor; vm_compute; discriminate.
  - exists 5%nat. split; [lia|]. vm_compute. discriminate.
Defined.

(** X3: the dispatcher decides early.  Once an arrival of class 0..5 brings
    its class to the threshold, no class having reached it before, that
    status is returned whatever the remaining sub-requests answer. *)
Theorem X3_quorumResponse_decides_early (Do : Transport) (rs : list Request)
    (picks : list nat) (pre post : list Z) (s : Z) :
  arrivalOrder picks (statuses Do rs) = pre ++ s :: post ->
  Forall (fun x => 0 <= x) pre ->
  0 <= Go.div s 100 <= 5 ->
  (forall k : nat, (k < 6)%nat -> classCount (Z.of_nat k) pre < quorum (length rs)) ->
  quorum (length rs) <= classCount (Go.div s 100) pre + 1 ->
  quorumResponse Do (Some <$> rs) picks = Returns s.
Proof.
  intros Harr Hpos Hcl Hlt Hq. unfold quorumResponse.
  rewrite derefAll_Some. cbn [mbind exec_bind Go.bind]. rewrite length_fmap, Harr.
  apply (rangeStatusCodes_closes _ false pre _ [] s post counted_init); assumption.
Qed.

Lemma X3_quorumResponse_decides_early_witness :
  quorumResponse (Examples.transportOf [Examples.respond 201; Examples.respond 404;
                                        Examples.respond 204])
    (Some <$> [Examples.anyRequest; Examples.anyRequest; Examples.anyRequest]) [0%nat; 1%nat]
    = Returns 204.
Proof.
  apply (X3_quorumResponse_decides_early _ _ _ [201] [404] 204).
  - vm_compute. reflexivity.
  - repeat constructor. discriminate.
  - vm_compute. split; discriminate.
  - intros k Hk. do 6 (destruct k as [|k]; [vm_compute; reflexivity|]). lia.
  - vm_compute. discriminate.
Defined.

(** X4: with one or two sub-requests the threshold is 1, and the first
    status of class 0..5 to arrive is returned - with two replicas a
    single failure that arrives first decides the call. *)
Theorem X4_two_replicas_first_arrival_wins (Do : Transport) (rs : list Request)
    (picks : list nat) (s : Z) (post : list Z) :
  (1 <= length rs <= 2)%nat ->
  arrivalOrder picks (statuses Do rs) = s :: post ->
  0 <= Go.div s 100 <= 5 ->
  quorumResponse Do (Some <$> rs) picks = Returns s.
Proof.
  intros Hlen Harr Hcl.
  assert (Hq : quorum (length rs) = 1).
  { destruct rs as [|r1 [|r2 [|r3 rs]]]; simpl in Hlen; try lia; reflexivity. }
  unfold quorumResponse.
  rewrite derefAll_Some. cbn [mbind exec_bind Go.bind]. rewrite length_fmap, Harr, Hq.
  apply (rangeStatusCodes_closes 1 false [] _ [] s post counted_init); auto.
  - intros k _. rewrite classCount_nil. lia.
  - rewrite classCount_nil. lia.
Qed.

Lemma X4_two_replicas_first_arrival_wins_witness :
  quorumResponse (Examples.transportOf [Examples.respond 201; DoErr])
    (Some <$> [Examples.anyRequest; Examples.anyRequest]) [1%nat] = Returns 500.
Proof.
  apply (X4_two_replicas_first_arrival_wins _ _ _ 500 [201]).
  - simpl. lia.
  - vm_compute. reflexivity.
  - vm_compute. split; discriminate.
Defined.

(** ** The sub-requests of an operation *)

Lemma rangeNodes_length_le {A : Type} (body : nat -> Device -> exec (iteration A)) nodes :
  forall i l, rangeNodes body i nodes = Returns l -> (length l <= length nodes)%nat.
Proof.
  induction nodes as [|d nodes IH]; intros i l H; simpl in H.
  - injection H as <-. reflexivity.
  - destruct (body i d) as [it| |]; simpl in H; try discriminate.
    destruct (rangeNodes body (S i) nodes) as [rest| |] eqn:Hr; simpl in H; try discriminate.
    injection H as <-. specialize (IH _ _ Hr). destruct it; simpl; lia.
Qed.

Lemma rangeNodes_length_eq {A : Type} (body : nat -> Device -> exec (iteration A)) nodes :
  forall i l,
    (forall j d, body j d <> Returns Continue) ->
    rangeNodes body i nodes = Returns l -> length l = length nodes.
Proof.
  induction nodes as [|d nodes IH]; intros i l Hnc H; simpl in H.
  - injection H as <-. reflexivity.
  - destruct (body i d) as [it| |] eqn:Hb; simpl in H; try discriminate.
    destruct (rangeNodes body (S i) nodes) as [rest| |] eqn:Hr; simpl in H; try discriminate.
    injection H as <-. specialize (IH _ _ Hnc Hr).
    destruct it; simpl; [lia|]. exfalso. apply (Hnc i d). assumption.
Qed.

(** What a property of every appended request says about the slice. *)
Lemma rangeNodes_shape (body : nat -> Device -> exec (iteration (option Request)))
    (nodes : list Device) (P : Device -> Request -> Prop) (reqs : list (option Request)) :
  rangeNodes body 0 nodes = Returns reqs ->
  (forall j d r, body j d = Returns (Append (Some r)) -> P d r) ->
  (length reqs <= length nodes)%nat /\
  (forall r, Some r ∈ reqs -> exists j d, nodes !! j = Some d /\ P d r) /\
  ((forall j d, body j d <> Returns Continue) ->
   length reqs = length nodes /\
   forall j r, reqs !! j = Some (Some r) -> exists d, nodes !! j = Some d /\ P d r).
Proof.
  intros Hr HP. split; [eapply rangeNodes_length_le; eassumption|]. split.
  - intros r Hin. destruct (rangeNodes_elem _ _ _ _ _ Hr Hin) as (j & d & Hj & Hb).
    exists j, d. split; [assumption|]. eapply HP. eassumption.
  - intros Hnc. split; [eapply rangeNodes_length_eq; eassumption|].
    intros j r Hj.
    destruct (rangeNodes_lookup body nodes 0 reqs j (Some r)) as (d & Hd & Hb); auto.
    exists d. split; [assumption|]. eapply HP. eassumption.
Qed.

(** X5: an operation builds at most one sub-request per device that its
    ring returns; every sub-request has the method of the operation and the
    URL of the operation for one of these devices, a URL that parses; and an
    operation that does not test the construction error builds exactly one
    entry per device, in ring order. *)
Theorem X5_sub_requests_target_ring_devices (L : Library) (c : ProxyDirectClient.t)
    (op : call) (reqs : list (option Request)) :
  subRequests L c op = Returns reqs ->
  (length reqs <= length (nodesOf c op))%nat /\
  (forall r, Some r ∈ reqs ->
     exists j d, nodesOf c op !! j = Some d /\
       (Method r = methodOf op /\ URL r = urlOf L c op d /\ urlParses L (URL r) = true)) /\
  (checksConstruction op = false ->
   length reqs = length (nodesOf c op) /\
   forall j r, reqs !! j = Some (Some r) ->
     exists d, nodesOf c op !! j = Some d /\
       (Method r = methodOf op /\ URL r = urlOf L c op d /\ urlParses L (URL r) = true)).
Proof.
  intros Hreqs.
  destruct op; cbn [subRequests checksConstruction] in *;
    lazymatch type of Hreqs with
    | ProxyDirectClient.PutObject_reqs _ _ _ _ _ _ = _ =>
        unfold ProxyDirectClient.PutObject_reqs in Hreqs;
        destruct (ProxyDirectClient.PutObject_loop _ _ _ _ _ _) as [l| |] eqn:Hl;
        cbn [mbind exec_bind Go.bind] in Hreqs; try discriminate Hreqs;
        injection Hreqs as <-;
        split;
        [ rewrite length_fmap; unfold ProxyDirectClient.PutObject_loop in Hl;
          apply (rangeNodes_length_le _ _ _ _ Hl)
        | split; [|discriminate];
          intros r Hin; apply list_elem_of_fmap in Hin as ([i req] & Heq & Hin);
          simpl in Heq; subst req;
          destruct (PutObject_loop_elem _ _ _ _ _ _ _ _ _ Hl Hin)
            as (r' & d & Hr' & Hd & Hp & Hurl & Hm & _);
          injection Hr' as <-;
          exists i, d; split; [exact Hd|];
          split; [exact Hm|]; split; [exact Hurl|]; rewrite Hurl; exact Hp ]
    | _ =>
        unfold_reqs Hreqs;
        eapply rangeNodes_shape in Hreqs as (Hlen & Helem & Hpos);
        [ split; [exact Hlen|]; split; [exact Helem|];
          first [ discriminate
                | intros _; apply Hpos;
                  let j := fresh in let d := fresh in let Hb := fresh in
                  intros j d Hb; run_body Hb ]
        | let j := fresh in let d := fresh in let r := fresh in let Hb := fresh in
          intros j d r Hb; run_body Hb; injection Hb as <-;
          cbn [Method URL urlOf partitionOf pathOf methodOf];
          split; [reflexivity|]; split; [reflexivity|]; assumption ]
    end.
Qed.

Lemma X5_sub_requests_target_ring_devices_witness :
  (length Examples.putAccountReqs <= 3)%nat /\
  exists j d,
    [Examples.dev 1; Examples.dev 2; Examples.dev 3] !! j = Some d /\
    URL Examples.putAccountReq0 =
      urlOf Examples.lib Examples.threeReplicas (CallPutAccount "acc" Examples.twoValues) d.
Proof.
  destruct (X5_sub_requests_target_ring_devices Examples.lib Examples.threeReplicas
              (CallPutAccount "acc" Examples.twoValues) Examples.putAccountReqs)
    as (Hlen & Helem & _); [vm_compute; reflexivity|].
  split; [exact Hlen|].
  destruct (Helem Examples.putAccountReq0) as (j & d & Hd & _ & Hurl & _);
    [apply list_elem_of_here|].
  exists j, d. split; assumption.
Defined.

(** X6: the request that the header-copying loop leaves does not depend on
    the order in which the keys of the caller's map are enumerated. *)
Theorem X6_header_copy_order_irrelevant (L : Library) (keys keys' : list string)
    (headers : Header) (req : option Request) :
  keys ≡ₚ keys' ->
  setHeaders L keys headers req = setHeaders L keys' headers req.
Proof.
  intros Hp. destruct req as [r|].
  - rewrite !setHeaders_Some. do 2 f_equal.
    assert (Heq : copied L headers keys (req_Header r) = copied L headers keys' (req_Header r)).
    { apply map_eq. intros k. rewrite !copied_lookup.
      destruct (decide (k ∈ CanonicalMIMEHeaderKey L <$> keys)) as [Hin|Hnin].
      - rewrite decide_True; [reflexivity|]. rewrite <- Hp. assumption.
      - rewrite decide_False; [reflexivity|]. rewrite <- Hp. assumption. }
    rewrite Heq. reflexivity.
  - rewrite !setHeaders_nil. destruct keys as [|k keys], keys' as [|k' keys']; try reflexivity.
    + apply Permutation_nil_cons in Hp. contradiction.
    + symmetry in Hp. apply Permutation_nil_cons in Hp. contradiction.
Qed.

Lemma X6_header_copy_order_irrelevant_witness :
  setHeaders Examples.lib ["X-A"; "X-B"] {[ "X-A" := ["1"]; "X-B" := ["2"] ]}
    (Some Examples.anyRequest) =
  setHeaders Examples.lib ["X-B"; "X-A"] {[ "X-A" := ["1"]; "X-B" := ["2"] ]}
    (Some Examples.anyRequest).
Proof.
  apply X6_header_copy_order_irrelevant. apply perm_swap.
Defined.

(** X7: every sub-request of [PutObject] reads its body from the pipe that
    was created in its own iteration, no two sub-requests share a pipe, and
    whatever the caller supplied each carries
    Content-Type: application/octet-stream and Expect: 100-Continue. *)
Theorem X7_PutObject_pipes_and_fixed_headers (L : Library) (c : ProxyDirectClient.t)
    (account container obj : string) (headers : Header) (l : list (nat * option Request)) :
  (forall k, k ∈ ownHeaders (CallPutObject account container obj headers) ->
     CanonicalMIMEHeaderKey L k = k) ->
  ProxyDirectClient.PutObject_loop L c account container obj headers = Returns l ->
  NoDup l.*1 /\
  forall i req, (i, req) ∈ l ->
    exists r, req = Some r /\ req_Body r = Some i /\
      req_Header r !! "Content-Type" = Some ["application/octet-stream"] /\
      req_Header r !! "Expect" = Some ["100-Continue"].
Proof.
  intros Hcanon Hl. split; [eapply PutObject_loop_NoDup; eassumption|].
  intros i req Hin. unfold ProxyDirectClient.PutObject_loop in Hl.
  destruct (rangeNodes_elem _ _ _ _ _ Hl Hin) as (j & d & Hj & Hbody).
  run_body Hbody. injection Hbody as Hi Hreq. subst i req.
  eexists. split; [reflexivity|]. split; [reflexivity|].
  split; lookup_own Hcanon.
Qed.

Lemma X7_PutObject_pipes_and_fixed_headers_witness :
  NoDup Examples.twoUnparseableLoop.*1 /\
  forall i req, (i, req) ∈ Examples.twoUnparseableLoop ->
    exists r, req = Some r /\ req_Body r = Some i /\
      req_Header r !! "Content-Type" = Some ["application/octet-stream"] /\
      req_Header r !! "Expect" = Some ["100-Continue"].
Proof.
  apply (X7_PutObject_pipes_and_fixed_headers Examples.lib Examples.twoUnparseable
           "acc" "cont" "obj" ∅).
  - intros k _. reflexivity.
  - vm_compute. reflexivity.
Defined.

(** ** The status of a read *)

Ltac unfold_reads :=
  unfold ProxyDirectClient.GetAccount, ProxyDirectClient.GetContainer,
    ProxyDirectClient.HeadAccount, ProxyDirectClient.HeadContainer,
    ProxyDirectClient.GetObject, ProxyDirectClient.HeadObject, ProxyDirectClient.GrepObject
    in *.

Lemma firstResponse_returns Do reqs sched resp :
  firstResponse Do reqs sched = Returns (Some resp) ->
  Go.div (StatusCode resp) 100 = 2 /\
  exists j req, reqs !! j = Some (Some req) /\ Do j req = DoOk resp.
Proof.
  intros H. apply firstResponseLoop_returns in H as [H2 [Hin|(j & req & Hj & Hdo)]].
  - inversion Hin.
  - apply is2xx_Some in H2 as (x & Hx & Hcl). injection Hx as <-.
    split; [assumption|]. exists j, req. split; assumption.
Qed.

(** X8: a read never surfaces a backend status outside 2xx.  What it
    returns is 404 with nil body and nil headers, or the status and the
    headers (and, but for HEAD, the body) of a 2xx response that one of its
    sub-requests produced. *)
Theorem X8_read_returns_2xx_or_404 (L : Library) (c : ProxyDirectClient.t) (op : call)
    (sched : list selectEvent) (b : option string) (h : option Header) (code : Z) :
  readCall L c op sched = Some (Returns (b, h, code)) ->
  (code = 404 /\ b = None /\ h = None) \/
  (Go.div code 100 = 2 /\
   exists reqs j req resp,
     subRequests L c op = Returns reqs /\ reqs !! j = Some (Some req) /\
     ProxyDirectClient.client c j req = DoOk resp /\
     code = StatusCode resp /\ h = Some (resp_Header resp) /\
     (b = None \/ b = Some (resp_Body resp))).
Proof.
  intros H.
  destruct op; cbn [readCall subRequests] in *; try discriminate H;
    injection H as H; unfold_reads; run_method H;
    match type of H with
    | context [ProxyDirectClient.readResult ?r] => destruct r as [resp|]
    | context [ProxyDirectClient.headResult ?r] => destruct r as [resp|]
    end;
    cbn [ProxyDirectClient.readResult ProxyDirectClient.headResult fst snd
         mbind exec_bind Go.bind mret exec_ret] in H;
    injection H as <- <- <-;
    first
      [ left; repeat split; reflexivity
      | right;
        match goal with
        | Hf : firstResponse _ _ _ = Returns (Some _) |- _ =>
            apply firstResponse_returns in Hf as (Hcl & j & req & Hj & Hdo)
        end;
        split; [exact Hcl|];
        eexists _, j, req, resp;
        split; [reflexivity|]; split; [exact Hj|]; split; [exact Hdo|];
        split; [reflexivity|]; split; [reflexivity|];
        first [left; reflexivity | right; reflexivity] ].
Qed.

Lemma X8_read_returns_2xx_or_404_witness :
  (404 = 404 /\ @None string = None /\ @None Header = None) \/
  (Go.div 404 100 = 2 /\
   exists reqs j req resp,
     subRequests Examples.lib Examples.allMissing (CallGetObject "acc" "cont" "obj" ∅)
       = Returns reqs /\ reqs !! j = Some (Some req) /\
     ProxyDirectClient.client Examples.allMissing j req = DoOk resp /\
     404 = StatusCode resp /\ None = Some (resp_Header resp) /\
     (@None string = None \/ None = Some (resp_Body resp))).
Proof.
  apply (X8_read_returns_2xx_or_404 Examples.lib Examples.allMissing
           (CallGetObject "acc" "cont" "obj" ∅) [RecvSuccess 0; RecvSuccess 0; RecvSuccess 0]).
  vm_compute. reflexivity.
Defined.

Lemma checked_reqs_not_nil L c op :
  checksConstruction op = true ->
  (forall a co o h, op <> CallPutObject a co o h) ->
  exists rs, subRequests L c op = Returns (Some <$> rs).
Proof.
  intros Hck Hput.
  destruct op; cbn [checksConstruction] in Hck; try discriminate Hck;
    try (exfalso; eapply Hput; reflexivity);
    cbn [subRequests];
    unfold ProxyDirectClient.HeadAccount_reqs, ProxyDirectClient.HeadContainer_reqs,
      ProxyDirectClient.GetObject_reqs, ProxyDirectClient.GrepObject_reqs,
      ProxyDirectClient.HeadObject_reqs;
    apply rangeNodes_not_nil; intros j d; unfold NewRequest;
    (destruct (urlParses L _); [right|left; reflexivity]);
    rewrite ?copyHeaders_Some_eq; eexists; reflexivity.
Qed.

(** X9: the reads that test the construction error ([HeadAccount],
    [HeadContainer], [GetObject], [GrepObject], [HeadObject]) always return:
    they neither panic nor block, whatever the ring, the backends and the
    timers do. *)
Theorem X9_checked_reads_always_return (L : Library) (c : ProxyDirectClient.t) (op : call)
    (sched : list selectEvent) (res : exec (option string * option Header * Z)) :
  checksConstruction op = true ->
  readCall L c op sched = Some res ->
  exists b h code, res = Returns (b, h, code).
Proof.
  intros Hck Hres.
  destruct (checked_reqs_not_nil L c op Hck) as [rs Hrs].
  { intros a co o h ->. discriminate Hres. }
  destruct (firstResponseLoop_total (ProxyDirectClient.client c) rs 0 [] sched) as [resp Hresp].
  fold (firstResponse (ProxyDirectClient.client c) (Some <$> rs) sched) in Hresp.
  destruct op; cbn [checksConstruction] in Hck; try discriminate Hck;
    cbn [readCall subRequests] in *; try discriminate Hres;
    injection Hres as <-; unfold_reads; rewrite Hrs;
    cbn [mbind exec_bind Go.bind]; rewrite Hresp; cbn [mbind exec_bind Go.bind];
    destruct resp; eexists _, _, _; reflexivity.
Qed.

Lemma X9_checked_reads_always_return_witness :
  exists b h code,
    ProxyDirectClient.GrepObject Examples.lib Examples.allDown "acc" "cont" "obj" "x" [TimeAfter]
      = Returns (b, h, code).
Proof.
  apply (X9_checked_reads_always_return Examples.lib Examples.allDown
           (CallGrepObject "acc" "cont" "obj" "x") [TimeAfter]); reflexivity.
Defined.

(** X10: the read methods of the account-scoped client fail with
    [HTTPError(404)] only - whatever the backends answered - but for the two
    listing methods, which also turn a 2xx answer other than 200 into the
    error that carries its code. *)
Theorem X10_read_methods_fail_with_404 (L : Library) (c : directClient.t) (m : method)
    (picks : list nat) (sched : list selectEvent) (e : error) :
  isRead m = true ->
  errorOf L c m picks sched = Returns (Some e) ->
  e = HTTPError 404 \/
  (isListing m = true /\ exists code, e = HTTPError code /\ Go.div code 100 = 2 /\ code <> 200).
Proof.
  intros Hread H.
  destruct m; cbn [isRead] in Hread; try discriminate Hread; cbn [errorOf isListing] in *;
    unfold directClient.GetAccount, directClient.HeadAccount, directClient.GetContainer,
      directClient.HeadContainer, directClient.GetObject, directClient.HeadObject in H;
    unfold_reads; run_method H;
    match goal with
    | Hf : firstResponse _ _ _ = Returns ?r |- _ => destruct r as [resp|]
    end;
    cbn [ProxyDirectClient.readResult ProxyDirectClient.headResult fst snd
         mbind exec_bind Go.bind mret exec_ret] in *;
    try match goal with
    | Hf : firstResponse _ _ _ = Returns (Some _) |- _ =>
        apply firstResponse_returns in Hf as (Hcl & _)
    end.
  all: try match goal with
       | Hx : context [negb (?a =? ?b)] |- _ =>
           destruct (Z.eqb_spec a b) as [Heq|Hne]; [try discriminate Heq|]
       end;
       cbn [negb mbind exec_bind Go.bind snd mret exec_ret] in *.
  all: repeat match goal with
       | Hx : Returns _ = Returns _ |- _ => injection Hx as Hx; try subst
       | Hx : Panics _ = Returns _ |- _ => discriminate Hx
       end; cbn [fst snd] in *.
  all: try discriminate.
  all: try (exfalso; unfold Go.div in *; congruence).
  all: try (left; congruence).
  all: right; split; [reflexivity|]; exists (StatusCode resp);
       split; [congruence|]; split; assumption.
Qed.

Lemma X10_read_methods_fail_with_404_witness :
  HTTPError 404 = HTTPError 404 \/
  (false = true /\
   exists code, HTTPError 404 = HTTPError code /\ Go.div code 100 = 2 /\ code <> 200).
Proof.
  apply (X10_read_methods_fail_with_404 Examples.lib
           (directClient.mk Examples.allDown "acc") (MGetObject "cont" "obj" ∅) []
           [RecvSuccess 0; RecvSuccess 0; RecvSuccess 0]).
  - reflexivity.
  - vm_compute. reflexivity.
Defined.

(** ** Requests that cannot be built, and rings that do not match *)

Lemma rangeNodes_no_block {A : Type} (body : nat -> Device -> exec (iteration A)) nodes :
  (forall j d, body j d <> BlocksForever) ->
  forall i, rangeNodes body i nodes <> BlocksForever.
Proof.
  intros Hnb. induction nodes as [|d nodes IH]; intros i; simpl; [discriminate|].
  destruct (body i d) as [it| |] eqn:Hb; simpl; [|discriminate|].
  - specialize (IH (S i)).
    destruct (rangeNodes body (S i) nodes); simpl; [discriminate|discriminate|congruence].
  - exfalso. apply (Hnb i d). assumption.
Qed.

(** A loop with an iteration that does not complete panics. *)
Lemma rangeNodes_panics {A : Type} (body : nat -> Device -> exec (iteration A)) nodes j d :
  nodes !! j = Some d ->
  (forall it, body j d <> Returns it) ->
  (forall j d, body j d <> BlocksForever) ->
  exists p, rangeNodes body 0 nodes = Panics p.
Proof.
  intros Hj Hnr Hnb.
  destruct (rangeNodes body 0 nodes) as [l|p|] eqn:Hr.
  - destruct (rangeNodes_complete _ _ _ _ _ _ Hr Hj) as (it & Hb & _).
    exfalso. apply (Hnr it). assumption.
  - eauto.
  - exfalso. revert Hr. apply rangeNodes_no_block. assumption.
Qed.

Lemma derefAll_nil reqs : None ∈ reqs -> derefAll reqs = Panics NilDereference.
Proof.
  induction reqs as [|[r|] reqs IH]; intros Hin.
  - inversion Hin.
  - apply elem_of_cons in Hin as [?|Hin]; [discriminate|].
    cbn [derefAll]. rewrite (IH Hin). reflexivity.
  - reflexivity.
Qed.

Lemma quorumResponse_nil_request Do reqs picks :
  None ∈ reqs -> quorumResponse Do reqs picks = Panics NilDereference.
Proof. intros Hin. unfold quorumResponse. rewrite (derefAll_nil _ Hin). reflexivity. Qed.

Ltac unfold_reqs_goal :=
  unfold ProxyDirectClient.PutAccount_reqs, ProxyDirectClient.PostAccount_reqs,
    ProxyDirectClient.GetAccount_reqs, ProxyDirectClient.HeadAccount_reqs,
    ProxyDirectClient.DeleteAccount_reqs, ProxyDirectClient.PutContainer_reqs,
    ProxyDirectClient.PostContainer_reqs, ProxyDirectClient.GetContainer_reqs,
    ProxyDirectClient.HeadContainer_reqs, ProxyDirectClient.DeleteContainer_reqs,
    ProxyDirectClient.PostObject_reqs, ProxyDirectClient.GetObject_reqs,
    ProxyDirectClient.GrepObject_reqs, ProxyDirectClient.HeadObject_reqs,
    ProxyDirectClient.DeleteObject_reqs, ProxyDirectClient.PutObject_loop.

(** Runs the body of a loop that is known not to return, or not to block. *)
Ltac body_fails H := run_body H; try discriminate H.

Ltac unchecked_failure Hj Hparse :=
  match goal with
  | |- exists p, mbind _ ?m = _ =>
      let reqs := fresh "reqs" in
      let Hreqs := fresh "Hreqs" in
      destruct m as [reqs|?|] eqn:Hreqs; cbn [mbind exec_bind Go.bind];
      [ exists NilDereference; apply quorumResponse_nil_request;
        unfold_reqs Hreqs;
        let it := fresh "it" in
        let Hb := fresh "Hb" in
        let Hin := fresh "Hin" in
        destruct (rangeNodes_complete _ _ _ _ _ _ Hreqs Hj) as (it & Hb & Hin);
        run_body Hb; try (rewrite Hparse in *; discriminate);
        apply Hin; congruence
      | eauto
      | exfalso; revert Hreqs; unfold_reqs_goal; apply rangeNodes_no_block;
        let j' := fresh in let d' := fresh in let Hb := fresh in
        intros j' d' Hb; body_fails Hb ]
  end.

(** X11: a mutation that discards the error of [http.NewRequest] - every
    mutation but [PutObject] - never returns a status when the URL of one of
    its devices does not parse: the nil request is dereferenced and the call
    panics. *)
Theorem X11_unchecked_construction_failure_panics (L : Library) (c : ProxyDirectClient.t)
    (op : call) (picks : list nat) (res : exec Z) (j : nat) (d : Device) :
  checksConstruction op = false ->
  mutation L c op picks = Some res ->
  nodesOf c op !! j = Some d ->
  urlParses L (urlOf L c op d) = false ->
  exists p, res = Panics p.
Proof.
  intros Hck Hres Hj Hparse.
  destruct op; cbn [checksConstruction] in Hck; try discriminate Hck;
    cbn [mutation] in Hres; try discriminate Hres; injection Hres as <-;
    cbn [nodesOf partitionOf] in Hj; unfold urlOf in Hparse;
    cbn [partitionOf pathOf] in Hparse;
    unfold ProxyDirectClient.PutAccount, ProxyDirectClient.PostAccount,
      ProxyDirectClient.DeleteAccount, ProxyDirectClient.PutContainer,
      ProxyDirectClient.PostContainer, ProxyDirectClient.DeleteContainer,
      ProxyDirectClient.PostObject, ProxyDirectClient.DeleteObject;
    unchecked_failure Hj Hparse.
Qed.

Lemma X11_unchecked_construction_failure_panics_witness :
  exists p,
    ProxyDirectClient.PutContainer Examples.lib
      (Examples.clientOf [] [Examples.dev 1; Examples.dev 2; Examples.dev 3]
         [Examples.dev 4; Examples.badDev 5; Examples.dev 6] [])
      "acc" "cont" ∅ [] = Panics p.
Proof.
  apply (X11_unchecked_construction_failure_panics Examples.lib
           (Examples.clientOf [] [Examples.dev 1; Examples.dev 2; Examples.dev 3]
              [Examples.dev 4; Examples.badDev 5; Examples.dev 6] [])
           (CallPutContainer "acc" "cont" ∅) [] _ 1 (Examples.badDev 5));
    reflexivity.
Defined.

Ltac unfold_mutations :=
  unfold ProxyDirectClient.PutAccount, ProxyDirectClient.PostAccount,
    ProxyDirectClient.DeleteAccount, ProxyDirectClient.PutContainer,
    ProxyDirectClient.PostContainer, ProxyDirectClient.DeleteContainer,
    ProxyDirectClient.PutObject, ProxyDirectClient.PostObject,
    ProxyDirectClient.DeleteObject.

Ltac short_parent Hi Hnone Hparse :=
  match goal with
  | |- exists p, mbind _ ?m = _ =>
      let Hp := fresh "Hp" in
      assert (Hp : exists p, m = Panics p);
      [ unfold_reqs_goal; eapply rangeNodes_panics;
        [ exact Hi
        | let it := fresh in let Hb := fresh in
          intros it Hb; run_body Hb; congruence
        | let j' := fresh in let d' := fresh in let Hb := fresh in
          intros j' d' Hb; body_fails Hb ]
      | let p := fresh "p" in
        destruct Hp as [p ->]; exists p; reflexivity ]
  end.

(** X12: a child-tier mutation indexes the devices of the parent ring by the
    replica index of the child.  When the parent ring returns fewer devices
    than the child ring, the call panics while it builds its requests, and
    no sub-request is sent. *)
Theorem X12_short_parent_ring_panics (L : Library) (c : ProxyDirectClient.t) (op : call)
    (pl : placement) (picks : list nat) (res : exec Z) (i : nat) (d : Device) :
  placementOf c op = Some pl ->
  mutation L c op picks = Some res ->
  childNodes pl !! i = Some d ->
  parentNodes pl !! i = None ->
  urlParses L (urlOf L c op d) = true ->
  exists p, res = Panics p.
Proof.
  intros Hpl Hres Hi Hnone Hparse.
  destruct op; cbn [placementOf] in Hpl; try discriminate Hpl; injection Hpl as <-;
    cbn [mutation] in Hres; injection Hres as <-;
    unfold containerPlacement, objectPlacement in Hi, Hnone;
    cbn [childNodes parentNodes] in Hi, Hnone;
    unfold urlOf in Hparse; cbn [partitionOf pathOf] in Hparse;
    unfold_mutations; short_parent Hi Hnone Hparse.
Qed.

Lemma X12_short_parent_ring_panics_witness :
  exists p,
    ProxyDirectClient.PutObject Examples.lib
      (Examples.clientOf [] [] [Examples.dev 1; Examples.dev 2]
         [Examples.dev 4; Examples.dev 5; Examples.dev 6])
      "acc" "cont" "obj" ∅ [] = Panics p.
Proof.
  apply (X12_short_parent_ring_panics Examples.lib
           (Examples.clientOf [] [] [Examples.dev 1; Examples.dev 2]
              [Examples.dev 4; Examples.dev 5; Examples.dev 6])
           (CallPutObject "acc" "cont" "obj" ∅)
           (objectPlacement
              (Examples.clientOf [] [] [Examples.dev 1; Examples.dev 2]
                 [Examples.dev 4; Examples.dev 5; Examples.dev 6]) "acc" "cont" "obj")
           [] _ 2 (Examples.dev 6));
    reflexivity.
Defined.

Lemma quorumResponse_empty Do picks : quorumResponse Do [] picks = BlocksForever.
Proof.
  unfold quorumResponse.
  pose proof (arrivalOrder_Permutation picks (statuses Do [])) as Hperm.
  apply Permutation_nil_r in Hperm. cbn -[arrivalOrder]. cbn in Hperm.
  rewrite Hperm. reflexivity.
Qed.

(** X13: when the ring returns no device for the partition, a mutation
    never returns - it waits forever for a status, and [PutObject] panics on
    [writers[0]] - while a read returns 404 with nil body and nil headers. *)
Theorem X13_empty_ring (L : Library) (c : ProxyDirectClient.t) (op : call) :
  nodesOf c op = [] ->
  (forall picks res, mutation L c op picks = Some res ->
     res = match op with
           | CallPutObject _ _ _ _ => Panics IndexOutOfRange
           | _ => BlocksForever
           end) /\
  (forall sched res, readCall L c op sched = Some res -> res = Returns (None, None, 404)).
Proof.
  intros Hnodes.
  destruct op; cbn [nodesOf partitionOf] in Hnodes; split; intros s res H;
    cbn [mutation readCall] in H; try discriminate H; injection H as <-;
    unfold_mutations; unfold_reads; unfold_reqs_goal; rewrite Hnodes;
    cbn [rangeNodes mbind exec_bind Go.bind mret exec_ret];
    first [apply quorumResponse_empty | reflexivity].
Qed.

Lemma X13_empty_ring_witness :
  ProxyDirectClient.DeleteObject Examples.lib (Examples.clientOf [] [] [] [])
    "acc" "cont" "obj" ∅ [] = BlocksForever /\
  ProxyDirectClient.GetObject Examples.lib (Examples.clientOf [] [] [] [])
    "acc" "cont" "obj" ∅ [] = Returns (None, None, 404).
Proof.
  destruct (X13_empty_ring Examples.lib (Examples.clientOf [] [] [] [])
              (CallDeleteObject "acc" "cont" "obj" ∅) eq_refl) as [Hm _].
  destruct (X13_empty_ring Examples.lib (Examples.clientOf [] [] [] [])
              (CallGetObject "acc" "cont" "obj" ∅) eq_refl) as [_ Hr].
  split; [apply (Hm [] _ eq_refl)|apply (Hr [] _ eq_refl)].
Defined.

(** ** The query of a listing *)

Lemma append_empty_inv (s t : string) : s +:+ t = "" -> s = "" /\ t = "".
Proof. destruct s; simpl; [auto|discriminate]. Qed.

Lemma TrimRight_amp_no_trailing (s t : string) : TrimRight_amp s <> t +:+ "&".
Proof.
  revert t. induction s as [|a s IH]; intros t; simpl.
  - destruct t; discriminate.
  - destruct (bool_decide (a = "&"%char) && bool_decide (TrimRight_amp s = "")) eqn:Hc.
    + destruct t; discriminate.
    + destruct t as [|b t]; simpl.
      * intros H. injection H as -> Hs. rewrite Hs in Hc. discriminate Hc.
      * intros H. injection H as _ Hs. apply (IH t). assumption.
Qed.

Section Query.

Variable L : Library.

Lemma addOption_empty query kv : addOption L query kv = "" <-> query = "" /\ kv.2 = "".
Proof.
  unfold addOption. destruct (bool_decide (kv.2 = "")) eqn:Hd.
  - apply bool_decide_eq_true in Hd. tauto.
  - apply bool_decide_eq_false in Hd. split; [|tauto].
    intros H. apply append_empty_inv in H as [_ H].
    apply append_empty_inv in H as [_ H]. discriminate H.
Qed.

Lemma foldl_addOption_empty l : forall query,
  foldl (addOption L) query l = "" <-> query = "" /\ Forall (fun kv => kv.2 = "") l.
Proof.
  induction l as [|kv l IH]; intros query; simpl.
  - split; [intros ->; split; [reflexivity|constructor]|tauto].
  - rewrite IH, addOption_empty. split.
    + intros [[-> Hkv] Hl]. split; [reflexivity|]. constructor; assumption.
    + intros [-> Hall]. inversion Hall; subst. tauto.
Qed.

End Query.

Lemma mkquery_shape (L : Library) (options : gmap string string) :
  (mkquery L options = "" <-> forall k v, options !! k = Some v -> v = "") /\
  (mkquery L options <> "" -> exists q, mkquery L options = "?" +:+ q) /\
  (forall s, mkquery L options <> s +:+ "&").
Proof.
  unfold mkquery. fold (addOption L).
  pose proof (foldl_addOption_empty L (map_to_list options) "") as Hempty.
  destruct (bool_decide (foldl (addOption L) "" (map_to_list options) = "")) eqn:Hd.
  - apply bool_decide_eq_true in Hd. split; [|split].
    + split; [|reflexivity]. intros _ k v Hk.
      apply Hempty in Hd as [_ Hall]. rewrite Forall_forall in Hall.
      apply (Hall (k, v)). apply elem_of_map_to_list. assumption.
    + intros H. contradiction.
    + intros s. destruct s; discriminate.
  - apply bool_decide_eq_false in Hd. split; [|split].
    + split; [discriminate|]. intros Hall. exfalso. apply Hd, Hempty.
      split; [reflexivity|]. apply Forall_forall. intros [k v] Hin.
      apply elem_of_map_to_list in Hin. simpl. eapply Hall. eassumption.
    + intros _. eexists. reflexivity.
    + intros s H. destruct s as [|a s]; simpl in H; [discriminate H|].
      injection H as _ H. revert H. apply TrimRight_amp_no_trailing.
Qed.

(** X14: [mkquery] returns the empty string exactly when every option has
    an empty value; any other result starts with a question mark, and no
    result ends with an ampersand. *)
Theorem X14_mkquery_empty_and_delimiters (L : Library) (options : gmap string string) :
  (mkquery L options = "" <-> forall k v, options !! k = Some v -> v = "") /\
  (mkquery L options <> "" -> exists q, mkquery L options = "?" +:+ q) /\
  (forall s, mkquery L options <> s +:+ "&").
Proof. apply mkquery_shape. Qed.

(** X15: the options of a listing always hold format=json, so the query of
    a listing is never empty; and they hold a limit exactly when the limit
    is not zero. *)
Theorem X15_listing_query (L : Library) (marker endMarker : string) (limit : Z)
    (prefix delimiter : string) :
  let options := directClient.listingOptions marker endMarker limit prefix delimiter in
  options !! "format" = Some "json" /\
  mkquery L options <> "" /\
  options !! "limit" = (if decide (limit = 0) then None else Some (pretty limit)).
Proof.
  intros options.
  assert (Hformat : options !! "format" = Some "json").
  { subst options. unfold directClient.listingOptions.
    destruct (negb (limit =? 0)); [rewrite lookup_insert_ne by discriminate|];
      apply lookup_insert_eq. }
  split; [exact Hformat|]. split.
  - intros Hq.
    destruct (mkquery_shape L options) as [[Hfwd _] _].
    specialize (Hfwd Hq _ _ Hformat). discriminate Hfwd.
  - subst options. unfold directClient.listingOptions.
    destruct (Z.eqb_spec limit 0) as [->|Hne]; simpl.
    + repeat (rewrite lookup_insert_ne by discriminate).
      rewrite lookup_singleton_ne by discriminate. reflexivity.
    + rewrite decide_False by assumption. apply lookup_insert_eq.
Qed.

(** ** The proxy context middleware *)

Lemma stripKey_excluded (h : http.Header) (k : string) :
  middleware.stripKey h k = if excluded k then delete k h else h.
Proof.
  unfold middleware.stripKey, excluded, middleware.excludeHeaders.
  cbn [foldl existsb].
  destruct (bool_decide (k = "X-Timestamp"));
    destruct (String.prefix "X-Account-Sysmeta-" k);
    destruct (String.prefix "X-Container-Sysmeta-" k);
    destruct (String.prefix "X-Object-Sysmeta-" k);
    destruct (String.prefix "X-Object-Transient-Sysmeta-" k);
    destruct (String.prefix "X-Backend-" k);
    cbn [orb]; rewrite ?delete_delete_eq; reflexivity.
Qed.

Lemma foldl_stripKey_lookup (keys : list string) : forall (h : http.Header) (k : string),
  foldl middleware.stripKey h keys !! k =
    if excluded k && bool_decide (k ∈ keys) then None else h !! k.
Proof.
  induction keys as [|k0 keys IH]; intros h k; cbn [foldl].
  - rewrite bool_decide_eq_false_2 by (intros H; inversion H).
    rewrite andb_false_r. reflexivity.
  - rewrite IH, stripKey_excluded.
    destruct (excluded k) eqn:Hex; cbn [andb].
    + destruct (bool_decide (k ∈ keys)) eqn:Hin.
      * rewrite bool_decide_eq_true_2; [reflexivity|].
        apply bool_decide_eq_true in Hin. right. assumption.
      * apply bool_decide_eq_false in Hin.
        destruct (decide (k0 = k)) as [->|Hne].
        -- rewrite Hex, lookup_delete_eq.
           rewrite bool_decide_eq_true_2 by left. reflexivity.
        -- rewrite bool_decide_eq_false_2.
           ++ destruct (excluded k0); [rewrite lookup_delete_ne by assumption|]; reflexivity.
           ++ intros H. apply elem_of_cons in H as [H|H]; congruence.
    + destruct (excluded k0) eqn:Hex0; [|reflexivity].
      rewrite lookup_delete_ne; [reflexivity|]. intros ->. congruence.
Qed.

(** X16: [proxyWriter.WriteHeader] removes from the response headers
    X-Timestamp and every key that starts with one of the excluded prefixes,
    leaves every other header as it was, records the status, marks the
    response as started and passes the status on. *)
Theorem X16_WriteHeader_strips_excluded_headers (w : middleware.proxyWriter) (status : Z) :
  let w' := middleware.WriteHeader w status in
  (forall k, middleware.Header w' !! k =
             if excluded k then None else middleware.Header w !! k) /\
  middleware.Response w' = (true, status) /\
  middleware.Written w' = middleware.Written w ++ [status].
Proof.
  cbn. split; [|split; reflexivity].
  intros k. rewrite foldl_stripKey_lookup.
  destruct (excluded k); [|reflexivity]. cbn [andb].
  destruct (bool_decide (k ∈ (map_to_list (middleware.Header w)).*1)) eqn:Hin; [reflexivity|].
  apply bool_decide_eq_false in Hin.
  destruct (middleware.Header w !! k) as [v|] eqn:Hk; [|reflexivity].
  exfalso. apply Hin. apply list_elem_of_fmap. exists (k, v). split; [reflexivity|].
  apply elem_of_map_to_list. assumption.
Qed.

(** ** The parts of a request path *)

Lemma cutSlash_None s : middleware.cutSlash s = None <-> hasSlash s = false.
Proof.
  induction s as [|a s IH]; simpl; [tauto|].
  destruct (bool_decide (a = "/"%char)); simpl; [split; discriminate|].
  destruct (middleware.cutSlash s) as [[pre rest]|].
  - split; [discriminate|]. intros H. apply IH in H. discriminate H.
  - split; [intros _; apply IH; reflexivity|reflexivity].
Qed.

Lemma cutSlash_append (a rest : string) :
  hasSlash a = false -> middleware.cutSlash (a +:+ "/" +:+ rest) = Some (a, rest).
Proof.
  induction a as [|x a IH]; simpl; intros H; [reflexivity|].
  apply orb_false_iff in H as [Hx Ha]. rewrite Hx, (IH Ha). reflexivity.
Qed.

Lemma cutSlash_no_slash (a : string) : hasSlash a = false -> middleware.cutSlash a = None.
Proof. apply cutSlash_None. Qed.

(** X17: [getPathParts] takes a versioned path apart.  For an account and a
    container without a slash, "/v1/account/container/object" gives the three
    names - the object keeps its slashes -, "/v1/account/container" gives an
    empty object and "/v1/account" an empty container and object. *)
Theorem X17_getPathParts_versioned_path (account container obj : string) :
  hasSlash account = false ->
  hasSlash container = false ->
  middleware.getPathParts ("/v1/" +:+ account +:+ "/" +:+ container +:+ "/" +:+ obj)
    = Returns (true, account, container, obj) /\
  middleware.getPathParts ("/v1/" +:+ account +:+ "/" +:+ container)
    = Returns (true, account, container, "") /\
  middleware.getPathParts ("/v1/" +:+ account) = Returns (true, account, "", "").
Proof.
  intros Ha Hc. unfold middleware.getPathParts.
  change ("/v1/" +:+ ?s) with ("" +:+ "/" +:+ ("v1" +:+ "/" +:+ s)).
  unfold middleware.SplitN.
  repeat split.
  - rewrite (cutSlash_append "" _ eq_refl), (cutSlash_append "v1" _ eq_refl).
    rewrite (cutSlash_append account _ Ha), (cutSlash_append container _ Hc).
    reflexivity.
  - rewrite (cutSlash_append "" _ eq_refl), (cutSlash_append "v1" _ eq_refl).
    rewrite (cutSlash_append account _ Ha), (cutSlash_no_slash container Hc).
    reflexivity.
  - rewrite (cutSlash_append "" _ eq_refl), (cutSlash_append "v1" _ eq_refl).
    rewrite (cutSlash_no_slash account Ha).
    reflexivity.
Qed.

Lemma X17_getPathParts_versioned_path_witness :
  middleware.getPathParts ("/v1/" +:+ "AUTH_test" +:+ "/" +:+ "photos" +:+ "/" +:+ "2016/a.jpg")
    = Returns (true, "AUTH_test", "photos", "2016/a.jpg") /\
  middleware.getPathParts ("/v1/" +:+ "AUTH_test" +:+ "/" +:+ "photos")
    = Returns (true, "AUTH_test", "photos", "") /\
  middleware.getPathParts ("/v1/" +:+ "AUTH_test") = Returns (true, "AUTH_test", "", "").
Proof.
  apply (X17_getPathParts_versioned_path "AUTH_test" "photos" "2016/a.jpg"); reflexivity.
Defined.

(** X18: [getPathParts] reads [parts[1]] whatever the number of parts: it
    panics with an index out of range exactly on a path without a slash,
    and returns on every other path. *)
Theorem X18_getPathParts_needs_a_slash (path : string) :
  (middleware.getPathParts path = Panics IndexOutOfRange <-> hasSlash path = false) /\
  (hasSlash path = true -> exists r, middleware.getPathParts path = Returns r).
Proof.
  unfold middleware.getPathParts, middleware.SplitN.
  destruct (middleware.cutSlash path) as [[p0 r0]|] eqn:H0.
  - assert (Hs : hasSlash path = true).
    { destruct (hasSlash path) eqn:Hs; [reflexivity|].
      apply cutSlash_None in Hs. congruence. }
    rewrite Hs.
    destruct (middleware.cutSlash r0) as [[p1 r1]|];
      [destruct (middleware.cutSlash r1) as [[p2 r2]|];
         [destruct (middleware.cutSlash r2) as [[p3 r3]|]|]|];
      cbn; (split; [split; discriminate|intros _; eexists; reflexivity]).
  - apply cutSlash_None in H0. rewrite H0. split; [|discriminate].
    split; reflexivity.
Qed.

(** ** Account and container info *)

Lemma prefix_sliceFrom p k :
  String.prefix p k = true -> k = p +:+ info.sliceFrom (String.length p) k.
Proof.
  revert k. induction p as [|a p IH]; intros k H; [reflexivity|].
  destruct k as [|b k]; [discriminate H|].
  cbn in H. destruct (ascii_dec a b) as [->|]; [|discriminate H].
  change (String b k = String b (p +:+ info.sliceFrom (String.length p) k)).
  f_equal. apply IH, H.
Qed.

Lemma prefix_append p m : String.prefix p (p +:+ m) = true.
Proof.
  induction p as [|a p IH]; [destruct m; reflexivity|].
  change (String.prefix (String a p) (String a (p +:+ m)) = true).
  cbn. destruct (ascii_dec a a); [exact IH|congruence].
Qed.

Lemma sliceFrom_append p m : info.sliceFrom (String.length p) (p +:+ m) = m.
Proof. induction p as [|a p IH]; [reflexivity|exact IH]. Qed.

Lemma sliceFrom_prefix_inj p k name :
  String.prefix p k = true ->
  info.sliceFrom (String.length p) k = name <-> k = p +:+ name.
Proof.
  intros H. split.
  - intros <-. apply prefix_sliceFrom, H.
  - intros ->. apply sliceFrom_append.
Qed.

Section Info.

Variable L : Library.
Variables (meta sysmeta : string).
Hypothesis disjoint : forall x, String.prefix meta (sysmeta +:+ x) = false.

Let step (headers : Header) (acc : gmap string string * gmap string string) (k : string) :=
  if String.prefix meta k
  then (<[info.sliceFrom (String.length meta) k := Header_Get L headers k]> acc.1, acc.2)
  else if String.prefix sysmeta k
  then (acc.1, <[info.sliceFrom (String.length sysmeta) k := Header_Get L headers k]> acc.2)
  else acc.

Lemma collect_fold headers keys acc name :
  (foldl (step headers) acc keys).1 !! name =
    (if decide (meta +:+ name ∈ keys)
     then Some (Header_Get L headers (meta +:+ name)) else acc.1 !! name) /\
  (foldl (step headers) acc keys).2 !! name =
    (if decide (sysmeta +:+ name ∈ keys)
     then Some (Header_Get L headers (sysmeta +:+ name)) else acc.2 !! name).
Proof.
  revert acc. induction keys as [|k keys IH]; intros acc.
  - cbn. split; (destruct (decide _) as [Hin|_]; [inversion Hin|reflexivity]).
  - cbn [foldl]. destruct (IH (step headers acc k)) as [IH1 IH2].
    rewrite IH1, IH2. clear IH IH1 IH2. unfold step.
    split.
    + destruct (decide (meta +:+ name ∈ keys)) as [Hin|Hnin].
      * rewrite decide_True by (right; exact Hin). reflexivity.
      * destruct (decide (k = meta +:+ name)) as [->|Hne].
        -- rewrite decide_True by left. rewrite prefix_append. cbn [fst].
           rewrite sliceFrom_append, lookup_insert_eq. reflexivity.
        -- rewrite decide_False
             by (intros Hin; apply elem_of_cons in Hin as [Heq|Hin]; congruence).
           destruct (String.prefix meta k) eqn:Hp; cbn [fst].
           ++ rewrite lookup_insert_ne; [reflexivity|].
              intros Heq. apply Hne. apply (sliceFrom_prefix_inj _ _ _ Hp), Heq.
           ++ destruct (String.prefix sysmeta k); reflexivity.
    + destruct (decide (sysmeta +:+ name ∈ keys)) as [Hin|Hnin].
      * rewrite decide_True by (right; exact Hin). reflexivity.
      * destruct (decide (k = sysmeta +:+ name)) as [->|Hne].
        -- rewrite decide_True by left. rewrite disjoint, prefix_append. cbn [snd].
           rewrite sliceFrom_append, lookup_insert_eq. reflexivity.
        -- rewrite decide_False
             by (intros Hin; apply elem_of_cons in Hin as [Heq|Hin]; congruence).
           destruct (String.prefix meta k) eqn:Hp; cbn [snd]; [reflexivity|].
           destruct (String.prefix sysmeta k) eqn:Hs; cbn [snd]; [|reflexivity].
           rewrite lookup_insert_ne; [reflexivity|].
           intros Heq. apply Hne. apply (sliceFrom_prefix_inj _ _ _ Hs), Heq.
Qed.

Lemma collectMeta_lookup headers name :
  let metas := info.collectMeta L meta (String.length meta) sysmeta (String.length sysmeta)
                 headers in
  metas.1 !! name =
    (if decide (is_Some (headers !! (meta +:+ name)))
     then Some (Header_Get L headers (meta +:+ name)) else None) /\
  metas.2 !! name =
    (if decide (is_Some (headers !! (sysmeta +:+ name)))
     then Some (Header_Get L headers (sysmeta +:+ name)) else None).
Proof.
  cbv zeta. unfold info.collectMeta.
  assert (Hkeys : forall k, k ∈ (map_to_list headers).*1 <-> is_Some (headers !! k)).
  { intros k. rewrite list_elem_of_fmap. split.
    - intros ([k' v] & -> & Hin). apply elem_of_map_to_list in Hin. eexists; exact Hin.
    - intros [v Hv]. exists (k, v). split; [reflexivity|]. apply elem_of_map_to_list, Hv. }
  destruct (collect_fold headers (map_to_list headers).*1 (∅, ∅) name) as [H1 H2].
  unfold step in H1, H2. rewrite H1, H2. cbn [fst snd]. rewrite !lookup_empty.
  split; apply decide_ext, Hkeys.
Qed.

End Info.

Lemma head_result Do reqs sched hs code :
  (resp ← firstResponse Do reqs sched; Returns (ProxyDirectClient.headResult resp))
    = Returns (hs, code) ->
  (hs = None /\ code = 404) \/
  exists resp, hs = Some (resp_Header resp) /\ code = StatusCode resp /\
               Go.div code 100 = 2 /\ exists j req, Do j req = DoOk resp.
Proof.
  intros H. destruct (firstResponse Do reqs sched) as [[resp|]| |] eqn:Hf;
    cbn [mbind exec_bind Go.bind ProxyDirectClient.headResult] in H; try discriminate H;
    injection H as <- <-.
  - right. apply firstResponse_returns in Hf as (Hcl & j & req & _ & Hdo).
    exists resp. repeat split; try assumption. exists j, req. exact Hdo.
  - left. split; reflexivity.
Qed.

Lemma HeadContainer_result L c account container headers sched hs code :
  ProxyDirectClient.HeadContainer L c account container headers sched = Returns (hs, code) ->
  (hs = None /\ code = 404) \/
  exists resp, hs = Some (resp_Header resp) /\ code = StatusCode resp /\
               Go.div code 100 = 2 /\
               exists j req, ProxyDirectClient.client c j req = DoOk resp.
Proof.
  unfold ProxyDirectClient.HeadContainer. intros H.
  destruct (ProxyDirectClient.HeadContainer_reqs L c account container headers)
    as [reqs| |]; cbn [mbind exec_bind Go.bind] in H; try discriminate H.
  eapply head_result, H.
Qed.

Lemma HeadAccount_result L c account headers sched hs code :
  ProxyDirectClient.HeadAccount L c account headers sched = Returns (hs, code) ->
  (hs = None /\ code = 404) \/
  exists resp, hs = Some (resp_Header resp) /\ code = StatusCode resp /\
               Go.div code 100 = 2 /\
               exists j req, ProxyDirectClient.client c j req = DoOk resp.
Proof.
  unfold ProxyDirectClient.HeadAccount. intros H.
  destruct (ProxyDirectClient.HeadAccount_reqs L c account headers)
    as [reqs| |]; cbn [mbind exec_bind Go.bind] in H; try discriminate H.
  eapply head_result, H.
Qed.

Lemma HeadContainer_returns L c account container headers sched :
  exists res, ProxyDirectClient.HeadContainer L c account container headers sched
              = Returns res.
Proof.
  destruct (checked_reqs_not_nil L c (CallHeadContainer account container headers))
    as [rs Hrs]; [reflexivity|discriminate|].
  cbn [subRequests] in Hrs. unfold ProxyDirectClient.HeadContainer. rewrite Hrs.
  cbn [mbind exec_bind Go.bind].
  destruct (firstResponseLoop_total (ProxyDirectClient.client c) rs 0 [] sched) as [r Hr].
  fold (firstResponse (ProxyDirectClient.client c) (Some <$> rs) sched) in Hr.
  rewrite Hr. eexists. reflexivity.
Qed.

Lemma not_2xx_404 : negb (Go.div 404 100 =? 2) = true.
Proof. reflexivity. Qed.

Section Lookups.

Variable L : Library.
Variable ParseInt : string -> option Z.
Variable Cache : Type.
Variable GetContainer : Cache -> string -> option info.ContainerInfo.
Variable SetContainer : Cache -> string -> info.ContainerInfo -> Z -> Cache.
Variable GetAccount : Cache -> string -> option info.AccountInfo.
Variable SetAccount : Cache -> string -> info.AccountInfo -> Z -> Cache.
Variable Delete : Cache -> string -> Cache.
Variable GetTimestamp : string.

Local Abbreviation ProxyContext := (info.ProxyContext Cache).
Local Abbreviation GetContainerInfo := (info.GetContainerInfo L ParseInt Cache GetContainer SetContainer).
Local Abbreviation GetAccountInfo :=
  (info.GetAccountInfo L ParseInt Cache GetAccount SetAccount GetTimestamp).
Local Abbreviation containerKey account container :=
  ("container/" +:+ account +:+ "/" +:+ container).

(** What a lookup that misses both caches does. *)
Lemma GetContainerInfo_miss (ctx : ProxyContext) account container sched :
  info.containerInfoCache Cache ctx !! containerKey account container = None ->
  GetContainer (info.Cache_ Cache ctx) (containerKey account container) = None ->
  GetContainerInfo ctx account container sched =
    (res ← ProxyDirectClient.HeadContainer L (info.c Cache ctx) account container ∅ sched;
     if negb (Go.div res.2 100 =? 2) then Returns (None, ctx)
     else match info.containerInfoOf L ParseInt (default ∅ res.1) with
          | None => Returns (None, ctx)
          | Some ci =>
              Returns (Some ci,
                       info.mkProxyContext Cache (info.c Cache ctx)
                         (info.containerInfoCache Cache ctx) (info.accountInfoCache Cache ctx)
                         (SetContainer (info.Cache_ Cache ctx)
                            (containerKey account container) ci 30))
          end).
Proof. intros H1 H2. unfold info.GetContainerInfo. rewrite H1, H2. reflexivity. Qed.

(** X19: a container lookup that misses both caches and yields an info has
    read it off a 2xx response that a container replica gave to the HEAD:
    the two counts are the parsed count headers, [Metadata] holds exactly
    the headers named X-Container-Meta-<name> under <name>, [SysMetadata]
    those named X-Container-Sysmeta-<name>, each with the first value of
    the header; the info is stored in memcache under container/<account>/
    <container> for 30 seconds and the maps of the context are left as they
    were. *)
Theorem X19_GetContainerInfo_reads_a_2xx_head (ctx ctx' : ProxyContext)
    (account container : string) (sched : list selectEvent) (ci : info.ContainerInfo) :
  info.containerInfoCache Cache ctx !! containerKey account container = None ->
  GetContainer (info.Cache_ Cache ctx) (containerKey account container) = None ->
  GetContainerInfo ctx account container sched = Returns (Some ci, ctx') ->
  exists resp,
    (exists j req, ProxyDirectClient.client (info.c Cache ctx) j req = DoOk resp) /\
    Go.div (StatusCode resp) 100 = 2 /\
    ParseInt (Header_Get L (resp_Header resp) "X-Container-Object-Count")
      = Some (info.ci_ObjectCount ci) /\
    ParseInt (Header_Get L (resp_Header resp) "X-Container-Bytes-Used")
      = Some (info.ci_ObjectBytes ci) /\
    (forall name,
       info.ci_Metadata ci !! name =
         if decide (is_Some (resp_Header resp !! ("X-Container-Meta-" +:+ name)))
         then Some (Header_Get L (resp_Header resp) ("X-Container-Meta-" +:+ name))
         else None) /\
    (forall name,
       info.ci_SysMetadata ci !! name =
         if decide (is_Some (resp_Header resp !! ("X-Container-Sysmeta-" +:+ name)))
         then Some (Header_Get L (resp_Header resp) ("X-Container-Sysmeta-" +:+ name))
         else None) /\
    ctx' = info.mkProxyContext Cache (info.c Cache ctx) (info.containerInfoCache Cache ctx)
             (info.accountInfoCache Cache ctx)
             (SetContainer (info.Cache_ Cache ctx) (containerKey account container) ci 30).
Proof.
  intros H1 H2 H. rewrite (GetContainerInfo_miss _ _ _ _ H1 H2) in H.
  destruct (ProxyDirectClient.HeadContainer L (info.c Cache ctx) account container ∅ sched)
    as [[hs code]| |] eqn:Hhead; cbn [mbind exec_bind Go.bind fst snd] in H;
    try discriminate H.
  apply HeadContainer_result in Hhead as [[-> ->]|(resp & -> & -> & Hcl & Hdo)].
  { rewrite not_2xx_404 in H. discriminate H. }
  rewrite Hcl in H. cbn [negb Z.eqb Pos.eqb default from_option id] in H.
  unfold info.containerInfoOf in H.
  destruct (ParseInt (Header_Get L (resp_Header resp) "X-Container-Object-Count"))
    as [oc|] eqn:Hoc; [|discriminate H].
  destruct (ParseInt (Header_Get L (resp_Header resp) "X-Container-Bytes-Used"))
    as [ob|] eqn:Hob; [|discriminate H].
  injection H as <- <-. exists resp. cbn [info.ci_ObjectCount info.ci_ObjectBytes
    info.ci_Metadata info.ci_SysMetadata].
  split; [exact Hdo|]. split; [exact Hcl|]. split; [exact Hoc|]. split; [exact Hob|].
  split; [|split; [|reflexivity]]; intros name;
    apply (collectMeta_lookup L "X-Container-Meta-" "X-Container-Sysmeta-"
             (fun x => eq_refl) (resp_Header resp) name).
Qed.

(** X20: a container lookup always returns - it neither panics nor blocks,
    whatever the caches, the ring, the backends and the timers do -, it
    never changes the client or the maps of the context, and when it yields
    nil the whole context, memcache included, is as it was. *)
Theorem X20_GetContainerInfo_always_returns (ctx : ProxyContext)
    (account container : string) (sched : list selectEvent) :
  exists r ctx',
    GetContainerInfo ctx account container sched = Returns (r, ctx') /\
    info.c Cache ctx' = info.c Cache ctx /\
    info.containerInfoCache Cache ctx' = info.containerInfoCache Cache ctx /\
    info.accountInfoCache Cache ctx' = info.accountInfoCache Cache ctx /\
    (r = None -> ctx' = ctx).
Proof.
  unfold info.GetContainerInfo.
  destruct (info.containerInfoCache Cache ctx !! containerKey account container) as [ci|].
  { exists (Some ci), ctx. repeat split; discriminate. }
  destruct (GetContainer (info.Cache_ Cache ctx) (containerKey account container)) as [ci|].
  { exists (Some ci), ctx. repeat split; discriminate. }
  destruct (HeadContainer_returns L (info.c Cache ctx) account container ∅ sched)
    as [res ->]. cbn [mbind exec_bind Go.bind].
  destruct (negb (Go.div res.2 100 =? 2)).
  { exists None, ctx. repeat split; reflexivity. }
  destruct (info.containerInfoOf L ParseInt (default ∅ res.1)) as [ci|].
  - eexists (Some ci), _. split; [reflexivity|]. repeat split; discriminate.
  - exists None, ctx. repeat split; reflexivity.
Qed.

(** X21: with a memcache that gives back under a key what was last set
    under it, a container lookup that yielded an info yields the same info
    again in the context it left, without a request to the backends:
    whatever the timers of the second lookup do, and with the context
    unchanged. *)
Theorem X21_GetContainerInfo_served_from_cache (ctx ctx' : ProxyContext)
    (account container : string) (sched sched' : list selectEvent)
    (ci : info.ContainerInfo) :
  (forall cache key v ttl, GetContainer (SetContainer cache key v ttl) key = Some v) ->
  GetContainerInfo ctx account container sched = Returns (Some ci, ctx') ->
  GetContainerInfo ctx' account container sched' = Returns (Some ci, ctx').
Proof.
  intros Hlaw H. unfold info.GetContainerInfo in *.
  destruct (info.containerInfoCache Cache ctx !! containerKey account container)
    as [ci0|] eqn:H1.
  { injection H as <- <-. rewrite H1. reflexivity. }
  destruct (GetContainer (info.Cache_ Cache ctx) (containerKey account container))
    as [ci0|] eqn:H2.
  { injection H as <- <-. rewrite H1, H2. reflexivity. }
  destruct (ProxyDirectClient.HeadContainer L (info.c Cache ctx) account container ∅ sched)
    as [res| |]; cbn [mbind exec_bind Go.bind] in H; try discriminate H.
  destruct (negb (Go.div res.2 100 =? 2)); [discriminate H|].
  destruct (info.containerInfoOf L ParseInt (default ∅ res.1)) as [ci0|]; [|discriminate H].
  injection H as <- <-. cbn [info.containerInfoCache info.Cache_].
  rewrite H1, Hlaw. reflexivity.
Qed.

(** X22: with a memcache that holds nothing under a key that was deleted,
    the container lookup that follows an invalidation is answered from a
    HEAD to the backends, whatever the caches held: it yields the info read
    off the headers of the HEAD when its status is 2xx, and nil otherwise. *)
Theorem X22_InvalidateContainerInfo_forces_a_head (ctx ctx' : ProxyContext)
    (account container : string) (sched : list selectEvent)
    (r : option info.ContainerInfo) :
  (forall cache key, GetContainer (Delete cache key) key = None) ->
  GetContainerInfo (info.InvalidateContainerInfo Cache Delete ctx account container)
    account container sched = Returns (r, ctx') ->
  exists hs code,
    ProxyDirectClient.HeadContainer L (info.c Cache ctx) account container ∅ sched
      = Returns (hs, code) /\
    r = if Go.div code 100 =? 2 then info.containerInfoOf L ParseInt (default ∅ hs)
        else None.
Proof.
  intros Hlaw H. rewrite GetContainerInfo_miss in H.
  - cbn [info.InvalidateContainerInfo info.c] in H.
    destruct (ProxyDirectClient.HeadContainer L (info.c Cache ctx) account container ∅ sched)
      as [[hs code]| |]; cbn [mbind exec_bind Go.bind fst snd] in H; try discriminate H.
    exists hs, code. split; [reflexivity|].
    destruct (Go.div code 100 =? 2); cbn [negb] in H.
    + destruct (info.containerInfoOf L ParseInt (default ∅ hs));
        injection H as <- _; reflexivity.
    + injection H as <- _. reflexivity.
  - cbn [info.InvalidateContainerInfo info.containerInfoCache]. apply lookup_delete_eq.
  - cbn [info.InvalidateContainerInfo info.Cache_]. apply Hlaw.
Qed.

(** What the account lookup makes of the result of its last HEAD. *)
Lemma accountInfo_read (ctx ctx' : ProxyContext) (account : string) (Do : Transport)
    (hs : option Header) (code : Z) (ai : info.AccountInfo) :
  (hs = None /\ code = 404) \/
  (exists resp, hs = Some (resp_Header resp) /\ code = StatusCode resp /\
                Go.div code 100 = 2 /\ exists j req, Do j req = DoOk resp) ->
  (if negb (Go.div code 100 =? 2) then Returns (None, ctx)
   else match info.accountInfoOf L ParseInt (default ∅ hs) with
        | None => Returns (None, ctx)
        | Some ai =>
            Returns (Some ai,
                     info.mkProxyContext Cache (info.c Cache ctx)
                       (info.containerInfoCache Cache ctx) (info.accountInfoCache Cache ctx)
                       (SetAccount (info.Cache_ Cache ctx) ("account/" +:+ account) ai 30))
        end) = Returns (Some ai, ctx') ->
  exists resp,
    (exists j req, Do j req = DoOk resp) /\
    Go.div (StatusCode resp) 100 = 2 /\
    ParseInt (Header_Get L (resp_Header resp) "X-Account-Container-Count")
      = Some (info.ai_ContainerCount ai) /\
    ParseInt (Header_Get L (resp_Header resp) "X-Account-Object-Count")
      = Some (info.ai_ObjectCount ai) /\
    ParseInt (Header_Get L (resp_Header resp) "X-Account-Bytes-Used")
      = Some (info.ai_ObjectBytes ai) /\
    (forall name,
       info.ai_Metadata ai !! name =
         if decide (is_Some (resp_Header resp !! ("X-Account-Meta-" +:+ name)))
         then Some (Header_Get L (resp_Header resp) ("X-Account-Meta-" +:+ name))
         else None) /\
    (forall name,
       info.ai_SysMetadata ai !! name =
         if decide (is_Some (resp_Header resp !! ("X-Account-Sysmeta-" +:+ name)))
         then Some (Header_Get L (resp_Header resp) ("X-Account-Sysmeta-" +:+ name))
         else None) /\
    ctx' = info.mkProxyContext Cache (info.c Cache ctx) (info.containerInfoCache Cache ctx)
             (info.accountInfoCache Cache ctx)
             (SetAccount (info.Cache_ Cache ctx) ("account/" +:+ account) ai 30).
Proof.
  intros [[-> ->]|(resp & -> & -> & Hcl & Hdo)] H.
  { rewrite not_2xx_404 in H. discriminate H. }
  rewrite Hcl in H. cbn [negb Z.eqb Pos.eqb default from_option id] in H.
  unfold info.accountInfoOf in H.
  destruct (ParseInt (Header_Get L (resp_Header resp) "X-Account-Container-Count"))
    as [cc|] eqn:Hcc; [|discriminate H].
  destruct (ParseInt (Header_Get L (resp_Header resp) "X-Account-Object-Count"))
    as [oc|] eqn:Hoc; [|discriminate H].
  destruct (ParseInt (Header_Get L (resp_Header resp) "X-Account-Bytes-Used"))
    as [ob|] eqn:Hob; [|discriminate H].
  injection H as <- <-. exists resp. cbn [info.ai_ContainerCount info.ai_ObjectCount
    info.ai_ObjectBytes info.ai_Metadata info.ai_SysMetadata].
  split; [exact Hdo|]. split; [exact Hcl|].
  split; [exact Hcc|]. split; [exact Hoc|]. split; [exact Hob|].
  split; [|split; [|reflexivity]]; intros name;
    apply (collectMeta_lookup L "X-Account-Meta-" "X-Account-Sysmeta-"
             (fun x => eq_refl) (resp_Header resp) name).
Qed.

(** X23: an account lookup that misses both caches and yields an info has
    read it off a 2xx response that an account replica gave to a HEAD:
    to the first HEAD, or - when the first HEAD gave 404 and the PUT that
    creates the account returned, whatever its status - to the second HEAD.
    The three counts are the parsed count headers, [Metadata] holds exactly
    the headers named X-Account-Meta-<name> under <name>, [SysMetadata]
    those named X-Account-Sysmeta-<name>; the info is stored in memcache
    under account/<account> for 30 seconds. *)
Theorem X23_GetAccountInfo_reads_a_2xx_head (ctx ctx' : ProxyContext) (account : string)
    (sched sched' : list selectEvent) (put again : Transport) (picks : list nat)
    (ai : info.AccountInfo) :
  info.accountInfoCache Cache ctx !! ("account/" +:+ account) = None ->
  GetAccount (info.Cache_ Cache ctx) ("account/" +:+ account) = None ->
  GetAccountInfo ctx account sched put picks again sched' = Returns (Some ai, ctx') ->
  exists resp,
    ((exists j req, ProxyDirectClient.client (info.c Cache ctx) j req = DoOk resp) \/
     (exists hs st j req,
        ProxyDirectClient.HeadAccount L (info.c Cache ctx) account ∅ sched
          = Returns (hs, 404) /\
        ProxyDirectClient.PutAccount L (info.answering Cache ctx put) account
          {[ "X-Timestamp" := [GetTimestamp] ]} picks = Returns st /\
        again j req = DoOk resp)) /\
    Go.div (StatusCode resp) 100 = 2 /\
    ParseInt (Header_Get L (resp_Header resp) "X-Account-Container-Count")
      = Some (info.ai_ContainerCount ai) /\
    ParseInt (Header_Get L (resp_Header resp) "X-Account-Object-Count")
      = Some (info.ai_ObjectCount ai) /\
    ParseInt (Header_Get L (resp_Header resp) "X-Account-Bytes-Used")
      = Some (info.ai_ObjectBytes ai) /\
    (forall name,
       info.ai_Metadata ai !! name =
         if decide (is_Some (resp_Header resp !! ("X-Account-Meta-" +:+ name)))
         then Some (Header_Get L (resp_Header resp) ("X-Account-Meta-" +:+ name))
         else None) /\
    (forall name,
       info.ai_SysMetadata ai !! name =
         if decide (is_Some (resp_Header resp !! ("X-Account-Sysmeta-" +:+ name)))
         then Some (Header_Get L (resp_Header resp) ("X-Account-Sysmeta-" +:+ name))
         else None) /\
    ctx' = info.mkProxyContext Cache (info.c Cache ctx) (info.containerInfoCache Cache ctx)
             (info.accountInfoCache Cache ctx)
             (SetAccount (info.Cache_ Cache ctx) ("account/" +:+ account) ai 30).
Proof.
  intros H1 H2 H. unfold info.GetAccountInfo in H. rewrite H1, H2 in H.
  destruct (ProxyDirectClient.HeadAccount L (info.c Cache ctx) account ∅ sched)
    as [[hs0 code0]| |] eqn:Hhead; cbn [mbind exec_bind Go.bind fst snd] in H;
    try discriminate H.
  destruct (Z.eqb_spec code0 404) as [->|Hne].
  - destruct (ProxyDirectClient.PutAccount L (info.answering Cache ctx put) account
                {[ "X-Timestamp" := [GetTimestamp] ]} picks) as [st| |] eqn:Hput;
      cbn [mbind exec_bind Go.bind] in H; try discriminate H.
    destruct (ProxyDirectClient.HeadAccount L (info.answering Cache ctx again) account ∅
                sched') as [[hs code]| |] eqn:Hhead';
      cbn [mbind exec_bind Go.bind fst snd] in H; try discriminate H.
    apply HeadAccount_result in Hhead'. cbn [info.answering ProxyDirectClient.client] in Hhead'.
    destruct (accountInfo_read _ _ _ _ _ _ _ Hhead' H) as (resp & (j & req & Hdo) & Hrest).
    exists resp. split; [|exact Hrest].
    right. exists hs0, st, j, req. split; [reflexivity|]. split; [reflexivity|]. exact Hdo.
  - cbn [mbind exec_bind Go.bind fst snd] in H.
    apply HeadAccount_result in Hhead.
    destruct (accountInfo_read _ _ _ _ _ _ _ Hhead H) as (resp & Hdo & Hrest).
    exists resp. split; [|exact Hrest]. left. exact Hdo.
Qed.

(** X24: an account lookup that misses both caches never returns when the
    first HEAD gives 404 and the statuses that the account replicas give to
    the PUT that creates the account reach no majority: the PUT blocks in
    the quorum dispatcher, and the lookup with it. *)
Theorem X24_GetAccountInfo_blocks_with_the_PUT (ctx : ProxyContext) (account : string)
    (sched sched' : list selectEvent) (put again : Transport) (picks : list nat)
    (hs : option Header) (rs : list Request) :
  info.accountInfoCache Cache ctx !! ("account/" +:+ account) = None ->
  GetAccount (info.Cache_ Cache ctx) ("account/" +:+ account) = None ->
  ProxyDirectClient.HeadAccount L (info.c Cache ctx) account ∅ sched = Returns (hs, 404) ->
  ProxyDirectClient.PutAccount_reqs L (info.answering Cache ctx put) account
    {[ "X-Timestamp" := [GetTimestamp] ]} = Returns (Some <$> rs) ->
  Forall (fun s => 0 <= s) (statuses put rs) ->
  (forall k : nat, (k < 6)%nat ->
     classCount (Z.of_nat k) (statuses put rs) < quorum (length rs)) ->
  GetAccountInfo ctx account sched put picks again sched' = BlocksForever.
Proof.
  intros H1 H2 Hhead Hreqs Hpos Hlt. unfold info.GetAccountInfo.
  rewrite H1, H2, Hhead. cbn [mbind exec_bind Go.bind fst snd Z.eqb Pos.eqb].
  unfold ProxyDirectClient.PutAccount. rewrite Hreqs. cbn [mbind exec_bind Go.bind].
  cbn [info.answering ProxyDirectClient.client].
  rewrite (quorumResponse_no_majority put rs picks Hpos Hlt). reflexivity.
Qed.

End Lookups.

Lemma X19_GetContainerInfo_reads_a_2xx_head_witness :
  exists resp,
    (exists j req,
       ProxyDirectClient.client
         (info.c _ (InfoExamples.emptyContext InfoExamples.oneContainer)) j req = DoOk resp) /\
    Go.div (StatusCode resp) 100 = 2 /\
    InfoExamples.ParseInt (Header_Get Examples.lib (resp_Header resp) "X-Container-Object-Count")
      = Some 3 /\
    InfoExamples.ParseInt (Header_Get Examples.lib (resp_Header resp) "X-Container-Bytes-Used")
      = Some 1024 /\
    (forall name,
       info.ci_Metadata InfoExamples.containerInfo !! name =
         if decide (is_Some (resp_Header resp !! ("X-Container-Meta-" +:+ name)))
         then Some (Header_Get Examples.lib (resp_Header resp) ("X-Container-Meta-" +:+ name))
         else None) /\
    (forall name,
       info.ci_SysMetadata InfoExamples.containerInfo !! name =
         if decide (is_Some (resp_Header resp !! ("X-Container-Sysmeta-" +:+ name)))
         then Some (Header_Get Examples.lib (resp_Header resp)
                      ("X-Container-Sysmeta-" +:+ name))
         else None) /\
    InfoExamples.cachedContext =
      info.mkProxyContext _ InfoExamples.oneContainer ∅ ∅
        (InfoExamples.SetContainer (∅, ∅) "container/acc/cont" InfoExamples.containerInfo 30).
Proof.
  apply (X19_GetContainerInfo_reads_a_2xx_head Examples.lib InfoExamples.ParseInt
           InfoExamples.Cache InfoExamples.GetContainer InfoExamples.SetContainer
           (InfoExamples.emptyContext InfoExamples.oneContainer) InfoExamples.cachedContext
           "acc" "cont" [RecvSuccess 0] InfoExamples.containerInfo).
  - reflexivity.
  - reflexivity.
  - vm_compute. reflexivity.
Defined.

Lemma X21_GetContainerInfo_served_from_cache_witness :
  info.GetContainerInfo Examples.lib InfoExamples.ParseInt InfoExamples.Cache
    InfoExamples.GetContainer InfoExamples.SetContainer InfoExamples.cachedContext
    "acc" "cont" [TimeAfter]
  = Returns (Some InfoExamples.containerInfo, InfoExamples.cachedContext).
Proof.
  apply (X21_GetContainerInfo_served_from_cache Examples.lib InfoExamples.ParseInt
           InfoExamples.Cache InfoExamples.GetContainer InfoExamples.SetContainer
           (InfoExamples.emptyContext InfoExamples.oneContainer) InfoExamples.cachedContext
           "acc" "cont" [RecvSuccess 0]).
  - intros cache key v ttl. apply lookup_insert_eq.
  - vm_compute. reflexivity.
Defined.

Lemma X22_InvalidateContainerInfo_forces_a_head_witness :
  exists hs code,
    ProxyDirectClient.HeadContainer Examples.lib InfoExamples.oneContainer "acc" "cont" ∅
      [RecvSuccess 0] = Returns (hs, code) /\
    Some InfoExamples.containerInfo =
      if Go.div code 100 =? 2
      then info.containerInfoOf Examples.lib InfoExamples.ParseInt (default ∅ hs)
      else None.
Proof.
  apply (X22_InvalidateContainerInfo_forces_a_head Examples.lib InfoExamples.ParseInt
           InfoExamples.Cache InfoExamples.GetContainer InfoExamples.SetContainer
           InfoExamples.Delete InfoExamples.cachedContext InfoExamples.cachedContext
           "acc" "cont" [RecvSuccess 0]).
  - intros cache key. apply lookup_delete_eq.
  - vm_compute. reflexivity.
Defined.

Lemma X23_GetAccountInfo_reads_a_2xx_head_witness :
  exists resp,
    ((exists j req,
        ProxyDirectClient.client
          (info.c _ (InfoExamples.emptyContext InfoExamples.newAccount)) j req = DoOk resp) \/
     (exists hs st j req,
        ProxyDirectClient.HeadAccount Examples.lib InfoExamples.newAccount "acc" ∅
          [RecvSuccess 0] = Returns (hs, 404) /\
        ProxyDirectClient.PutAccount Examples.lib
          (info.answering _ (InfoExamples.emptyContext InfoExamples.newAccount)
             InfoExamples.created) "acc"
          {[ "X-Timestamp" := [InfoExamples.timestamp] ]} [0%nat] = Returns st /\
        InfoExamples.accountAnswer j req = DoOk resp)) /\
    Go.div (StatusCode resp) 100 = 2 /\
    InfoExamples.ParseInt (Header_Get Examples.lib (resp_Header resp) "X-Account-Container-Count")
      = Some 2 /\
    InfoExamples.ParseInt (Header_Get Examples.lib (resp_Header resp) "X-Account-Object-Count")
      = Some 7 /\
    InfoExamples.ParseInt (Header_Get Examples.lib (resp_Header resp) "X-Account-Bytes-Used")
      = Some 4096 /\
    (forall name,
       info.ai_Metadata InfoExamples.accountInfo !! name =
         if decide (is_Some (resp_Header resp !! ("X-Account-Meta-" +:+ name)))
         then Some (Header_Get Examples.lib (resp_Header resp) ("X-Account-Meta-" +:+ name))
         else None) /\
    (forall name,
       info.ai_SysMetadata InfoExamples.accountInfo !! name =
         if decide (is_Some (resp_Header resp !! ("X-Account-Sysmeta-" +:+ name)))
         then Some (Header_Get Examples.lib (resp_Header resp) ("X-Account-Sysmeta-" +:+ name))
         else None) /\
    info.mkProxyContext _ InfoExamples.newAccount ∅ ∅
      (∅, {[ "account/acc" := InfoExamples.accountInfo ]}) =
      info.mkProxyContext _ InfoExamples.newAccount ∅ ∅
        (InfoExamples.SetAccount (∅, ∅) "account/acc" InfoExamples.accountInfo 30).
Proof.
  apply (X23_GetAccountInfo_reads_a_2xx_head Examples.lib InfoExamples.ParseInt
           InfoExamples.Cache InfoExamples.GetAccount InfoExamples.SetAccount
           InfoExamples.timestamp
           (InfoExamples.emptyContext InfoExamples.newAccount) _
           "acc" [RecvSuccess 0] [RecvSuccess 0] InfoExamples.created InfoExamples.accountAnswer
           [0%nat] InfoExamples.accountInfo).
  - reflexivity.
  - reflexivity.
  - vm_compute. reflexivity.
Defined.

Lemma X24_GetAccountInfo_blocks_with_the_PUT_witness :
  info.GetAccountInfo Examples.lib InfoExamples.ParseInt InfoExamples.Cache
    InfoExamples.GetAccount InfoExamples.SetAccount InfoExamples.timestamp
    (InfoExamples.emptyContext Examples.allMissing) "acc"
    [RecvSuccess 0; RecvSuccess 0; RecvSuccess 0] InfoExamples.splitAnswers
    [0%nat; 0%nat; 0%nat] InfoExamples.accountAnswer [RecvSuccess 0]
  = BlocksForever.
Proof.
  apply (X24_GetAccountInfo_blocks_with_the_PUT Examples.lib InfoExamples.ParseInt
           InfoExamples.Cache InfoExamples.GetAccount InfoExamples.SetAccount
           InfoExamples.timestamp (InfoExamples.emptyContext Examples.allMissing) "acc"
           [RecvSuccess 0; RecvSuccess 0; RecvSuccess 0] [RecvSuccess 0]
           InfoExamples.splitAnswers InfoExamples.accountAnswer [0%nat; 0%nat; 0%nat]
           None InfoExamples.createReqs).
  - reflexivity.
  - reflexivity.
  - vm_compute. reflexivity.
  - vm_compute. reflexivity.
  - vm_compute. repeat constructor; discriminate.
  - intros k Hk.
    do 6 (destruct k as [|k]; [vm_compute; reflexivity|]). lia.
Defined.
